(** * Repository analysis engine of [backend/server.py]

    A shallow embedding of the analysis passes of the repository analyzer
    ([detect_framework], [find_entry_points], [parse_imports_python],
    [parse_imports_js], [analyze_file_structure], [get_ai_insights] and the
    [analyze_repository] route) together with the properties the
    specification states about them.

    Conventions of the embedding:
    - the file system is an explicit tree ([node]); a [Path] is its list of
      parts below the file-system root, so [repo_path / "x"] is
      [repo_path ++ ["x"]]; the tree holds what each path resolves to, a
      symbolic link is not told apart from its target;
    - a Python [try: ... except: pass] block is a computation in the small
      state-and-error monad [M], whose state is the list being appended to;
    - library functions whose code is not part of the repository
      ([ast.parse], [json.load], [re.findall], [str.lower], [str] of a
      non-string JSON value, [uuid.uuid4]) are the fields of the class
      [Runtime];
    - text is a [string] holding the UTF-8 bytes of its characters;
    - an awaited call ends in a value, in an instance of [Exception], or in
      a cancellation ([asyncio.CancelledError], which [except Exception]
      does not catch);
    - [rglob] lists a directory's entries before it descends into its
      sub-directories; no property below depends on that order. *)

From Stdlib Require Import Ascii String.
From stdpp Require Import base option list strings gmap pretty.

Set Warnings "-register-all".
Local Open Scope string_scope.
Local Open Scope list_scope.

(** ** Strings *)

Module Str.

(** [s.startswith(p)] *)
Fixpoint startswith (p s : string) : bool :=
  match p, s with
  | EmptyString, _ => true
  | String a p', String b s' => Ascii.eqb a b && startswith p' s'
  | String _ _, EmptyString => false
  end.

(** [needle in s] for two Python strings. *)
Fixpoint contains (needle s : string) : bool :=
  startswith needle s ||
  match s with
  | EmptyString => false
  | String _ s' => contains needle s'
  end.

Definition ascii_lower (c : ascii) : ascii :=
  let n := nat_of_ascii c in
  if (65 <=? n)%nat && (n <=? 90)%nat then ascii_of_nat (n + 32) else c.

(** [s.lower()] for a text of ASCII characters. *)
Fixpoint lower (s : string) : string :=
  match s with
  | EmptyString => EmptyString
  | String c s' => String (ascii_lower c) (lower s')
  end.

(** A byte that continues a UTF-8 character ([10xxxxxx]). *)
Definition is_continuation (c : ascii) : bool :=
  let n := nat_of_ascii c in (128 <=? n)%nat && (n <? 192)%nat.

(** The first [n] characters of a text: a character is its leading byte
    with the continuation bytes that follow it. *)
Fixpoint take_chars (n : nat) (s : string) : string :=
  match s with
  | EmptyString => EmptyString
  | String c s' =>
      if is_continuation c then String c (take_chars n s')
      else
        match n with
        | O => EmptyString
        | S n' => String c (take_chars n' s')
        end
  end.

(** [sep.join(l)] *)
Definition join (sep : string) (l : list string) : string := String.concat sep l.

(** [s.rfind(c)] for a one-character [c]; [None] stands for [-1]. *)
Fixpoint rfind (c : ascii) (s : string) : option nat :=
  match s with
  | EmptyString => None
  | String a s' =>
      match rfind c s' with
      | Some i => Some (S i)
      | None => if Ascii.eqb a c then Some 0%nat else None
      end
  end.

(** [s.rstrip(c)] for a one-character [c]. *)
Fixpoint rstrip (c : ascii) (s : string) : string :=
  match s with
  | EmptyString => EmptyString
  | String a s' =>
      match rstrip c s' with
      | EmptyString => if Ascii.eqb a c then EmptyString else String a EmptyString
      | r => String a r
      end
  end.

(** The text after the last [c], which is [s.split(c)[-1]]. *)
Definition last_segment (c : ascii) (s : string) : string :=
  match rfind c s with
  | Some i => String.substring (S i) (String.length s - S i) s
  | None => s
  end.

(** [s.replace(old, "")] for a non-empty [old]: occurrences are removed
    from left to right, without rescanning. *)
Fixpoint remove_all_fuel (fuel : nat) (old s : string) : string :=
  match fuel with
  | O => s
  | S fuel' =>
      match s with
      | EmptyString => EmptyString
      | String a s' =>
          if startswith old s
          then remove_all_fuel fuel'
                 old (String.substring (String.length old)
                        (String.length s - String.length old) s)
          else String a (remove_all_fuel fuel' old s')
      end
  end.

Definition remove_all (old s : string) : string :=
  remove_all_fuel (String.length s) old s.

(** The double-quote and the newline characters, by code. *)
Definition dquote : string := String (ascii_of_nat 34) EmptyString.
Definition nl : string := String (ascii_of_nat 10) EmptyString.

End Str.

(** ** Paths and the file system *)

(** A path is the list of its parts below the file-system root. *)
Definition Path : Type := list string.

(** A regular file carries the text a text-mode [read()] returns, under
    UTF-8 and under the default encoding alike ([None] when opening or
    decoding raises), what [read(n)] returns ([None] when it raises: the
    first [n] characters can decode where the whole file does not), and
    the size [stat()] reports ([None] when [stat()] raises). *)
Inductive node : Type :=
| Regular (text : option string) (leading : nat -> option string) (st_size : option nat)
| Dir (entries : list (string * node)).

(** A file whose reads agree: [read(n)] gives the first [n] characters of
    what [read()] gives. *)
Definition File (text : option string) (st_size : option nat) : node :=
  Regular text (fun n => Str.take_chars n <$> text) st_size.

Module Fs.

Fixpoint find_entry (name : string) (es : list (string * node)) : option node :=
  match es with
  | [] => None
  | (n, c) :: es' => if String.eqb n name then Some c else find_entry name es'
  end.

Fixpoint resolve (fs : node) (p : Path) : option node :=
  match p with
  | [] => Some fs
  | x :: p' =>
      match fs with
      | Dir es =>
          match find_entry x es with
          | Some c => resolve c p'
          | None => None
          end
      | Regular _ _ _ => None
      end
  end.

(** [p.exists()] *)
Definition exists_ (fs : node) (p : Path) : bool :=
  match resolve fs p with Some _ => true | None => false end.

(** [p.is_file()] *)
Definition is_file (fs : node) (p : Path) : bool :=
  match resolve fs p with Some (Regular _ _ _) => true | _ => false end.

(** [with open(p, 'r') as f: f.read()]; [None] when it raises (no such
    file, a directory, undecodable bytes). *)
Definition read (fs : node) (p : Path) : option string :=
  match resolve fs p with
  | Some (Regular text _ _) => text
  | _ => None
  end.

(** [with open(p, 'r') as f: f.read(n)]: the first [n] characters; [None]
    when it raises. *)
Definition read_prefix (n : nat) (fs : node) (p : Path) : option string :=
  match resolve fs p with
  | Some (Regular _ leading _) => leading n
  | _ => None
  end.

(** [p.stat().st_size]; [None] when [stat()] raises.  The walker asks for
    the size of files only; a directory is given size 0 here. *)
Definition stat_size (fs : node) (p : Path) : option nat :=
  match resolve fs p with
  | Some (Regular _ _ sz) => sz
  | Some (Dir _) => Some 0%nat
  | None => None
  end.

(** [p.rglob('*')] below a directory found at [p]: the children of the
    directory, then, for each sub-directory in listing order, its own
    [rglob] (pathlib visits a directory's entries before it descends). *)
Fixpoint rglob_node (p : Path) (n : node) : list Path :=
  match n with
  | Regular _ _ _ => []
  | Dir es =>
      map (fun e => p ++ [fst e]) es ++
      flat_map (fun e => rglob_node (p ++ [fst e]) (snd e)) es
  end.

Definition rglob (fs : node) (p : Path) : list Path :=
  match resolve fs p with
  | Some n => rglob_node p n
  | None => []
  end.

(** [p.name] and [p.suffix] as pathlib computes them. *)
Definition name (p : Path) : string := List.last p "".

Definition suffix (p : Path) : string :=
  let nm := name p in
  match Str.rfind "." nm with
  | Some i =>
      if (0 <? i)%nat && (i <? String.length nm - 1)%nat
      then String.substring i (String.length nm - i) nm
      else ""
  | None => ""
  end.

(** [str(p.relative_to(base))] *)
Definition relative_to (base p : Path) : Path := drop (length base) p.

Definition render (rel : Path) : string := Str.join "/" rel.

(** *** Updates: what [mkdtemp], a checkout and [shutil.rmtree] do *)

(** The listing with the entry [x] bound to [n]: in place when [x] is
    listed, at the end otherwise. *)
Fixpoint set_entry (x : string) (n : node) (es : list (string * node))
  : list (string * node) :=
  match es with
  | [] => [(x, n)]
  | (y, c) :: es' =>
      if String.eqb y x then (x, n) :: es' else (y, c) :: set_entry x n es'
  end.

Fixpoint remove_entry (x : string) (es : list (string * node))
  : list (string * node) :=
  match es with
  | [] => []
  | (y, c) :: es' =>
      if String.eqb y x then remove_entry x es' else (y, c) :: remove_entry x es'
  end.

Definition entries_of (n : node) : list (string * node) :=
  match n with
  | Dir es => es
  | Regular _ _ _ => []
  end.

(** The file system with [n] stored at [p] (parents are created). *)
Fixpoint put (p : Path) (n : node) (fs : node) : node :=
  match p with
  | [] => n
  | x :: p' =>
      let es := entries_of fs in
      let child := default (Dir []) (find_entry x es) in
      Dir (set_entry x (put p' n child) es)
  end.

(** The file system without the tree at [p]. *)
Fixpoint remove (p : Path) (fs : node) : node :=
  match p with
  | [] => fs
  | [x] => Dir (remove_entry x (entries_of fs))
  | x :: p' =>
      match fs with
      | Dir es =>
          match find_entry x es with
          | Some child => Dir (set_entry x (remove p' child) es)
          | None => fs
          end
      | Regular _ _ _ => fs
      end
  end.

End Fs.

(** ** Insertion-ordered dictionaries with string keys *)

Module Dict.

Definition t (V : Type) : Type := list (string * V).

(** [d[k] = v] *)
Fixpoint set {V} (k : string) (v : V) (d : t V) : t V :=
  match d with
  | [] => [(k, v)]
  | (k', v') :: d' =>
      if String.eqb k' k then (k, v) :: d' else (k', v') :: set k v d'
  end.

(** [d.get(k)] *)
Fixpoint get {V} (k : string) (d : t V) : option V :=
  match d with
  | [] => None
  | (k', v') :: d' => if String.eqb k' k then Some v' else get k d'
  end.

(** [list(d.keys())] *)
Definition keys {V} (d : t V) : list string := map fst d.

End Dict.

(** ** Values produced by [json.load] *)

Inductive json : Type :=
| JNull
| JBool (b : bool)
| JNum (literal : string)
| JStr (s : string)
| JArr (items : list json)
| JObj (members : list (string * json)).

Module Py.

(** The [dict] built from the members of a JSON object, a later member
    overriding an earlier one with the same key; [None] when the value is
    no [dict]. *)
Definition as_dict (v : json) : option (gmap string json) :=
  match v with
  | JObj ms => Some (foldl (fun d kv => <[fst kv := snd kv]> d) ∅ ms)
  | _ => None
  end.

(** [v.get(key, default)]; [None] is the [AttributeError] of a value that
    is no [dict]. *)
Definition get (key : string) (dflt : json) (v : json) : option json :=
  d ← as_dict v; Some (default dflt (d !! key)).

(** [key in d] for a [dict]. *)
Definition has (key : string) (d : gmap string json) : bool :=
  bool_decide (is_Some (d !! key)).

(** [{**a, **b}]; [None] is the [TypeError] of spreading a value that is
    no mapping. *)
Definition spread (a b : json) : option (gmap string json) :=
  da ← as_dict a; db ← as_dict b; Some (db ∪ da).

(** [key in v] for a string [key] and any JSON value [v]; [None] is the
    [TypeError] of a value that is not iterable. *)
Definition contains (key : string) (v : json) : option bool :=
  match v with
  | JObj _ => has key <$> as_dict v
  | JArr items =>
      Some (existsb (fun x => match x with JStr s => String.eqb s key | _ => false end) items)
  | JStr s => Some (Str.contains key s)
  | JNull | JBool _ | JNum _ => None
  end.

(** [v[key]] for a string [key]; [None] is the [KeyError] or [TypeError]. *)
Definition subscript (v : json) (key : string) : option json :=
  d ← as_dict v; d !! key.

(** Truth value of a list and of a string. *)
Definition truthy {A} (l : list A) : bool :=
  match l with [] => false | _ => true end.

Definition truthy_str (s : string) : bool :=
  match s with EmptyString => false | _ => true end.

End Py.

(** ** The syntax tree [ast.parse] returns *)

Record alias : Type := Alias { alias_name : string; alias_asname : option string }.

(** Only the two import statements are told apart; every other node is
    [Other] with its child nodes in [ast.iter_child_nodes] order. *)
Inductive ast : Type :=
| Import (names : list alias)
| ImportFrom (module : option string) (names : list alias) (level : nat)
| AliasNode (a : alias)
| Other (children : list ast).

(** ** Library functions the code calls *)

Class Runtime : Type := {
  (** [ast.parse(text)]; [None] when it raises. *)
  ast_parse : string -> option ast;
  (** [json.loads(text)]; [None] when it raises. *)
  json_loads : string -> option json;
  (** [re.findall(pattern, text)] for a pattern with one group. *)
  re_findall : string -> string -> list string;
  (** [text.lower()] *)
  str_lower : string -> string;
  (** [str(v)] for a JSON value that is no string. *)
  py_repr : json -> string;
  (** The [n]-th value drawn from [uuid.uuid4()], as a string. *)
  uuid4 : nat -> string
}.

(** ** A block that appends to a list and may raise *)

Definition M (A : Type) : Type := list string -> option A * list string.

Module MonadM.

Definition ret {A} (a : A) : M A := fun s => (Some a, s).

Definition bind {A B} (m : M A) (k : A -> M B) : M B :=
  fun s =>
    match m s with
    | (Some a, s') => k a s'
    | (None, s') => (None, s')
    end.

(** A value that may have raised. *)
Definition lift {A} (o : option A) : M A := fun s => (o, s).

(** [l.append(x)] *)
Definition append (x : string) : M unit := fun s => (Some tt, s ++ [x]).

Definition when (b : bool) (m : M unit) : M unit := if b then m else ret tt.

(** [try: m except: pass] run on the list [s]. *)
Definition try_pass (m : M unit) (s : list string) : list string := snd (m s).

End MonadM.

#[global] Instance M_ret : MRet M := @MonadM.ret.
#[global] Instance M_bind : MBind M := fun A B k m => MonadM.bind m k.

Import MonadM.

Section Engine.

Context `{rt : Runtime}.

(** ** [detect_framework] *)

(** [json.load] of the file at [p]. *)
Definition json_load (fs : node) (p : Path) : option json :=
  Fs.read fs p ≫= json_loads.

(** The [deps] dictionary of the [package.json] block. *)
Definition package_json_deps (fs : node) (package_json : Path)
  : option (gmap string json) :=
  data ← json_load fs package_json;
  a ← Py.get "dependencies" (JObj []) data;
  b ← Py.get "devDependencies" (JObj []) data;
  Py.spread a b.

(** The body of the [try] over [package.json]. *)
Definition scan_package_json (fs : node) (package_json : Path) : M unit :=
  deps ← lift (package_json_deps fs package_json);
  (if Py.has "next" deps then append "Next.js"
   else if Py.has "react" deps || Py.has "react-dom" deps then append "React"
   else mret tt);;
  when (Py.has "vue" deps) (append "Vue");;
  when (Py.has "angular" deps || Py.has "@angular/core" deps) (append "Angular");;
  when (Py.has "svelte" deps) (append "Svelte").

(** [fnmatch] of a file name against [*.js*]. *)
Definition matches_js_glob (nm : string) : bool := Str.contains ".js" nm.

(** The loop over [src_dir.rglob('*.js*')]: a file that cannot be read is
    skipped, the first file with a fingerprint ends the loop. *)
Fixpoint sample_loop (fs : node) (files : list Path) (frameworks : list string)
  : list string :=
  match files with
  | [] => frameworks
  | file :: rest =>
      match Fs.read_prefix 100 fs file with
      | Some content =>
          if Str.contains "react" (str_lower content) || Str.contains "import React" content
          then frameworks ++ ["React"]
          else sample_loop fs rest frameworks
      | None => sample_loop fs rest frameworks
      end
  end.

(** The block guarded by [if not frameworks]. *)
Definition sample_src (fs : node) (repo_path : Path) (frameworks : list string)
  : list string :=
  if negb (Py.truthy frameworks) then
    let src_dir := repo_path ++ ["src"] in
    if Fs.exists_ fs src_dir
    then sample_loop fs
           (filter (fun p => matches_js_glob (Fs.name p) = true) (Fs.rglob fs src_dir))
           frameworks
    else frameworks
  else frameworks.

(** The body of the [try] over [requirements.txt]. *)
Definition scan_requirements (fs : node) (requirements_txt : Path) : M unit :=
  content ← lift (str_lower <$> Fs.read fs requirements_txt);
  when (Str.contains "django" content) (append "Django");;
  when (Str.contains "flask" content) (append "Flask");;
  when (Str.contains "fastapi" content) (append "FastAPI").

Definition append_if (b : bool) (x : string) (l : list string) : list string :=
  if b then l ++ [x] else l.

(** The list [frameworks] at the [return] of [detect_framework]. *)
Definition detected_frameworks (fs : node) (repo_path : Path) : list string :=
  let frameworks := [] in
  let package_json := repo_path ++ ["package.json"] in
  let frameworks :=
    if Fs.exists_ fs package_json
    then try_pass (scan_package_json fs package_json) frameworks
    else frameworks in
  let frameworks := sample_src fs repo_path frameworks in
  let requirements_txt := repo_path ++ ["requirements.txt"] in
  let frameworks :=
    if Fs.exists_ fs requirements_txt
    then try_pass (scan_requirements fs requirements_txt) frameworks
    else frameworks in
  let frameworks := append_if (Fs.exists_ fs (repo_path ++ ["go.mod"])) "Go" frameworks in
  let frameworks := append_if (Fs.exists_ fs (repo_path ++ ["pom.xml"])) "Java/Maven" frameworks in
  let frameworks := append_if (Fs.exists_ fs (repo_path ++ ["build.gradle"])) "Java/Gradle" frameworks in
  frameworks.

Definition detect_framework (fs : node) (repo_path : Path) : string :=
  let frameworks := detected_frameworks fs repo_path in
  if Py.truthy frameworks then Str.join ", " frameworks else "Unknown".

(** ** [find_entry_points] *)

Definition common_entries : list string :=
  [ "index.js"; "index.ts"; "index.jsx"; "index.tsx";
    "main.py"; "app.py"; "server.py"; "manage.py";
    "main.go"; "main.java"; "Main.java";
    "index.html"; "App.js"; "App.tsx" ].

(** [str(v)] inside an f-string. *)
Definition py_str (v : json) : string :=
  match v with
  | JStr s => s
  | _ => py_repr v
  end.

(** The first loop: [for entry in common_entries]. *)
Definition root_entries_loop (fs : node) (repo_path : Path) (entry_points : list string)
  : list string :=
  foldl (fun acc entry => append_if (Fs.exists_ fs (repo_path ++ [entry])) entry acc)
        entry_points common_entries.

(** The body of the [try] over the scripts of [package.json]. *)
Definition scan_scripts (fs : node) (package_json : Path) : M unit :=
  data ← lift (json_load fs package_json);
  scripts ← lift (Py.get "scripts" (JObj []) data);
  has_start ← lift (Py.contains "start" scripts);
  when has_start
    (cmd ← lift (Py.subscript scripts "start");
     append ("npm start: " +:+ py_str cmd));;
  has_dev ← lift (Py.contains "dev" scripts);
  when has_dev
    (cmd ← lift (Py.subscript scripts "dev");
     append ("npm run dev: " +:+ py_str cmd)).

(** The last loop: [for entry in common_entries] below [src]. *)
Definition src_entries_loop (fs : node) (src_dir : Path) (entry_points : list string)
  : list string :=
  foldl (fun acc entry =>
           append_if (Fs.exists_ fs (src_dir ++ [entry]) && negb (bool_decide (entry ∈ acc)))
                     ("src/" +:+ entry) acc)
        entry_points common_entries.

Definition find_entry_points (fs : node) (repo_path : Path) : list string :=
  let entry_points := [] in
  let entry_points := root_entries_loop fs repo_path entry_points in
  let package_json := repo_path ++ ["package.json"] in
  let entry_points :=
    if Fs.exists_ fs package_json
    then try_pass (scan_scripts fs package_json) entry_points
    else entry_points in
  let src_dir := repo_path ++ ["src"] in
  let entry_points :=
    if Fs.exists_ fs src_dir
    then src_entries_loop fs src_dir entry_points
    else entry_points in
  entry_points.

(** ** [parse_imports_python] *)

(** [ast.iter_child_nodes] *)
Definition iter_child_nodes (n : ast) : list ast :=
  match n with
  | Import names => map AliasNode names
  | ImportFrom _ names _ => map AliasNode names
  | AliasNode _ => []
  | Other children => children
  end.

Fixpoint ast_size (n : ast) : nat :=
  match n with
  | Import names => S (length names)
  | ImportFrom _ names _ => S (length names)
  | AliasNode _ => 1
  | Other children => S (foldr (fun c acc => ast_size c + acc) 0 children)
  end.

(** The loop of [ast.walk]: pop the first node of the queue, push its
    children at the end, yield the node.  [fuel] bounds the number of
    iterations. *)
Fixpoint walk_loop (fuel : nat) (todo : list ast) : list ast :=
  match fuel, todo with
  | S fuel', n :: rest => n :: walk_loop fuel' (rest ++ iter_child_nodes n)
  | _, _ => []
  end.

(** [ast.walk(tree)]: a tree of [ast_size tree] nodes needs that many
    iterations ([walk_loop_enough] below). *)
Definition walk (tree : ast) : list ast := walk_loop (ast_size tree) [tree].

(** The body of [for node in ast.walk(tree)]. *)
Definition visit (n : ast) : M unit :=
  match n with
  | Import names => foldr (fun a k => append (alias_name a);; k) (mret tt) names
  | ImportFrom module _ _ =>
      match module with
      | Some m => when (Py.truthy_str m) (append m)
      | None => mret tt
      end
  | _ => mret tt
  end.

Definition parse_python_body (fs : node) (file_path : Path) : M unit :=
  text ← lift (Fs.read fs file_path);
  tree ← lift (ast_parse text);
  foldr (fun n k => visit n;; k) (mret tt) (walk tree).

Definition parse_imports_python (fs : node) (file_path : Path) : list string :=
  let imports := [] in
  try_pass (parse_python_body fs file_path) imports.

(** ** [parse_imports_js] *)

Definition es6_pattern : string :=
  "import\s+.*?from\s+[\'" +:+ Str.dquote +:+ "]([^\'" +:+ Str.dquote +:+ "]+)[\'"
  +:+ Str.dquote +:+ "]".

Definition require_pattern : string :=
  "require\([\'" +:+ Str.dquote +:+ "]([^\'" +:+ Str.dquote +:+ "]+)[\'"
  +:+ Str.dquote +:+ "]\)".

(** [l.extend(xs)] *)
Definition extend (xs : list string) : M unit := fun s => (Some tt, s ++ xs).

Definition parse_js_body (fs : node) (file_path : Path) : M unit :=
  content ← lift (Fs.read fs file_path);
  extend (re_findall es6_pattern content);;
  extend (re_findall require_pattern content).

Definition parse_imports_js (fs : node) (file_path : Path) : list string :=
  let imports := [] in
  try_pass (parse_js_body fs file_path) imports.

End Engine.

(** ** [analyze_file_structure] *)

Module FileNode.

Record t : Type := Build {
  id : string;
  name : string;
  path : string;
  type : string;
  imports : list string;
  size : nat
}.

End FileNode.

Section Walker.

Context `{rt : Runtime}.

Definition code_extensions : gset string :=
  {[ ".py"; ".js"; ".jsx"; ".ts"; ".tsx"; ".go"; ".java" ]}.

Definition js_extensions : gset string :=
  {[ ".js"; ".jsx"; ".ts"; ".tsx" ]}.

Definition skip_dirs : list string :=
  [ "node_modules"; "venv"; "__pycache__"; "dist"; "build" ].

(** [file_path.parts] of an absolute path: the anchor, then the parts. *)
Definition parts (p : Path) : list string := "/" :: p.

(** The import list computed for a file of extension [file_ext]. *)
Definition extract_imports (fs : node) (file_path : Path) (file_ext : string)
  : list string :=
  if bool_decide (file_ext ∈ code_extensions) then
    if String.eqb file_ext ".py" then parse_imports_python fs file_path
    else if bool_decide (file_ext ∈ js_extensions) then parse_imports_js fs file_path
    else []
  else [].

(** One iteration of [for file_path in repo_path.rglob('*')], on the pair
    [(files, dependencies)]. *)
Definition walk_step (fs : node) (repo_path : Path)
    (st : list FileNode.t * Dict.t (list string)) (file_path : Path)
  : list FileNode.t * Dict.t (list string) :=
  let '(files, dependencies) := st in
  if Fs.is_file fs file_path then
    if existsb (Str.startswith ".") (parts file_path) then st
    else if existsb (fun skip => bool_decide (skip ∈ parts file_path)) skip_dirs then st
    else
      let rel_path := Fs.relative_to repo_path file_path in
      let file_ext := Fs.suffix file_path in
      let imports := extract_imports fs file_path file_ext in
      let size := default 0%nat (Fs.stat_size fs file_path) in
      let file_node :=
        {| FileNode.id := uuid4 (length files);
           FileNode.name := Fs.name file_path;
           FileNode.path := Fs.render rel_path;
           FileNode.type := if Py.truthy_str file_ext then file_ext else "file";
           FileNode.imports := imports;
           FileNode.size := size |} in
      let files := files ++ [file_node] in
      let dependencies :=
        if Py.truthy imports
        then Dict.set (Fs.render rel_path) imports dependencies
        else dependencies in
      (files, dependencies)
  else st.

Definition analyze_file_structure (fs : node) (repo_path : Path)
  : list FileNode.t * Dict.t (list string) :=
  foldl (walk_step fs repo_path) ([], []) (Fs.rglob fs repo_path).

End Walker.

(** ** [get_ai_insights] *)

(** An instance of [Exception], with the text [str(e)] gives. *)
Inductive exception : Type := Exception (message : string).

Definition exception_str (e : exception) : string :=
  match e with Exception m => m end.

Inductive result (A : Type) : Type :=
| Returned (a : A)
| Raised (e : exception).
Arguments Returned {A} a.
Arguments Raised {A} e.

(** How an awaited call ends: with a value, with an instance of
    [Exception], or with the cancellation of the request.  An [await] is
    where [asyncio.CancelledError] is delivered; it is a [BaseException]
    and no instance of [Exception]. *)
Inductive awaited (A : Type) : Type :=
| Completed (a : A)
| Failed (e : exception)
| Cancelled.
Arguments Completed {A} a.
Arguments Failed {A} e.
Arguments Cancelled {A}.

(** [try: body except Exception as e: handler(e)]: an instance of
    [Exception] goes to the handler, a cancellation passes through. *)
Definition try_except {A} (body : awaited A) (handler : exception -> awaited A)
  : awaited A :=
  match body with
  | Completed a => Completed a
  | Failed e => handler e
  | Cancelled => Cancelled
  end.

(** What the process and the outside world answer during one request. *)
Record Environ : Type := {
  (** [os.environ.get('EMERGENT_LLM_KEY')] *)
  EMERGENT_LLM_KEY : option string;
  (** [await LlmChat(api_key, session_id, system_message).with_model(provider,
      model).send_message(UserMessage(text=prompt))] *)
  llm_send : string -> string -> string -> string -> string -> string -> awaited string;
  (** [tempfile.mkdtemp()]: the directory and the fresh name in it. *)
  mkdtemp : result (Path * string);
  (** [Repo.clone_from(url, repo_path, depth=1)]: how it ends, and what it
      left in the directory. *)
  clone_from : string -> result unit * list (string * node);
  (** [shutil.rmtree(temp_dir)]: [None] when it removes the tree,
      [Some residue] when it raises with [residue] still in the directory. *)
  rmtree_failure : option (list (string * node));
  (** [await db.repository_analyses.insert_one(doc)] *)
  insert_one : awaited unit;
  (** [datetime.now(timezone.utc)] *)
  now : string
}.

Record repo_info : Type := {
  info_repo_name : string;
  info_framework : string;
  info_entry_points : list string;
  info_file_count : nat;
  info_dependencies : Dict.t (list string)
}.

Section Insights.

Context `{rt : Runtime}.

Definition system_message : string :=
  "You are a code analysis expert. Provide clear, concise insights about code repositories.".

Definition build_prompt (info : repo_info) : string :=
  Str.join Str.nl
    [ "Analyze this repository and provide key insights:";
      "";
      "Repository: " +:+ info_repo_name info;
      "Framework: " +:+ info_framework info;
      "Entry Points: " +:+ Str.join ", " (info_entry_points info);
      "Total Files: " +:+ pretty (info_file_count info);
      "Key Dependencies: " +:+ Str.join ", " (take 10 (Dict.keys (info_dependencies info)));
      "";
      "Provide:";
      "1. Brief overview of the project structure";
      "2. How to run/execute the project";
      "3. Key architectural patterns identified";
      "4. Suggestions for understanding the codebase";
      "";
      "Keep it concise and actionable." ].

(** [drawn] is the number of [uuid4] values drawn so far. *)
Definition get_ai_insights (env : Environ) (drawn : nat) (info : repo_info)
  : awaited string :=
  try_except
    (match EMERGENT_LLM_KEY env with
     | Some api_key =>
         if Py.truthy_str api_key then
           llm_send env api_key (uuid4 drawn) system_message "openai" "gpt-4o-mini"
                    (build_prompt info)
         else Completed "AI insights unavailable: API key not configured"
     | None => Completed "AI insights unavailable: API key not configured"
     end)
    (fun e => Completed ("AI insights unavailable: " +:+ exception_str e)).

(** ** [analyze_repository] *)

Record RepositoryAnalysis : Type := {
  id : string;
  github_url : string;
  repo_name : string;
  framework : option string;
  entry_points : list string;
  file_structure : list FileNode.t;
  dependencies : Dict.t (list string);
  ai_insights : option string;
  timestamp : string
}.

(** How a request ends: with a profile, with an [HTTPException], with
    another instance of [Exception] that nothing handles, or cancelled. *)
Inductive outcome : Type :=
| Response (analysis : RepositoryAnalysis)
| HTTPException (status_code : nat) (detail : string)
| Unhandled (e : exception)
| RequestCancelled.

(** [url.rstrip('/').split('/')[-1].replace('.git', '')] *)
Definition derive_repo_name (url : string) : string :=
  Str.remove_all ".git" (Str.last_segment "/" (Str.rstrip "/" url)).

(** The passes run on a checked-out [repo_path]. *)
Definition run_passes (env : Environ) (fs : node) (url : string) (repo_path : Path)
  : outcome :=
  let repo_name := derive_repo_name url in
  let framework := detect_framework fs repo_path in
  let entry_points := find_entry_points fs repo_path in
  let '(file_structure, dependencies) := analyze_file_structure fs repo_path in
  let drawn := length file_structure in
  match get_ai_insights env drawn
          {| info_repo_name := repo_name;
             info_framework := framework;
             info_entry_points := entry_points;
             info_file_count := length file_structure;
             info_dependencies := dependencies |} with
  | Failed e => Unhandled e
  | Cancelled => RequestCancelled
  | Completed ai_insights =>
      let drawn :=
        match EMERGENT_LLM_KEY env with
        | Some k => if Py.truthy_str k then S drawn else drawn
        | None => drawn
        end in
      let analysis :=
        {| id := uuid4 drawn;
           github_url := url;
           repo_name := repo_name;
           framework := Some framework;
           entry_points := entry_points;
           file_structure := file_structure;
           dependencies := dependencies;
           ai_insights := Some ai_insights;
           timestamp := now env |} in
      match insert_one env with
      | Failed e => Unhandled e
      | Cancelled => RequestCancelled
      | Completed _ => Response analysis
      end
  end.

(** The [try] block: its outcome, the file system it leaves and the value
    of [temp_dir] when it is left. *)
Definition analyze_body (env : Environ) (fs : node) (url : string)
  : outcome * node * option Path :=
  match mkdtemp env with
  | Raised e => (Unhandled e, fs, None)
  | Returned (dir, fresh) =>
      let temp_dir := dir ++ [fresh] in
      let fs := Fs.put temp_dir (Dir []) fs in
      let repo_path := temp_dir in
      let '(cloned, contents) := clone_from env url in
      let fs := Fs.put repo_path (Dir contents) fs in
      match cloned with
      | Raised e =>
          (HTTPException 400 ("Failed to clone repository: " +:+ exception_str e),
           fs, Some temp_dir)
      | Returned _ => (run_passes env fs url repo_path, fs, Some temp_dir)
      end
  end.

(** The [finally] block.  [temp_dir] is [None] until [mkdtemp] has
    returned; the path it returns is never the empty string. *)
Definition cleanup (env : Environ) (fs : node) (temp_dir : option Path) : node :=
  match temp_dir with
  | Some t =>
      if Fs.exists_ fs t then
        match rmtree_failure env with
        | None => Fs.remove t fs
        | Some residue => Fs.put t (Dir residue) fs
        end
      else fs
  | None => fs
  end.

(** The route: the outcome and the file system when it returns. *)
Definition analyze_repository (env : Environ) (fs : node) (url : string)
  : outcome * node :=
  let '(out, fs', temp_dir) := analyze_body env fs url in
  (out, cleanup env fs' temp_dir).

End Insights.

(** * The properties, in the specification's terms *)

Section Statements.

Context `{rt : Runtime}.

(** ** Entry points, in the order the specification gives *)

(** Catalog names that exist at the root, in catalog order. *)
Definition root_catalog (fs : node) (repo_path : Path) : list string :=
  filter (fun e => Fs.exists_ fs (repo_path ++ [e]) = true) common_entries.

(** The [scripts] object of [package.json] ([{}] when the key is absent),
    when the manifest loads as an object and [scripts] is one. *)
Definition scripts_object (fs : node) (repo_path : Path)
  : option (gmap string json) :=
  data ← json_load fs (repo_path ++ ["package.json"]);
  scripts ← Py.get "scripts" (JObj []) data;
  Py.as_dict scripts.

(** The [start] and [dev] scripts of such a manifest, rendered; nothing
    for any other manifest. *)
Definition manifest_scripts (fs : node) (repo_path : Path) : list string :=
  match scripts_object fs repo_path with
  | Some scripts =>
      match scripts !! "start" with
      | Some cmd => ["npm start: " +:+ py_str cmd]
      | None => []
      end ++
      match scripts !! "dev" with
      | Some cmd => ["npm run dev: " +:+ py_str cmd]
      | None => []
      end
  | None => []
  end.

(** Catalog names that exist under [src/] and not at the root, prefixed. *)
Definition nested_catalog (fs : node) (repo_path : Path) : list string :=
  map (fun e => "src/" +:+ e)
    (filter (fun e => Fs.exists_ fs (repo_path ++ ["src"; e]) = true
                      ∧ Fs.exists_ fs (repo_path ++ [e]) = false)
            common_entries).

Definition entry_points_in_order (fs : node) (repo_path : Path) : list string :=
  root_catalog fs repo_path ++ manifest_scripts fs repo_path ++ nested_catalog fs repo_path.

(** ** Framework detection, pass by pass *)

(** The labels a dependency table implies: the meta-framework before its
    base framework, then the independent ones. *)
Definition deps_labels (deps : gmap string json) : list string :=
  (if Py.has "next" deps then ["Next.js"]
   else if Py.has "react" deps || Py.has "react-dom" deps then ["React"]
   else []) ++
  (if Py.has "vue" deps then ["Vue"] else []) ++
  (if Py.has "angular" deps || Py.has "@angular/core" deps then ["Angular"] else []) ++
  (if Py.has "svelte" deps then ["Svelte"] else []).

(** The labels the lower-cased text of [requirements.txt] implies. *)
Definition requirements_labels (content : string) : list string :=
  (if Str.contains "django" content then ["Django"] else []) ++
  (if Str.contains "flask" content then ["Flask"] else []) ++
  (if Str.contains "fastapi" content then ["FastAPI"] else []).

(** What the [package.json] check yields. *)
Definition package_json_signal (fs : node) (repo_path : Path) : list string :=
  match package_json_deps fs (repo_path ++ ["package.json"]) with
  | Some deps => deps_labels deps
  | None => []
  end.

(** What the [requirements.txt] check yields. *)
Definition requirements_signal (fs : node) (repo_path : Path) : list string :=
  match Fs.read fs (repo_path ++ ["requirements.txt"]) with
  | Some content => requirements_labels (str_lower content)
  | None => []
  end.

(** What the marker files [go.mod], [pom.xml] and [build.gradle] yield. *)
Definition marker_signal (fs : node) (repo_path : Path) : list string :=
  (if Fs.exists_ fs (repo_path ++ ["go.mod"]) then ["Go"] else []) ++
  (if Fs.exists_ fs (repo_path ++ ["pom.xml"]) then ["Java/Maven"] else []) ++
  (if Fs.exists_ fs (repo_path ++ ["build.gradle"]) then ["Java/Gradle"] else []).

(** The manifest scan of the specification: every manifest check. *)
Definition manifest_signal (fs : node) (repo_path : Path) : list string :=
  package_json_signal fs repo_path ++ requirements_signal fs repo_path
  ++ marker_signal fs repo_path.

(** The claim about the sampling fallback as the specification words it:
    when any manifest check yields a framework, the label holds the
    manifest labels only. *)
Definition sampling_only_without_manifest_signal (fs : node) (repo_path : Path) : Prop :=
  manifest_signal fs repo_path ≠ [] ->
  detected_frameworks fs repo_path = manifest_signal fs repo_path.




End Statements.

(** ** Import statements of a syntax tree *)

(** [node_of tree n]: [n] is [tree] or a node below it. *)
Inductive node_of : ast -> ast -> Prop :=
| node_self (t : ast) : node_of t t
| node_child (t c n : ast) :
    c ∈ iter_child_nodes t -> node_of c n -> node_of t n.

(** [x] is a name the import statement [n] imports: one of the names of a
    plain [import], or the module of a [from ... import]. *)
Definition imports_name (n : ast) (x : string) : Prop :=
  (∃ names a, n = Import names ∧ a ∈ names ∧ alias_name a = x)
  ∨ (∃ names level, n = ImportFrom (Some x) names level ∧ x ≠ "").

(** The names one visit appends. *)
Definition recorded_names (n : ast) : list string :=
  match n with
  | Import names => map alias_name names
  | ImportFrom (Some m) _ _ => if Py.truthy_str m then [m] else []
  | _ => []
  end.

(** Total size of a queue of trees. *)
Definition forest_size (todo : list ast) : nat :=
  foldr (fun c acc => ast_size c + acc) 0 todo.

(** ** Well-formed file systems *)

(** A directory lists each name once, and no name holds a [/]. *)
Fixpoint well_formed (n : node) : bool :=
  match n with
  | Regular _ _ _ => true
  | Dir es =>
      bool_decide (NoDup (map fst es))
      && forallb (fun e => negb (Str.contains "/" (fst e)) && well_formed (snd e)) es
  end.

Definition slash_free (x : string) : Prop := Str.contains "/" x = false.

(** The paths of [rglob], relative to the directory it starts from. *)
Fixpoint rel_paths (n : node) : list Path :=
  match n with
  | Regular _ _ _ => []
  | Dir es =>
      map (fun e => [fst e]) es ++
      flat_map (fun e => map (cons (fst e)) (rel_paths (snd e))) es
  end.

(** ** The tree walker *)

(** What holds of [(files, dependencies)] after the loop has gone through
    the paths [ps]. *)
Record walk_invariant (repo_path : Path) (ps : list Path)
    (st : list FileNode.t * Dict.t (list string)) : Prop := {
  inv_paths : forall fn, fn ∈ st.1 ->
    ∃ p, p ∈ ps ∧ FileNode.path fn = Fs.render (Fs.relative_to repo_path p);
  inv_unique : NoDup (map FileNode.path st.1);
  inv_keys : forall k, k ∈ Dict.keys st.2 <->
    ∃ fn, fn ∈ st.1 ∧ FileNode.path fn = k ∧ FileNode.imports fn ≠ [];
  inv_values : forall fn, fn ∈ st.1 -> FileNode.imports fn ≠ [] ->
    Dict.get (FileNode.path fn) st.2 = Some (FileNode.imports fn);
  inv_dispatch : forall fn, fn ∈ st.1 ->
    FileNode.type fn = ".go" ∨ FileNode.type fn = ".java" -> FileNode.imports fn = []
}.

(** ** The route *)

Section RouteStatements.

Context `{rt : Runtime}.

(** The claim about the temporary directory as the specification words
    it: whatever directory the request created is gone when it returns. *)
Definition no_residual_directory (env : Environ) (fs : node) (url : string) : Prop :=
  forall dir fresh,
    mkdtemp env = Returned (dir, fresh) ->
    Fs.exists_ (analyze_repository env fs url).2 (dir ++ [fresh]) = false.

(** The API key is missing: unset, or set to the empty string. *)
Definition api_key_missing (env : Environ) : Prop :=
  EMERGENT_LLM_KEY env = None ∨ EMERGENT_LLM_KEY env = Some "".

(** The text-generation call of [get_ai_insights] raises [e], an instance
    of [Exception]. *)
Definition llm_call_fails (env : Environ) (drawn : nat) (info : repo_info)
    (e : exception) : Prop :=
  ∃ api_key,
    EMERGENT_LLM_KEY env = Some api_key ∧ api_key ≠ "" ∧
    llm_send env api_key (uuid4 drawn) system_message "openai" "gpt-4o-mini"
             (build_prompt info) = Failed e.

(** The text-generation call of [get_ai_insights] is made and cancelled. *)
Definition llm_call_cancelled (env : Environ) (drawn : nat) (info : repo_info) : Prop :=
  ∃ api_key,
    EMERGENT_LLM_KEY env = Some api_key ∧ api_key ≠ "" ∧
    llm_send env api_key (uuid4 drawn) system_message "openai" "gpt-4o-mini"
             (build_prompt info) = Cancelled.

(** No text-generation call is cancelled. *)
Definition llm_never_cancelled (env : Environ) : Prop :=
  forall api_key session system provider model prompt,
    llm_send env api_key session system provider model prompt ≠ Cancelled.

(** The claim about the insight request as the specification words it: it
    returns a string, whatever happens. *)
Definition insight_request_never_raises (env : Environ) (drawn : nat) (info : repo_info)
  : Prop :=
  ∃ text, get_ai_insights env drawn info = Completed text.

End RouteStatements.

(** * Reference data: a runtime and small workspaces to evaluate on *)

Module Reference.

(** A JSON string literal. *)
Definition q (s : string) : string := Str.dquote +:+ s +:+ Str.dquote.

(** [main.py] of the end-to-end scenario and the tree [ast.parse] gives. *)
Definition main_py_text : string :=
  "import os" +:+ Str.nl +:+ "from foo import bar" +:+ Str.nl.

Definition main_py_tree : ast :=
  Other [ Import [Alias "os" None];
          ImportFrom (Some "foo") [Alias "bar" None] 0 ].

(** A manifest that declares both [next] and [react]. *)
Definition next_manifest_text : string :=
  "{" +:+ q "dependencies" +:+ ": {" +:+ q "next" +:+ ": " +:+ q "13.4.0" +:+ ", "
  +:+ q "react" +:+ ": " +:+ q "18.2.0" +:+ "}, " +:+ q "scripts" +:+ ": {"
  +:+ q "dev" +:+ ": " +:+ q "next dev" +:+ ", " +:+ q "start" +:+ ": "
  +:+ q "next start" +:+ "}}".

Definition next_manifest : json :=
  JObj [ ("dependencies", JObj [("next", JStr "13.4.0"); ("react", JStr "18.2.0")]);
         ("scripts", JObj [("dev", JStr "next dev"); ("start", JStr "next start")]) ].

(** A manifest that declares [react] and [react-dom] only. *)
Definition react_manifest_text : string :=
  "{" +:+ q "dependencies" +:+ ": {" +:+ q "react" +:+ ": " +:+ q "18.2.0" +:+ ", "
  +:+ q "react-dom" +:+ ": " +:+ q "18.2.0" +:+ "}}".

Definition react_manifest : json :=
  JObj [ ("dependencies", JObj [("react", JStr "18.2.0"); ("react-dom", JStr "18.2.0")]) ].

(** A manifest that declares [next] and [react], and whose
    [devDependencies] is [null]. *)
Definition null_dev_manifest_text : string :=
  "{" +:+ q "dependencies" +:+ ": {" +:+ q "next" +:+ ": " +:+ q "13.4.0" +:+ ", "
  +:+ q "react" +:+ ": " +:+ q "18.2.0" +:+ "}, " +:+ q "devDependencies" +:+ ": null}".

Definition null_dev_manifest : json :=
  JObj [ ("dependencies", JObj [("next", JStr "13.4.0"); ("react", JStr "18.2.0")]);
         ("devDependencies", JNull) ].

(** A runtime that knows the texts above; any other text fails to parse.
    The texts it lower-cases are ASCII. *)
Definition runtime : Runtime := {|
  ast_parse text :=
    if String.eqb text main_py_text then Some main_py_tree else None;
  json_loads text :=
    if String.eqb text next_manifest_text then Some next_manifest
    else if String.eqb text react_manifest_text then Some react_manifest
    else if String.eqb text null_dev_manifest_text then Some null_dev_manifest
    else None;
  re_findall pattern text :=
    if String.eqb pattern es6_pattern && Str.contains "from './App'" text
    then ["./App"] else [];
  str_lower := Str.lower;
  py_repr v := "";
  uuid4 n := "00000000-0000-4000-8000-" +:+ pretty n
|}.

(** A checkout at [/tmp/tmpk3v9x2ab] with [entries] in it. *)
Definition tmp_root : Path := ["tmp"; "tmpk3v9x2ab"].

Definition checkout (entries : list (string * node)) : node :=
  Dir [("tmp", Dir [("tmpk3v9x2ab", Dir entries)])].

(** Next.js project: manifest with [next] and [react], a source file that
    mentions React, and a [requirements.txt]. *)
Definition next_project : node :=
  checkout
    [ ("package.json", File (Some next_manifest_text) (Some 120%nat));
      ("requirements.txt", File (Some ("Flask==2.3.2" +:+ Str.nl)) (Some 13%nat));
      ("src", Dir [("index.js", File (Some "import React from 'react';") (Some 26%nat))]) ].



(** No [package.json]; a [requirements.txt] naming Django and a source
    file under [src/] that mentions React. *)
Definition django_with_js : node :=
  checkout
    [ ("requirements.txt", File (Some ("Django==4.2" +:+ Str.nl)) (Some 12%nat));
      ("src", Dir [("app.js", File (Some "import React from 'react';") (Some 26%nat))]) ].

(** The end-to-end scenario: [requirements.txt] and [main.py] only. *)
Definition scenario_entries : list (string * node) :=
  [ ("requirements.txt", File (Some ("fastapi==0.95.0" +:+ Str.nl)) (Some 16%nat));
    ("main.py", File (Some main_py_text) (Some 30%nat)) ].

Definition scenario : node := checkout scenario_entries.

(** The same checkout below [/srv/build/ws]. *)
Definition build_root : Path := ["srv"; "build"; "ws"].

Definition scenario_under_build : node :=
  Dir [("srv", Dir [("build", Dir [("ws", Dir scenario_entries)])])].

(** A mixed project: Python, JavaScript, Go and Java sources. *)
Definition mixed_project : node :=
  checkout
    [ ("main.py", File (Some main_py_text) (Some 30%nat));
      ("main.go", File (Some "package main") (Some 12%nat));
      ("Main.java", File (Some "class Main {}") (Some 13%nat));
      ("README", File (Some "docs") (Some 4%nat));
      ("src", Dir [ ("index.js", File (Some "import App from './App'") (Some 23%nat));
                    ("App.js", File (Some "export default 1") (Some 16%nat)) ]);
      ("node_modules", Dir [("dep.js", File (Some "import x from './App'") (Some 21%nat))]) ].

(** A request whose clone fails and whose cleanup fails too. *)
Definition unreachable_url : string := "https://github.com/nonexistent/nonexistent-repo-12345".

Definition failing_env (rmtree : option (list (string * node))) : Environ := {|
  EMERGENT_LLM_KEY := None;
  llm_send _ _ _ _ _ _ := Failed (Exception "connection refused");
  mkdtemp := Returned (["tmp"], "tmpk3v9x2ab");
  clone_from _ :=
    (Raised (Exception "repository not found"),
     [(".git", Dir [("config", File (Some "[core]") (Some 6%nat))])]);
  rmtree_failure := rmtree;
  insert_one := Completed tt;
  now := "2024-01-01T00:00:00+00:00"
|}.

(** A request with an API key whose clone, removal and database insertion
    go through and whose text-generation call ends as [sent]. *)
Definition keyed_env (sent : awaited string) : Environ := {|
  EMERGENT_LLM_KEY := Some "sk-test";
  llm_send _ _ _ _ _ _ := sent;
  mkdtemp := Returned (["tmp"], "tmpk3v9x2ab");
  clone_from _ := (Returned tt, scenario_entries);
  rmtree_failure := None;
  insert_one := Completed tt;
  now := "2024-01-01T00:00:00+00:00"
|}.

(** What the passes hand to the insight request for the scenario. *)
Definition scenario_info : repo_info := {|
  info_repo_name := "Hello-World";
  info_framework := "FastAPI";
  info_entry_points := ["main.py"];
  info_file_count := 2;
  info_dependencies := [("main.py", ["os"; "foo"])]
|}.

(** What a removal that stops at a read-only file leaves behind. *)
Definition stuck_residue : list (string * node) :=
  [(".git", Dir [("config", File (Some "[core]") (Some 6%nat))])].

(** A machine with an empty [/tmp]. *)
Definition empty_tmp : node := Dir [("tmp", Dir [])].

End Reference.

(** * Further properties: statements *)

Section WalkerStatements.

Context `{rt : Runtime}.

(** The tests a path passes before the walker records it. *)
Definition kept (fs : node) (file_path : Path) : bool :=
  Fs.is_file fs file_path
  && negb (existsb (Str.startswith ".") (parts file_path))
  && negb (existsb (fun skip => bool_decide (skip ∈ parts file_path)) skip_dirs).

(** The record of the file at [file_path] when [drawn] identifiers have
    been drawn before it. *)
Definition file_record (fs : node) (repo_path : Path) (drawn : nat) (file_path : Path)
  : FileNode.t :=
  {| FileNode.id := uuid4 drawn;
     FileNode.name := Fs.name file_path;
     FileNode.path := Fs.render (Fs.relative_to repo_path file_path);
     FileNode.type :=
       if Py.truthy_str (Fs.suffix file_path) then Fs.suffix file_path else "file";
     FileNode.imports := extract_imports fs file_path (Fs.suffix file_path);
     FileNode.size := default 0%nat (Fs.stat_size fs file_path) |}.

(** A path part the exclusion policy lets through. *)
Definition visible_part (part : string) : Prop :=
  Str.startswith "." part = false ∧ part ∉ skip_dirs.

End WalkerStatements.

(** The files whose import list is not empty. *)
Definition with_imports (files : list FileNode.t) : list FileNode.t :=
  filter (fun fn => Py.truthy (FileNode.imports fn) = true) files.

(** ** Framework labels *)

(** The labels [detect_framework] can report, in detection order. *)
Definition known_labels : list string :=
  [ "Next.js"; "React"; "Vue"; "Angular"; "Svelte";
    "Django"; "Flask"; "FastAPI"; "Go"; "Java/Maven"; "Java/Gradle" ].

Section ManifestStatements.

Context `{rt : Runtime}.


(** [package.json] loaded as an object; [None] when the file is missing,
    unreadable, not JSON, or JSON of another kind. *)
Definition manifest_object (fs : node) (repo_path : Path) : option (gmap string json) :=
  data ← json_load fs (repo_path ++ ["package.json"]);
  Py.as_dict data.

End ManifestStatements.

Module ReferenceSampling.

(** [e] with an acute accent: one character, two bytes in UTF-8. *)
Definition e_acute : string :=
  String (ascii_of_nat 195) (String (ascii_of_nat 169) EmptyString).

Fixpoint repeated (n : nat) (s : string) : string :=
  match n with
  | O => EmptyString
  | S n' => s +:+ repeated n' s
  end.

(** A source file whose fingerprint lies within the first 100 characters
    and beyond the first 100 bytes. *)
Definition accented_project : node :=
  Reference.checkout
    [ ("src", Dir [("a.js", File (Some (repeated 95 e_acute +:+ "react")) (Some 195%nat))]) ].

(** A source file that does not decode as a whole, while its first
    characters do. *)
Definition half_decodable_project : node :=
  Reference.checkout
    [ ("src", Dir [("a.js",
                    Regular None
                      (fun n => Some (Str.take_chars n "import React from 'react';"))
                      (Some 300%nat))]) ].

End ReferenceSampling.

Module ReferenceManifests.

(** A checkout whose [package.json] is not JSON, with an entry file at the
    root and one under [src/]. *)
Definition broken_manifest_project : node :=
  Reference.checkout
    [ ("package.json", File (Some "{ dependencies: next, }") (Some 23%nat));
      ("app.py", File (Some "import flask") (Some 12%nat));
      ("requirements.txt", File (Some "flask") (Some 5%nat));
      ("src", Dir [("index.js", File (Some "console.log(1)") (Some 14%nat))]) ].

(** An empty checkout. *)
Definition empty_project : node := Reference.checkout [].

End ReferenceManifests.

Module ReferenceRoute.

(** A request whose clone, removal and database insertion go through while
    the text-generation service is down. *)
Definition working_env (key : option string) : Environ := {|
  EMERGENT_LLM_KEY := key;
  llm_send _ _ _ _ _ _ := Failed (Exception "connection refused");
  mkdtemp := Returned (["tmp"], "tmpk3v9x2ab");
  clone_from _ := (Returned tt, Reference.scenario_entries);
  rmtree_failure := None;
  insert_one := Completed tt;
  now := "2024-01-01T00:00:00+00:00"
|}.

(** A machine with other temporary directories in [/tmp]. *)
Definition busy_tmp : node :=
  Dir [ ("home", Dir [("alice", Dir [])]);
        ("tmp", Dir [("tmpq81m0zzc", Dir [("go.mod", File (Some "module m") (Some 8%nat))])]) ].

End ReferenceRoute.

(** * The API tester ([backend_test.py]) *)

(** The tester talks to a deployed server through [requests]; what the
    server answers is a parameter.  [print] writes to the terminal and
    leaves the tester's state alone: the model keeps the expressions a
    [print] evaluates where they can raise and drops the output. *)

Module Tester.

(** The answer to an HTTP call: [status_code], the value of [json()]
    ([None] when it raises) and [text]. *)
Record response : Type := {
  status_code : nat;
  json_ : option json;
  text : string
}.

(** A call that raises: [requests.exceptions.Timeout], or another
    exception with its text. *)
Inductive request_failure : Type :=
| Timeout
| RequestError (message : string).

(** [requests.get(url, headers=headers, timeout=timeout)] and
    [requests.post(url, json=data, headers=headers, timeout=timeout)];
    the headers are the same in every call. *)
Record Requests : Type := {
  get : string -> nat -> request_failure + response;
  post : string -> option json -> nat -> request_failure + response
}.

(** The attributes of a [GitRepoAnalyzerTester]; [analysis_id] starts as
    Python's [None]. *)
Record state : Type := {
  base_url : string;
  api_url : string;
  tests_run : nat;
  tests_passed : nat;
  analysis_id : json
}.

Definition default_base_url : string := "https://gitrepoguide.preview.emergentagent.com".

(** [__init__] *)
Definition init (base : string) : state :=
  {| base_url := base;
     api_url := base +:+ "/api";
     tests_run := 0;
     tests_passed := 0;
     analysis_id := JNull |}.

Definition incr_tests_run (self : state) : state :=
  {| base_url := base_url self; api_url := api_url self;
     tests_run := S (tests_run self); tests_passed := tests_passed self;
     analysis_id := analysis_id self |}.

Definition incr_tests_passed (self : state) : state :=
  {| base_url := base_url self; api_url := api_url self;
     tests_run := tests_run self; tests_passed := S (tests_passed self);
     analysis_id := analysis_id self |}.

Definition set_analysis_id (v : json) (self : state) : state :=
  {| base_url := base_url self; api_url := api_url self;
     tests_run := tests_run self; tests_passed := tests_passed self;
     analysis_id := v |}.

(** [len(v)]; [None] is the [TypeError] of a value without a length. *)
Definition len (v : json) : option nat :=
  match v with
  | JStr s => Some (String.length s)
  | JArr items => Some (length items)
  | JObj _ => size <$> Py.as_dict v
  | JNull | JBool _ | JNum _ => None
  end.

(** [v != s] for a string [s]. *)
Definition differs (v : json) (s : string) : bool :=
  match v with
  | JStr t => negb (String.eqb t s)
  | _ => true
  end.

(** [isinstance(v, list)] *)
Definition is_list (v : json) : bool :=
  match v with JArr _ => true | _ => false end.

Section Run.

(** Whether the number a JSON literal denotes is not zero. *)
Variable nonzero : string -> bool.

Variable requests : Requests.

(** The truth value of a decoded JSON value. *)
Definition truthy (v : json) : bool :=
  match v with
  | JNull => false
  | JBool b => b
  | JNum literal => nonzero literal
  | JStr s => Py.truthy_str s
  | JArr items => Py.truthy items
  | JObj members => Py.truthy members
  end.

(** The URL a test calls. *)
Definition url_of (self : state) (endpoint : string) : string :=
  if Py.truthy_str endpoint then api_url self +:+ "/" +:+ endpoint else api_url self.

(** The call [run_test] makes; [None] when [method] is neither [GET] nor
    [POST], which leaves [response] unbound. *)
Definition send (method url : string) (data : option json) (timeout : nat)
  : option (request_failure + response) :=
  if String.eqb method "GET" then Some (get requests url timeout)
  else if String.eqb method "POST" then Some (post requests url data timeout)
  else None.

(** [run_test]: every exception raised inside its [try] ends in
    [(False, {})]. *)
Definition run_test (self : state) (name method endpoint : string)
    (expected_status : nat) (data : option json) (timeout : nat)
  : state * (bool * json) :=
  let url := url_of self endpoint in
  let self := incr_tests_run self in
  match send method url data timeout with
  | Some (inr response) =>
      let success := Nat.eqb (status_code response) expected_status in
      if success then
        let self := incr_tests_passed self in
        match json_ response with
        | Some response_data => (self, (true, response_data))
        | None => (self, (true, JObj []))
        end
      else (self, (false, JObj []))
  | Some (inl _) => (self, (false, JObj []))
  | None => (self, (false, JObj []))
  end.

(** A test method gives the tester it leaves and what it returns; [None]
    is an exception that leaves the method. *)
Definition test : Type := state -> state * option bool.

Definition test_root_endpoint : test := fun self =>
  let '(self, (success, response)) :=
    run_test self "Root API Endpoint" "GET" "" 200 None 60 in
  (self, Some success).

Definition test_analyze_invalid_url : test := fun self =>
  let '(self, (success, response)) :=
    run_test self "Analyze Invalid URL" "POST" "analyze" 400
      (Some (JObj [("github_url", JStr "invalid-url")])) 60 in
  (self, Some success).

Definition test_analyze_nonexistent_repo : test := fun self =>
  let '(self, (success, response)) :=
    run_test self "Analyze Non-existent Repo" "POST" "analyze" 400
      (Some (JObj [("github_url",
                    JStr "https://github.com/nonexistent/nonexistent-repo-12345")])) 60 in
  (self, Some success).

Definition test_repo : string := "https://github.com/octocat/Hello-World".

Definition required_fields : list string :=
  [ "id"; "github_url"; "repo_name"; "framework"; "entry_points";
    "file_structure"; "dependencies" ].

(** [[field for field in fields if field not in response]]; [None] is the
    [TypeError] of a response that is not iterable. *)
Fixpoint missing_fields (response : json) (fields : list string) : option (list string) :=
  match fields with
  | [] => Some []
  | field :: fields' =>
      present ← Py.contains field response;
      rest ← missing_fields response fields';
      Some (if (present : bool) then rest else field :: rest)
  end.

(** The expressions the summary prints evaluate, in order. *)
Definition summary (response : json) : option unit :=
  _ ← Py.subscript response "repo_name";
  _ ← Py.subscript response "framework";
  _ ← Py.subscript response "entry_points" ≫= len;
  _ ← Py.subscript response "file_structure" ≫= len;
  _ ← Py.subscript response "dependencies" ≫= len;
  _ ← Py.get "ai_insights" JNull response;
  Some tt.

(** The checks of [test_analyze_valid_repo] on a response that was
    answered with status 200 and is truthy. *)
Definition validate (self : state) (response : json) : state * option bool :=
  match missing_fields response required_fields with
  | None => (self, None)
  | Some missing =>
      if Py.truthy missing then (self, Some false)
      else
        match Py.get "id" JNull response with
        | None => (self, None)
        | Some v =>
            let self := set_analysis_id v self in
            match Py.subscript response "repo_name" with
            | None => (self, None)
            | Some name =>
                if differs name "Hello-World" then (self, Some false)
                else
                  match Py.subscript response "github_url" with
                  | None => (self, None)
                  | Some url =>
                      if differs url test_repo then (self, Some false)
                      else
                        match summary response with
                        | None => (self, None)
                        | Some _ => (self, Some true)
                        end
                  end
            end
        end
  end.

Definition test_analyze_valid_repo : test := fun self =>
  let '(self, (success, response)) :=
    run_test self "Analyze Valid Repo (Hello-World)" "POST" "analyze" 200
      (Some (JObj [("github_url", JStr test_repo)])) 120 in
  if success && truthy response then validate self response
  else (self, Some success).

Definition test_history_endpoint : test := fun self =>
  let '(self, (success, response)) :=
    run_test self "Analysis History" "GET" "history" 200 None 60 in
  if success && is_list response then (self, Some true)
  else if success then (self, Some false)
  else (self, Some success).

(** One turn of the loop of [main]: an exception that leaves the test is
    counted as one more run. *)
Definition guarded (tester : state) (t : test) : state :=
  let '(tester, returned) := t tester in
  match returned with
  | Some _ => tester
  | None => incr_tests_run tester
  end.

Definition tests : list test :=
  [ test_root_endpoint;
    test_analyze_invalid_url;
    test_analyze_nonexistent_repo;
    test_analyze_valid_repo;
    test_history_endpoint ].

(** The tester when the loop of [main] is over. *)
Definition final : state := foldl guarded (init default_base_url) tests.

(** [main]: the exit code. *)
Definition main : nat :=
  if Nat.eqb (tests_passed final) (tests_run final) then 0 else 1.

(** ** Statements about a run *)

(** The call was answered with the status [expected]. *)
Definition answered (r : request_failure + response) (expected : nat) : bool :=
  match r with
  | inr response => Nat.eqb (status_code response) expected
  | inl _ => false
  end.

(** The five calls of a run. *)
Definition root_call : request_failure + response :=
  get requests (default_base_url +:+ "/api") 60.

Definition invalid_url_call : request_failure + response :=
  post requests (default_base_url +:+ "/api/analyze")
    (Some (JObj [("github_url", JStr "invalid-url")])) 60.

Definition nonexistent_repo_call : request_failure + response :=
  post requests (default_base_url +:+ "/api/analyze")
    (Some (JObj [("github_url",
                  JStr "https://github.com/nonexistent/nonexistent-repo-12345")])) 60.

Definition valid_repo_call : request_failure + response :=
  post requests (default_base_url +:+ "/api/analyze")
    (Some (JObj [("github_url", JStr test_repo)])) 120.

Definition history_call : request_failure + response :=
  get requests (default_base_url +:+ "/api/history") 60.

(** Every call was answered with the status its test expects. *)
Definition all_answered : bool :=
  answered root_call 200 && answered invalid_url_call 400
  && answered nonexistent_repo_call 400 && answered valid_repo_call 200
  && answered history_call 200.

(** The number of calls answered with the expected status. *)
Definition answered_count : nat :=
  Nat.b2n (answered root_call 200) + Nat.b2n (answered invalid_url_call 400)
  + Nat.b2n (answered nonexistent_repo_call 400) + Nat.b2n (answered valid_repo_call 200)
  + Nat.b2n (answered history_call 200).

(** The decoded body of a call ([{}] when [json()] raises). *)
Definition body_of (r : request_failure + response) : json :=
  match r with
  | inr response => default (JObj []) (json_ response)
  | inl _ => JObj []
  end.

(** The content checks of [test_analyze_valid_repo] raise on the answer
    to the valid-repository call. *)
Definition content_checks_raise : bool :=
  answered valid_repo_call 200 && truthy (body_of valid_repo_call)
  && bool_decide ((validate (init default_base_url) (body_of valid_repo_call)).2 = None).

End Run.

End Tester.

Module ReferenceTester.

Import Tester.

(** Numbers by their literal: zero is written [0] here. *)
Definition nonzero (literal : string) : bool := negb (String.eqb literal "0").

Definition ok (status : nat) (body : json) : request_failure + response :=
  inr {| status_code := status; json_ := Some body; text := "" |}.

(** A server that answers every call with the expected status and the
    valid-repository call with [body]. *)
Definition server (body : json) : Requests := {|
  get url timeout :=
    if String.eqb url (default_base_url +:+ "/api/history") then ok 200 (JArr [])
    else ok 200 (JObj [("message", JStr "Git Repository Analyzer API")]);
  post url data timeout :=
    match data with
    | Some (JObj [(_, JStr u)]) =>
        if String.eqb u test_repo then ok 200 body
        else ok 400 (JObj [("detail", JStr "Failed to clone repository")])
    | _ => ok 422 JNull
    end
|}.

(** A profile as the route answers it. *)
Definition profile : json :=
  JObj [ ("id", JStr "00000000-0000-4000-8000-0");
         ("github_url", JStr test_repo);
         ("repo_name", JStr "Hello-World");
         ("framework", JStr "Unknown");
         ("entry_points", JArr []);
         ("file_structure", JArr []);
         ("dependencies", JObj []);
         ("ai_insights", JStr "AI insights unavailable: API key not configured") ].

(** An answer with status 200 that is no profile. *)
Definition not_a_profile : json := JObj [("detail", JStr "maintenance")].

(** A profile whose [entry_points] is a number. *)
Definition odd_profile : json :=
  JObj [ ("id", JStr "00000000-0000-4000-8000-0");
         ("github_url", JStr test_repo);
         ("repo_name", JStr "Hello-World");
         ("framework", JStr "Unknown");
         ("entry_points", JNum "3");
         ("file_structure", JArr []);
         ("dependencies", JObj []) ].

End ReferenceTester.

(** * Proofs *)

(** ** Blocks in [M] *)

Ltac unfold_M :=
  cbv [try_pass mbind M_bind MonadM.bind MonadM.lift MonadM.when MonadM.append
       mret M_ret MonadM.ret extend snd fst] in *.

(** ** Entry points *)

Section EntryPoints.

Context `{rt : Runtime}.

Lemma foldl_append_if (b : string -> bool) (l acc : list string) :
  foldl (fun acc e => append_if (b e) e acc) acc l
  = acc ++ filter (fun e => b e = true) l.
Proof.
  revert acc. induction l as [|e l IH]; intros acc; simpl.
  - by rewrite app_nil_r.
  - rewrite IH. unfold append_if. rewrite filter_cons.
    destruct (b e); case_decide; try done.
    by rewrite <- app_assoc.
Qed.

Lemma root_entries_loop_spec fs repo_path acc :
  root_entries_loop fs repo_path acc = acc ++ root_catalog fs repo_path.
Proof. apply (foldl_append_if (fun e => Fs.exists_ fs (repo_path ++ [e]))). Qed.

Lemma scan_scripts_run fs repo_path s :
  try_pass (scan_scripts fs (repo_path ++ ["package.json"])) s
  = s ++ manifest_scripts fs repo_path.
Proof.
  unfold scan_scripts, manifest_scripts, scripts_object. unfold_M.
  destruct (json_load fs (repo_path ++ ["package.json"])) as [data|]; simpl;
    [|by rewrite app_nil_r].
  destruct (Py.get "scripts" (JObj []) data) as [scripts|]; simpl;
    [|by rewrite app_nil_r].
  destruct scripts as [| | | s0 | items | ms]; simpl;
    try (by rewrite app_nil_r).
  - destruct (Str.contains "start" s0); simpl; [by rewrite app_nil_r|].
    destruct (Str.contains "dev" s0); simpl; by rewrite app_nil_r.
  - match goal with |- context [existsb ?f items] => destruct (existsb f items) end;
      simpl; [by rewrite app_nil_r|].
    match goal with |- context [existsb ?f items] => destruct (existsb f items) end;
      simpl; by rewrite app_nil_r.
  - unfold Py.has, Py.subscript, Py.as_dict; simpl. set (d := foldl _ _ ms).
    destruct (d !! "start") as [c1|] eqn:E1; destruct (d !! "dev") as [c2|] eqn:E2;
      simpl; rewrite ?E1, ?E2; simpl;
      rewrite <- ?app_assoc; simpl; by rewrite ?app_nil_r.
Qed.

Lemma manifest_scripts_prefixed fs repo_path x :
  x ∈ manifest_scripts fs repo_path -> Str.startswith "npm " x = true.
Proof.
  unfold manifest_scripts.
  destruct (scripts_object fs repo_path) as [d|]; [|by intros ?%elem_of_nil].
  destruct (d !! "start"), (d !! "dev"); simpl; intros Hx;
    repeat (apply elem_of_cons in Hx as [->|Hx]; [reflexivity|]);
    by apply elem_of_nil in Hx.
Qed.

Lemma common_entries_bare e :
  e ∈ common_entries ->
  Str.startswith "npm " e = false ∧ Str.startswith "src/" e = false.
Proof.
  unfold common_entries. intros He.
  repeat (apply elem_of_cons in He as [->|He]; [by split|]).
  by apply elem_of_nil in He.
Qed.

Lemma src_entries_loop_gen fs repo_path src_dir (l acc : list string) :
  (forall e, e ∈ l -> Str.startswith "src/" e = false) ->
  (forall e, e ∈ l -> e ∈ acc <-> Fs.exists_ fs (repo_path ++ [e]) = true) ->
  foldl (fun acc entry =>
           append_if (Fs.exists_ fs (src_dir ++ [entry]) && negb (bool_decide (entry ∈ acc)))
                     ("src/" +:+ entry) acc) acc l
  = acc ++ map (fun e => "src/" +:+ e)
             (filter (fun e => Fs.exists_ fs (src_dir ++ [e]) = true
                               ∧ Fs.exists_ fs (repo_path ++ [e]) = false) l).
Proof.
  revert acc. induction l as [|e l IH]; intros acc Hbare Hacc; simpl.
  - by rewrite app_nil_r.
  - assert (Hroot : bool_decide (e ∈ acc) = Fs.exists_ fs (repo_path ++ [e])).
    { destruct (Fs.exists_ fs (repo_path ++ [e])) eqn:E.
      - apply bool_decide_eq_true. apply Hacc; [left|done].
      - apply bool_decide_eq_false. intros Hin. apply Hacc in Hin; [congruence|left]. }
    rewrite Hroot, filter_cons.
    rewrite IH.
    + unfold append_if.
      destruct (Fs.exists_ fs (src_dir ++ [e])), (Fs.exists_ fs (repo_path ++ [e]));
        simpl; case_decide; try done; try (exfalso; intuition congruence).
      by rewrite <- app_assoc.
    + intros e' He'. apply Hbare. by right.
    + intros e' He'. rewrite <- (Hacc e') by (by right).
      unfold append_if.
      destruct (_ && _); [|done].
      rewrite elem_of_app, list_elem_of_singleton. split; [|by left].
      intros [?| ->]; [done|].
      assert (Str.startswith "src/" ("src/" +:+ e) = true) as Hp.
      { reflexivity. }
      rewrite Hbare in Hp by (by right). done.
Qed.

Lemma resolve_app fs (p q : Path) :
  Fs.resolve fs (p ++ q) = Fs.resolve fs p ≫= fun n => Fs.resolve n q.
Proof.
  revert fs. induction p as [|x p IH]; intros fs; simpl; [done|].
  destruct fs as [|es]; [done|].
  destruct (Fs.find_entry x es); [apply IH|done].
Qed.

Lemma exists_parent fs (p : Path) (x : string) :
  Fs.exists_ fs (p ++ [x]) = true -> Fs.exists_ fs p = true.
Proof.
  unfold Fs.exists_. rewrite resolve_app.
  by destruct (Fs.resolve fs p).
Qed.

(** C5. The entry-point list is the root-level catalog names in catalog
    order, then the rendered [start] and [dev] scripts of [package.json],
    then the catalog names found under [src/], prefixed, leaving out every
    name already found at the root. *)
Theorem find_entry_points_order (fs : node) (repo_path : Path) :
  find_entry_points fs repo_path = entry_points_in_order fs repo_path.
Proof.
  unfold find_entry_points, entry_points_in_order.
  rewrite root_entries_loop_spec. simpl.
  assert (Hscripts :
    (if Fs.exists_ fs (repo_path ++ ["package.json"])
     then try_pass (scan_scripts fs (repo_path ++ ["package.json"])) (root_catalog fs repo_path)
     else root_catalog fs repo_path)
    = root_catalog fs repo_path ++ manifest_scripts fs repo_path).
  { destruct (Fs.exists_ fs (repo_path ++ ["package.json"])) eqn:E.
    - apply scan_scripts_run.
    - unfold manifest_scripts, scripts_object, json_load, Fs.read.
      unfold Fs.exists_ in E.
      destruct (Fs.resolve fs (repo_path ++ ["package.json"])); [done|].
      simpl. by rewrite app_nil_r. }
  rewrite Hscripts.
  destruct (Fs.exists_ fs (repo_path ++ ["src"])) eqn:Esrc.
  - unfold src_entries_loop.
    rewrite (src_entries_loop_gen fs repo_path).
    + rewrite <- app_assoc. do 2 f_equal. unfold nested_catalog. f_equal.
      apply list_filter_iff. intros e. by rewrite <- app_assoc.
    + intros e He. by apply common_entries_bare.
    + intros e He. rewrite elem_of_app. unfold root_catalog.
      rewrite list_elem_of_filter. split.
      * intros [[? _]|Hs]; [done|].
        apply manifest_scripts_prefixed in Hs.
        apply common_entries_bare in He as [He _]. congruence.
      * intros Hex. by left.
  - rewrite <- (app_nil_r (_ ++ _)), <- app_assoc. do 2 f_equal.
    unfold nested_catalog.
    assert (Hnone : forall e, ¬ (Fs.exists_ fs (repo_path ++ ["src"; e]) = true
                                 ∧ Fs.exists_ fs (repo_path ++ [e]) = false)).
    { intros e [Hex _].
      change (repo_path ++ ["src"; e]) with (repo_path ++ (["src"] ++ [e])) in Hex.
      rewrite app_assoc in Hex. apply exists_parent in Hex. congruence. }
    induction common_entries as [|e l IH]; [done|].
    rewrite filter_cons. case_decide; [by destruct (Hnone e)|apply IH].
Qed.

End EntryPoints.

(** ** Framework detection *)

Section Frameworks.

Context `{rt : Runtime}.

Lemma not_exists_read fs p :
  Fs.exists_ fs p = false -> Fs.read fs p = None.
Proof.
  unfold Fs.read, Fs.exists_. by destruct (Fs.resolve fs p).
Qed.

Lemma scan_package_json_run fs repo_path s :
  (if Fs.exists_ fs (repo_path ++ ["package.json"])
   then try_pass (scan_package_json fs (repo_path ++ ["package.json"])) s
   else s)
  = s ++ package_json_signal fs repo_path.
Proof.
  unfold package_json_signal.
  destruct (Fs.exists_ fs (repo_path ++ ["package.json"])) eqn:E.
  - unfold scan_package_json. unfold_M.
    destruct (package_json_deps fs (repo_path ++ ["package.json"])) as [deps|];
      [|by rewrite app_nil_r].
    unfold deps_labels.
    destruct (Py.has "next" deps), (Py.has "react" deps), (Py.has "react-dom" deps),
      (Py.has "vue" deps), (Py.has "angular" deps), (Py.has "@angular/core" deps),
      (Py.has "svelte" deps); simpl; rewrite <- ?app_assoc; simpl;
      by rewrite ?app_nil_r.
  - unfold package_json_deps, json_load.
    rewrite (not_exists_read _ _ E). simpl. by rewrite app_nil_r.
Qed.

Lemma scan_requirements_run fs repo_path s :
  (if Fs.exists_ fs (repo_path ++ ["requirements.txt"])
   then try_pass (scan_requirements fs (repo_path ++ ["requirements.txt"])) s
   else s)
  = s ++ requirements_signal fs repo_path.
Proof.
  unfold requirements_signal.
  destruct (Fs.exists_ fs (repo_path ++ ["requirements.txt"])) eqn:E.
  - unfold scan_requirements. unfold_M.
    destruct (Fs.read fs (repo_path ++ ["requirements.txt"])) as [content|]; simpl;
      [|by rewrite app_nil_r].
    unfold requirements_labels.
    destruct (Str.contains "django" _), (Str.contains "flask" _),
      (Str.contains "fastapi" _); simpl; rewrite <- ?app_assoc; simpl;
      by rewrite ?app_nil_r.
  - rewrite (not_exists_read _ _ E). by rewrite app_nil_r.
Qed.

(** The list of frameworks, pass by pass. *)
Lemma detected_frameworks_passes fs repo_path :
  detected_frameworks fs repo_path
  = sample_src fs repo_path (package_json_signal fs repo_path)
    ++ requirements_signal fs repo_path ++ marker_signal fs repo_path.
Proof.
  unfold detected_frameworks. cbv zeta.
  rewrite scan_package_json_run, scan_requirements_run. simpl.
  unfold marker_signal, append_if.
  destruct (Fs.exists_ fs (repo_path ++ ["go.mod"])),
    (Fs.exists_ fs (repo_path ++ ["pom.xml"])),
    (Fs.exists_ fs (repo_path ++ ["build.gradle"])); simpl;
    rewrite <- ?app_assoc; simpl; by rewrite ?app_nil_r.
Qed.

Lemma sample_src_skipped fs repo_path frameworks :
  frameworks ≠ [] -> sample_src fs repo_path frameworks = frameworks.
Proof. unfold sample_src. by destruct frameworks. Qed.

End Frameworks.

Section FrameworkClaims.

Context `{rt : Runtime}.





End FrameworkClaims.



Section SamplingClaims.

Context `{rt : Runtime}.

(** C3, as the code has it. The sampling pass is guarded by the outcome of
    the [package.json] check alone: when that check yields a framework, the
    list of frameworks is exactly what the manifest checks yield, so the
    sampling pass contributes nothing to the label. *)
Theorem sampling_skipped_after_package_json_signal (fs : node) (repo_path : Path) :
  package_json_signal fs repo_path ≠ [] ->
  sample_src fs repo_path (package_json_signal fs repo_path)
  = package_json_signal fs repo_path
  ∧ detected_frameworks fs repo_path = manifest_signal fs repo_path
  ∧ detect_framework fs repo_path = Str.join ", " (manifest_signal fs repo_path).
Proof.
  intros Hsignal.
  assert (Hskip := sample_src_skipped fs repo_path _ Hsignal).
  assert (Hall : detected_frameworks fs repo_path = manifest_signal fs repo_path).
  { rewrite detected_frameworks_passes, Hskip. done. }
  split; [done|]. split; [done|].
  unfold detect_framework. rewrite Hall. unfold manifest_signal.
  destruct (package_json_signal fs repo_path); done.
Qed.

(** Without a [package.json] signal the sampling pass runs, whatever the
    other manifest checks yield after it. *)
Lemma sampling_runs_without_package_json_signal (fs : node) (repo_path : Path) :
  package_json_signal fs repo_path = [] ->
  detected_frameworks fs repo_path
  = sample_src fs repo_path [] ++ requirements_signal fs repo_path
    ++ marker_signal fs repo_path.
Proof. intros Hnone. by rewrite detected_frameworks_passes, Hnone. Qed.

End SamplingClaims.

Lemma sampling_skipped_witness :
  detect_framework (rt := Reference.runtime) Reference.next_project Reference.tmp_root
  = "Next.js, Flask".
Proof.
  destruct (sampling_skipped_after_package_json_signal (rt := Reference.runtime)
              Reference.next_project Reference.tmp_root) as (_ & _ & Hlabel).
  - vm_compute. discriminate.
  - rewrite Hlabel. vm_compute. reflexivity.
Defined.

(** C3, as the specification words it, fails: [requirements.txt] yields
    Django, and the sampling pass still contributes React. *)
Lemma sampling_despite_manifest_signal :
  manifest_signal (rt := Reference.runtime) Reference.django_with_js Reference.tmp_root
  = ["Django"]
  ∧ detect_framework (rt := Reference.runtime) Reference.django_with_js Reference.tmp_root
    = "React, Django"
  ∧ ¬ sampling_only_without_manifest_signal (rt := Reference.runtime)
        Reference.django_with_js Reference.tmp_root.
Proof.
  split; [vm_compute; reflexivity|]. split; [vm_compute; reflexivity|].
  unfold sampling_only_without_manifest_signal. intros Hclaim.
  assert (Hsig : manifest_signal (rt := Reference.runtime) Reference.django_with_js
                   Reference.tmp_root ≠ []) by (vm_compute; discriminate).
  specialize (Hclaim Hsig). vm_compute in Hclaim. discriminate.
Qed.

(** ** Import extraction *)

Section Imports.

Context `{rt : Runtime}.

Lemma forest_size_app (a b : list ast) :
  forest_size (a ++ b) = forest_size a + forest_size b.
Proof.
  unfold forest_size. induction a as [|x a IH]; simpl; [done|]. rewrite IH. lia.
Qed.

Lemma forest_size_aliases (names : list alias) :
  forest_size (map AliasNode names) = length names.
Proof.
  unfold forest_size. induction names as [|a names IH]; simpl; [done|]. by rewrite IH.
Qed.

Lemma ast_size_children (n : ast) :
  ast_size n = S (forest_size (iter_child_nodes n)).
Proof.
  destruct n; simpl; rewrite ?forest_size_aliases; done.
Qed.

Lemma node_of_inv (t n : ast) :
  node_of t n -> n = t ∨ ∃ c, c ∈ iter_child_nodes t ∧ node_of c n.
Proof. intros H. inversion H; subst; eauto. Qed.

(** Every node the loop yields is a node of a queued tree. *)
Lemma walk_loop_sound (fuel : nat) (todo : list ast) (n : ast) :
  n ∈ walk_loop fuel todo -> ∃ t, t ∈ todo ∧ node_of t n.
Proof.
  revert todo. induction fuel as [|fuel IH]; intros todo; simpl.
  - by intros ?%elem_of_nil.
  - destruct todo as [|h rest]; [by intros ?%elem_of_nil|].
    intros [->|Hin]%elem_of_cons.
    + exists h. split; [left|constructor].
    + apply IH in Hin as (t & [Ht|Ht]%elem_of_app & Hn).
      * exists t. split; [by right|done].
      * exists h. split; [left|]. by eapply node_child.
Qed.

(** With fuel for every queued node, the loop yields every node of every
    queued tree: it never stops early. *)
Lemma walk_loop_enough (fuel : nat) (todo : list ast) (t n : ast) :
  forest_size todo <= fuel -> t ∈ todo -> node_of t n -> n ∈ walk_loop fuel todo.
Proof.
  revert todo t. induction fuel as [|fuel IH]; intros todo t Hfuel Ht Hn.
  - destruct todo as [|h rest]; [by apply elem_of_nil in Ht|].
    unfold forest_size in Hfuel. simpl in Hfuel.
    pose proof (ast_size_children h). lia.
  - destruct todo as [|h rest]; [by apply elem_of_nil in Ht|]. simpl.
    assert (Hfuel' : forest_size (rest ++ iter_child_nodes h) <= fuel).
    { rewrite forest_size_app. unfold forest_size in Hfuel |- *. simpl in Hfuel.
      pose proof (ast_size_children h) as Hh. unfold forest_size in Hh. lia. }
    apply elem_of_cons in Ht as [->|Ht].
    + apply node_of_inv in Hn as [->|(c & Hc & Hn)]; [left|].
      right. apply (IH _ c); [done| |done]. apply elem_of_app. by right.
    + right. apply (IH _ t); [done| |done]. apply elem_of_app. by left.
Qed.

Lemma walk_nodes (tree n : ast) : n ∈ walk tree <-> node_of tree n.
Proof.
  unfold walk. split.
  - intros (t & ->%list_elem_of_singleton & Hn)%walk_loop_sound. done.
  - intros Hn. apply (walk_loop_enough _ _ tree); [|left|done].
    unfold forest_size. simpl. lia.
Qed.

Lemma visit_run (n : ast) (s : list string) :
  visit n s = (Some tt, s ++ recorded_names n).
Proof.
  destruct n as [names|module names level|a|children]; simpl;
    try (unfold_M; by rewrite app_nil_r).
  - revert s. induction names as [|a names IH]; intros s; simpl.
    + unfold_M. by rewrite app_nil_r.
    + unfold_M. rewrite IH. by rewrite <- app_assoc.
  - destruct module as [m|]; [|unfold_M; by rewrite app_nil_r].
    destruct (Py.truthy_str m); unfold_M; [done|by rewrite app_nil_r].
Qed.

Lemma visit_all_run (nodes : list ast) (s : list string) :
  foldr (fun n k => visit n;; k) (mret tt) nodes s
  = (Some tt, s ++ flat_map recorded_names nodes).
Proof.
  revert s. induction nodes as [|n nodes IH]; intros s; simpl.
  - unfold_M. by rewrite app_nil_r.
  - change ((visit n;; foldr (fun n k => visit n;; k) (mret tt) nodes) s)
      with (MonadM.bind (visit n)
              (fun _ => foldr (fun n k => visit n;; k) (mret tt) nodes) s).
    unfold MonadM.bind. rewrite visit_run, IH. by rewrite <- app_assoc.
Qed.

Lemma recorded_names_spec (n : ast) (x : string) :
  x ∈ recorded_names n <-> imports_name n x.
Proof.
  unfold imports_name. destruct n as [names|module names level|a|children]; simpl.
  - rewrite list_elem_of_fmap. split.
    + intros (a & -> & Ha). left. eauto.
    + intros [(names' & a & [= <-] & Ha & <-)|(? & ? & [=] & _)]. eauto.
  - destruct module as [m|].
    + destruct m as [|c m]; simpl.
      * split; [by intros ?%elem_of_nil|].
        intros [(? & ? & [=] & _)|(? & ? & [= <-] & Hne)]. done.
      * rewrite list_elem_of_singleton. split.
        -- intros ->. right. eauto.
        -- intros [(? & ? & [=] & _)|(? & ? & [= <-] & _)]. done.
    + split; [by intros ?%elem_of_nil|].
      intros [(? & ? & [=] & _)|(? & ? & [=] & _)].
  - split; [by intros ?%elem_of_nil|].
    intros [(? & ? & [=] & _)|(? & ? & [=] & _)].
  - split; [by intros ?%elem_of_nil|].
    intros [(? & ? & [=] & _)|(? & ? & [=] & _)].
Qed.

Lemma parse_imports_python_parsed fs file_path text tree :
  Fs.read fs file_path = Some text -> ast_parse text = Some tree ->
  parse_imports_python fs file_path = flat_map recorded_names (walk tree).
Proof.
  intros Hread Hparse. unfold parse_imports_python, parse_python_body.
  unfold try_pass, mbind, M_bind, MonadM.bind, lift. rewrite Hread, Hparse.
  by rewrite visit_all_run.
Qed.

(** C4. For a file that parses, the extracted names are exactly the names
    of every plain [import] statement and the module of every
    [from ... import] statement of the syntax tree; for a file that cannot
    be read or parsed the result is the empty list. *)
Theorem parse_imports_python_extracts (fs : node) (file_path : Path) :
  (forall text tree,
      Fs.read fs file_path = Some text -> ast_parse text = Some tree ->
      forall x, x ∈ parse_imports_python fs file_path
                <-> ∃ n, node_of tree n ∧ imports_name n x) ∧
  (forall text,
      Fs.read fs file_path = Some text -> ast_parse text = None ->
      parse_imports_python fs file_path = []) ∧
  (Fs.read fs file_path = None -> parse_imports_python fs file_path = []).
Proof.
  split; [|split].
  - intros text tree Hread Hparse x.
    rewrite (parse_imports_python_parsed _ _ _ _ Hread Hparse).
    rewrite list_elem_of_In, in_flat_map. split.
    + intros (n & Hn & Hx). exists n.
      apply list_elem_of_In in Hn. apply list_elem_of_In in Hx.
      split; [by apply walk_nodes|by apply recorded_names_spec].
    + intros (n & Hn & Hx). exists n. rewrite <- !list_elem_of_In.
      split; [by apply walk_nodes|by apply recorded_names_spec].
  - intros text Hread Hparse. unfold parse_imports_python, parse_python_body.
    unfold try_pass, mbind, M_bind, MonadM.bind, lift. by rewrite Hread, Hparse.
  - intros Hread. unfold parse_imports_python, parse_python_body.
    unfold try_pass, mbind, M_bind, MonadM.bind, lift. by rewrite Hread.
Qed.

End Imports.

(** ** Dictionaries *)

Section DictFacts.

Context {V : Type}.

Lemma dict_keys_set (k k' : string) (v : V) (d : Dict.t V) :
  k' ∈ Dict.keys (Dict.set k v d) <-> k' = k ∨ k' ∈ Dict.keys d.
Proof.
  unfold Dict.keys. induction d as [|[k0 v0] d IH]; simpl.
  - rewrite list_elem_of_singleton. split; [by left|]. intros [?|?%elem_of_nil]; done.
  - destruct (String.eqb k0 k) eqn:E; simpl.
    + apply String.eqb_eq in E as ->. rewrite !elem_of_cons. tauto.
    + rewrite !elem_of_cons, IH. tauto.
Qed.

Lemma dict_get_set_eq (k : string) (v : V) (d : Dict.t V) :
  Dict.get k (Dict.set k v d) = Some v.
Proof.
  induction d as [|[k0 v0] d IH]; simpl.
  - by rewrite String.eqb_refl.
  - destruct (String.eqb k0 k) eqn:E; simpl.
    + by rewrite String.eqb_refl.
    + by rewrite E.
Qed.

Lemma dict_get_set_ne (k k' : string) (v : V) (d : Dict.t V) :
  k' ≠ k -> Dict.get k' (Dict.set k v d) = Dict.get k' d.
Proof.
  intros Hne. induction d as [|[k0 v0] d IH]; simpl.
  - destruct (String.eqb k k') eqn:E; [|done].
    apply String.eqb_eq in E. congruence.
  - destruct (String.eqb k0 k) eqn:E; simpl.
    + apply String.eqb_eq in E as ->.
      destruct (String.eqb k k') eqn:E'; [|done].
      apply String.eqb_eq in E'. congruence.
    + by rewrite IH.
Qed.

End DictFacts.

(** ** The listing of a well-formed tree *)

Section Listing.

Lemma node_ind' (P : node -> Prop) :
  (forall text leading sz, P (Regular text leading sz)) ->
  (forall es, Forall (fun e => P (snd e)) es -> P (Dir es)) ->
  forall n, P n.
Proof.
  intros Hfile Hdir. fix IH 1. intros [text leading sz|es]; [apply Hfile|apply Hdir].
  induction es as [|[x c] es IHes]; constructor; [apply IH|apply IHes].
Qed.

Lemma rglob_node_rel (p : Path) (n : node) :
  Fs.rglob_node p n = map (app p) (rel_paths n).
Proof.
  revert p. induction n as [text leading sz|es IH] using node_ind'; intros p; simpl; [done|].
  rewrite map_app, map_map. f_equal.
  induction es as [|[x c] es IHes]; simpl; [done|].
  apply Forall_cons in IH as [Hc Hes]. simpl in Hc.
  rewrite map_app, Hc, !map_map, IHes by done. f_equal.
  apply map_ext. intros q. by rewrite <- app_assoc.
Qed.

Lemma find_entry_elem (x : string) (es : list (string * node)) (c : node) :
  Fs.find_entry x es = Some c -> (x, c) ∈ es.
Proof.
  induction es as [|[y d] es IH]; simpl; [done|].
  destruct (String.eqb y x) eqn:E.
  - apply String.eqb_eq in E as ->. intros [= ->]. left.
  - intros H. right. by apply IH.
Qed.

Lemma well_formed_entry (es : list (string * node)) (x : string) (c : node) :
  well_formed (Dir es) = true -> (x, c) ∈ es ->
  Str.contains "/" x = false ∧ well_formed c = true.
Proof.
  simpl. intros [_ Hall]%andb_true_iff Hin.
  rewrite forallb_forall in Hall. apply list_elem_of_In in Hin.
  apply Hall in Hin. simpl in Hin.
  apply andb_true_iff in Hin as [Hx Hc]. by apply negb_true_iff in Hx.
Qed.

Lemma well_formed_resolve (fs : node) (p : Path) (n : node) :
  well_formed fs = true -> Fs.resolve fs p = Some n -> well_formed n = true.
Proof.
  revert fs. induction p as [|x p IH]; intros fs Hwf; simpl.
  - by intros [= <-].
  - destruct fs as [|es]; [done|].
    destruct (Fs.find_entry x es) as [c|] eqn:E; [|done].
    apply IH. by apply (well_formed_entry es x c), find_entry_elem.
Qed.

End Listing.

(** ** Rendering relative paths *)

Section Rendering.

Lemma slash_free_cons (c : ascii) (x : string) :
  slash_free (String c x) -> c ≠ "/"%char ∧ slash_free x.
Proof.
  unfold slash_free. simpl. intros [H1 H2]%orb_false_iff. split; [|done].
  intros ->. simpl in H1. done.
Qed.

Lemma contains_slash_app (y b : string) :
  Str.contains "/" (y +:+ "/" +:+ b) = true.
Proof.
  induction y as [|c y IH]; simpl; [done|].
  rewrite IH. by rewrite orb_true_r.
Qed.

Lemma app_slash_inj (x y a b : string) :
  slash_free x -> slash_free y ->
  x +:+ "/" +:+ a = y +:+ "/" +:+ b -> x = y ∧ a = b.
Proof.
  revert y. induction x as [|c x IH]; intros [|d y] Hx Hy; simpl.
  - intros [= ?]. by subst.
  - intros [= ? _]. subst d. by apply slash_free_cons in Hy as [? _].
  - intros [= ? _]. subst c. by apply slash_free_cons in Hx as [? _].
  - intros [= ? Heq]. subst d.
    apply slash_free_cons in Hx as [_ Hx]. apply slash_free_cons in Hy as [_ Hy].
    destruct (IH y Hx Hy Heq) as [-> ->]. done.
Qed.

Lemma render_cons (x : string) (y : string) (l : Path) :
  Fs.render (x :: y :: l) = x +:+ "/" +:+ Fs.render (y :: l).
Proof. reflexivity. Qed.

Lemma render_inj (l1 l2 : Path) :
  l1 ≠ [] -> l2 ≠ [] -> Forall slash_free l1 -> Forall slash_free l2 ->
  Fs.render l1 = Fs.render l2 -> l1 = l2.
Proof.
  revert l2. induction l1 as [|x l1 IH]; intros l2 H1 H2 Hs1 Hs2; [done|].
  destruct l2 as [|y l2]; [done|].
  apply Forall_cons in Hs1 as [Hx Hs1]. apply Forall_cons in Hs2 as [Hy Hs2].
  destruct l1 as [|x' l1], l2 as [|y' l2].
  - unfold Fs.render, Str.join. simpl. by intros ->.
  - rewrite render_cons. unfold Fs.render at 1, Str.join. simpl. intros ->.
    unfold slash_free in Hx. by rewrite contains_slash_app in Hx.
  - rewrite render_cons. unfold Fs.render at 2, Str.join. simpl. intros <-.
    unfold slash_free in Hy. by rewrite contains_slash_app in Hy.
  - rewrite !render_cons. intros Heq.
    apply app_slash_inj in Heq as [-> Heq]; [|done..].
    f_equal. by apply IH.
Qed.

Lemma rel_paths_nonempty (n : node) (rel : Path) : rel ∈ rel_paths n -> rel ≠ [].
Proof.
  destruct n as [|es]; simpl; [by intros ?%elem_of_nil|].
  rewrite elem_of_app, list_elem_of_fmap, list_elem_of_In, in_flat_map.
  intros [(e & -> & _)|(e & _ & Hin)]; [done|].
  apply list_elem_of_In, list_elem_of_fmap in Hin as (q & -> & _). done.
Qed.

Lemma rel_paths_slash_free (n : node) (rel : Path) :
  well_formed n = true -> rel ∈ rel_paths n -> Forall slash_free rel.
Proof.
  revert rel. induction n as [text leading sz|es IH] using node_ind'; intros rel Hwf; simpl;
    [by intros ?%elem_of_nil|].
  rewrite elem_of_app, list_elem_of_fmap, list_elem_of_In, in_flat_map.
  intros [([x c] & -> & Hin)|([x c] & Hin & Hrel)]; simpl in Hin |- *.
  - destruct (well_formed_entry es x c Hwf Hin) as [Hx _].
    constructor; [exact Hx|constructor].
  - apply list_elem_of_In in Hin. simpl in Hrel.
    destruct (well_formed_entry es x c Hwf Hin) as [Hx Hc].
    apply list_elem_of_In, list_elem_of_fmap in Hrel as (q & -> & Hq).
    constructor; [exact Hx|].
    rewrite Forall_forall in IH.
    apply (IH (x, c)); [exact Hin|exact Hc|exact Hq].
Qed.

Lemma rel_paths_NoDup (n : node) : well_formed n = true -> NoDup (rel_paths n).
Proof.
  induction n as [text leading sz|es IH] using node_ind'; intros Hwf; simpl; [constructor|].
  assert (Hnames : NoDup (map fst es)).
  { simpl in Hwf. apply andb_true_iff in Hwf as [Hnd _].
    by apply bool_decide_eq_true in Hnd. }
  assert (Hsub : forall x c, (x, c) ∈ es -> NoDup (rel_paths c)).
  { intros x c Hin. rewrite Forall_forall in IH.
    apply (IH (x, c)); [exact Hin|].
    by apply (well_formed_entry es x c). }
  clear IH Hwf.
  apply NoDup_app. split; [|split].
  - replace (map (fun e : string * node => [fst e]) es)
      with ((fun x : string => [x]) <$> (map fst es)) by (by rewrite <- list_fmap_compose).
    apply NoDup_fmap; [|done]. by intros ? ? [= ->].
  - intros rel (e & -> & _)%list_elem_of_fmap Hin.
    apply list_elem_of_In, in_flat_map in Hin as (e' & _ & Hin).
    apply list_elem_of_In, list_elem_of_fmap in Hin as (q & [= _ Hq] & Hq').
    subst q. by apply rel_paths_nonempty in Hq'.
  - induction es as [|[x c] es IHes]; simpl; [constructor|].
    apply NoDup_cons in Hnames as [Hx Hnames].
    apply NoDup_app. split; [|split].
    + apply NoDup_fmap; [by intros ? ? [= ->]|]. apply (Hsub x c). left.
    + intros rel (q & -> & _)%list_elem_of_fmap Hin.
      apply list_elem_of_In, in_flat_map in Hin as ([y d] & Hyd & Hin).
      apply list_elem_of_In, list_elem_of_fmap in Hin as (q' & [= -> _] & _).
      apply Hx. apply list_elem_of_fmap. exists (y, d). split; [done|].
      by apply list_elem_of_In.
    + apply IHes; [done|]. intros y d Hin. apply (Hsub y d). by right.
Qed.

Lemma rendered_rel_paths_NoDup (n : node) :
  well_formed n = true -> NoDup (map Fs.render (rel_paths n)).
Proof.
  intros Hwf. apply NoDup_fmap_2_strong; [|by apply rel_paths_NoDup].
  intros l1 l2 H1 H2 Heq.
  apply render_inj; eauto using rel_paths_nonempty, rel_paths_slash_free.
Qed.

Lemma relative_to_app (base rel : Path) : Fs.relative_to base (base ++ rel) = rel.
Proof. unfold Fs.relative_to. by rewrite drop_app_length. Qed.

(** In a well-formed file system the rendered relative paths of the files
    [rglob] lists are pairwise distinct. *)
Lemma rglob_rendered_NoDup (fs : node) (repo_path : Path) :
  well_formed fs = true ->
  NoDup (map (fun p => Fs.render (Fs.relative_to repo_path p)) (Fs.rglob fs repo_path)).
Proof.
  intros Hwf. unfold Fs.rglob.
  destruct (Fs.resolve fs repo_path) as [n|] eqn:E; [|constructor].
  rewrite rglob_node_rel, map_map.
  erewrite map_ext; [apply (rendered_rel_paths_NoDup n)|].
  - by eapply well_formed_resolve.
  - intros rel. simpl. by rewrite relative_to_app.
Qed.

End Rendering.

(** ** The tree walker *)

Section WalkerFacts.

Context `{rt : Runtime}.

Lemma extract_imports_go_java fs file_path ext :
  ext = ".go" ∨ ext = ".java" -> extract_imports fs file_path ext = [].
Proof. intros [-> | ->]; vm_compute; reflexivity. Qed.

Lemma walk_invariant_init repo_path : walk_invariant repo_path [] ([], []).
Proof.
  split; simpl.
  - by intros fn ?%elem_of_nil.
  - constructor.
  - intros k. split; [by intros ?%elem_of_nil|]. by intros (fn & ?%elem_of_nil & _).
  - by intros fn ?%elem_of_nil.
  - by intros fn ?%elem_of_nil.
Qed.

Lemma walk_invariant_weaken repo_path ps p st :
  walk_invariant repo_path ps st -> walk_invariant repo_path (ps ++ [p]) st.
Proof.
  intros [H1 H2 H3 H4 H5]. split; try done.
  intros fn Hfn. destruct (H1 fn Hfn) as (q & Hq & Hp).
  exists q. split; [|done]. apply elem_of_app. by left.
Qed.

Lemma walk_invariant_step fs repo_path ps p st :
  NoDup (map (fun q => Fs.render (Fs.relative_to repo_path q)) (ps ++ [p])) ->
  walk_invariant repo_path ps st ->
  walk_invariant repo_path (ps ++ [p]) (walk_step fs repo_path st p).
Proof.
  intros Hnd Hinv. destruct st as [files dependencies]. unfold walk_step.
  destruct (Fs.is_file fs p); [|by apply walk_invariant_weaken].
  destruct (existsb _ _); [by apply walk_invariant_weaken|].
  destruct (existsb _ _); [by apply walk_invariant_weaken|].
  set (key := Fs.render (Fs.relative_to repo_path p)).
  remember (extract_imports fs p (Fs.suffix p)) as imports eqn:Himports.
  set (fn0 := FileNode.Build _ _ _ _ _ _).
  destruct Hinv as [H1 H2 H3 H4 H5]. simpl in *.
  assert (Hfresh : key ∉ map FileNode.path files).
  { intros (fn & Hk & Hfn)%list_elem_of_fmap.
    destruct (H1 fn Hfn) as (q & Hq & Hpath).
    rewrite map_app in Hnd. apply NoDup_app in Hnd as (_ & Hdisj & _).
    apply (Hdisj key).
    - apply list_elem_of_fmap. exists q. split; [congruence|done].
    - simpl. left. }
  assert (Hdispatch : FileNode.type fn0 = ".go" ∨ FileNode.type fn0 = ".java" ->
                      imports = []).
  { simpl. intros Hty. rewrite Himports. apply extract_imports_go_java.
    destruct (Fs.suffix p) as [|c s]; simpl in Hty; [|done].
    by destruct Hty. }
  split; simpl.
  - intros fn [Hfn| ->%list_elem_of_singleton]%elem_of_app.
    + destruct (H1 fn Hfn) as (q & Hq & Hp). exists q.
      split; [apply elem_of_app; by left|done].
    + exists p. split; [apply elem_of_app; right; left|done].
  - rewrite map_app. apply NoDup_app. split; [done|]. split.
    + intros k Hk [->|?%elem_of_nil]%elem_of_cons; done.
    + simpl. apply NoDup_singleton.
  - intros k. clear Himports Hdispatch. subst fn0.
    destruct imports as [|i imports']; simpl.
    + rewrite H3. split.
      * intros (fn & Hfn & Hk & Hne). exists fn.
        split; [apply elem_of_app; by left|done].
      * intros (fn & [Hfn| ->%list_elem_of_singleton]%elem_of_app & Hk & Hne).
        -- by exists fn.
        -- by simpl in Hne.
    + rewrite dict_keys_set, H3. split.
      * intros [->|(fn & Hfn & Hk & Hne)].
        -- eexists. split; [apply elem_of_app; right; left|]. by simpl.
        -- exists fn. split; [apply elem_of_app; by left|done].
      * intros (fn & [Hfn| ->%list_elem_of_singleton]%elem_of_app & Hk & Hne).
        -- right. by exists fn.
        -- by left.
  - intros fn [Hfn| ->%list_elem_of_singleton]%elem_of_app Hne.
    + assert (FileNode.path fn ≠ key) as Hkey.
      { intros Heq. apply Hfresh. apply list_elem_of_fmap. by exists fn. }
      clear Himports Hdispatch. subst fn0.
      destruct imports as [|i imports']; simpl; [by apply H4|].
      rewrite dict_get_set_ne by done. by apply H4.
    + clear Himports Hdispatch. subst fn0. simpl in Hne |- *.
      destruct imports as [|i imports']; [done|]. simpl.
      by rewrite dict_get_set_eq.
  - intros fn [Hfn| ->%list_elem_of_singleton]%elem_of_app Hty.
    + by apply H5.
    + by apply Hdispatch.
Qed.

Lemma walk_invariant_loop fs repo_path (ps done_ps : list Path) st :
  NoDup (map (fun q => Fs.render (Fs.relative_to repo_path q)) (done_ps ++ ps)) ->
  walk_invariant repo_path done_ps st ->
  walk_invariant repo_path (done_ps ++ ps) (foldl (walk_step fs repo_path) st ps).
Proof.
  revert done_ps st. induction ps as [|p ps IH]; intros done_ps st Hnd Hinv; simpl.
  - by rewrite app_nil_r.
  - replace (done_ps ++ p :: ps) with ((done_ps ++ [p]) ++ ps) in Hnd |- *
      by (by rewrite <- app_assoc).
    apply IH; [done|]. apply walk_invariant_step; [|done].
    rewrite map_app in Hnd. by apply NoDup_app in Hnd as (? & _ & _).
Qed.

(** The invariant holds of the result of [analyze_file_structure]. *)
Lemma analyze_file_structure_invariant fs repo_path :
  well_formed fs = true ->
  walk_invariant repo_path (Fs.rglob fs repo_path) (analyze_file_structure fs repo_path).
Proof.
  intros Hwf. unfold analyze_file_structure.
  apply (walk_invariant_loop fs repo_path (Fs.rglob fs repo_path) []).
  - by apply rglob_rendered_NoDup.
  - apply walk_invariant_init.
Qed.

(** C6. The keys of the dependency map are exactly the paths of the file
    records whose import list is non-empty, hence a subset of the file
    paths, and each key maps to the import list of its file record. *)
Theorem dependency_map_matches_file_nodes (fs : node) (repo_path : Path) :
  well_formed fs = true ->
  let files := (analyze_file_structure fs repo_path).1 in
  let dependencies := (analyze_file_structure fs repo_path).2 in
  (forall k, k ∈ Dict.keys dependencies <->
     ∃ fn, fn ∈ files ∧ FileNode.path fn = k ∧ FileNode.imports fn ≠ []) ∧
  (forall k, k ∈ Dict.keys dependencies -> k ∈ map FileNode.path files) ∧
  (forall fn, fn ∈ files -> FileNode.imports fn ≠ [] ->
     Dict.get (FileNode.path fn) dependencies = Some (FileNode.imports fn)).
Proof.
  intros Hwf files dependencies.
  destruct (analyze_file_structure_invariant fs repo_path Hwf) as [_ _ Hkeys Hvalues _].
  split; [exact Hkeys|]. split; [|exact Hvalues].
  intros k (fn & Hfn & <- & _)%Hkeys. apply list_elem_of_fmap. by exists fn.
Qed.

(** C10. [.go] and [.java] are recognized code extensions, no extraction
    is dispatched for them, so the file record of such a file has an empty
    import list and its path is no key of the dependency map. *)
Theorem go_and_java_files_have_no_imports (fs : node) (repo_path : Path) :
  well_formed fs = true ->
  (".go" ∈ code_extensions ∧ ".java" ∈ code_extensions) ∧
  (forall file_path ext, ext = ".go" ∨ ext = ".java" ->
     extract_imports fs file_path ext = []) ∧
  (forall fn, fn ∈ (analyze_file_structure fs repo_path).1 ->
     FileNode.type fn = ".go" ∨ FileNode.type fn = ".java" ->
     FileNode.imports fn = []
     ∧ FileNode.path fn ∉ Dict.keys (analyze_file_structure fs repo_path).2).
Proof.
  intros Hwf.
  split; [split; by vm_compute|].
  split; [intros; by apply extract_imports_go_java|].
  destruct (analyze_file_structure_invariant fs repo_path Hwf)
    as [_ Hunique Hkeys _ Hdispatch].
  intros fn Hfn Hty. split; [by apply Hdispatch|].
  intros (fn' & Hfn' & Hpath & Hne)%Hkeys.
  assert (fn' = fn) as ->.
  { apply list_elem_of_lookup in Hfn as [i Hi]. apply list_elem_of_lookup in Hfn' as [j Hj].
    assert (i = j) as ->; [|congruence].
    eapply NoDup_lookup; [exact Hunique| |].
    - rewrite list_lookup_fmap, Hi. reflexivity.
    - rewrite list_lookup_fmap, Hj. simpl. by rewrite Hpath. }
  apply Hne. by apply Hdispatch.
Qed.

End WalkerFacts.

Example mixed_project_dependencies :
  (analyze_file_structure (rt := Reference.runtime)
     Reference.mixed_project Reference.tmp_root).2
  = [("main.py", ["os"; "foo"]); ("src/index.js", ["./App"])].
Proof. vm_compute. reflexivity. Qed.

Example mixed_project_paths :
  map FileNode.path
    (analyze_file_structure (rt := Reference.runtime)
       Reference.mixed_project Reference.tmp_root).1
  = ["main.py"; "main.go"; "Main.java"; "README"; "src/index.js"; "src/App.js"].
Proof. vm_compute. reflexivity. Qed.

Lemma dependency_map_witness :
  well_formed Reference.mixed_project = true
  ∧ Dict.get "main.py"
      (analyze_file_structure (rt := Reference.runtime)
         Reference.mixed_project Reference.tmp_root).2
    = Some ["os"; "foo"].
Proof.
  split; [vm_compute; reflexivity|].
  destruct (dependency_map_matches_file_nodes (rt := Reference.runtime)
              Reference.mixed_project Reference.tmp_root) as (_ & _ & Hvalues);
    [vm_compute; reflexivity|].
  apply (Hvalues
           {| FileNode.id := "00000000-0000-4000-8000-0";
              FileNode.name := "main.py";
              FileNode.path := "main.py";
              FileNode.type := ".py";
              FileNode.imports := ["os"; "foo"];
              FileNode.size := 30 |}); [|done].
  vm_compute. left.
Defined.

Lemma go_and_java_witness :
  well_formed Reference.mixed_project = true
  ∧ ("main.go" ∉ Dict.keys
       (analyze_file_structure (rt := Reference.runtime)
          Reference.mixed_project Reference.tmp_root).2)
  ∧ ("Main.java" ∉ Dict.keys
       (analyze_file_structure (rt := Reference.runtime)
          Reference.mixed_project Reference.tmp_root).2).
Proof.
  split; [vm_compute; reflexivity|].
  destruct (go_and_java_files_have_no_imports (rt := Reference.runtime)
              Reference.mixed_project Reference.tmp_root) as (_ & _ & Hfiles);
    [vm_compute; reflexivity|].
  split.
  - apply (Hfiles
             {| FileNode.id := "00000000-0000-4000-8000-1";
                FileNode.name := "main.go";
                FileNode.path := "main.go";
                FileNode.type := ".go";
                FileNode.imports := [];
                FileNode.size := 12 |}); [|by left].
    vm_compute. right. left.
  - apply (Hfiles
             {| FileNode.id := "00000000-0000-4000-8000-2";
                FileNode.name := "Main.java";
                FileNode.path := "Main.java";
                FileNode.type := ".java";
                FileNode.imports := [];
                FileNode.size := 13 |}); [|by right].
    vm_compute. right. right. left.
Defined.

Lemma parse_imports_python_witness :
  "os" ∈ parse_imports_python (rt := Reference.runtime)
           Reference.scenario (Reference.tmp_root ++ ["main.py"])
  ∧ "foo" ∈ parse_imports_python (rt := Reference.runtime)
              Reference.scenario (Reference.tmp_root ++ ["main.py"]).
Proof.
  destruct (parse_imports_python_extracts (rt := Reference.runtime)
              Reference.scenario (Reference.tmp_root ++ ["main.py"])) as (Hparsed & _ & _).
  pose proof (Hparsed Reference.main_py_text Reference.main_py_tree eq_refl eq_refl) as Hiff.
  split; apply Hiff.
  - exists (Import [Alias "os" None]). split.
    + eapply node_child; [|apply node_self]. simpl. left.
    + left. exists [Alias "os" None], (Alias "os" None). split; [done|]. split; [left|done].
  - exists (ImportFrom (Some "foo") [Alias "bar" None] 0). split.
    + eapply node_child; [|apply node_self]. simpl. right. left.
    + right. exists [Alias "bar" None], 0. split; [done|]. discriminate.
Defined.

(** ** Determinism of import extraction *)

Section Determinism.

Context `{rt : Runtime}.

(** C9. Import extraction reads nothing but the text of the file and
    changes nothing: two runs that find the same content (in particular
    two runs on the same, unchanged file) return the same sequence, for the
    Python and for the JavaScript extraction. *)
Theorem import_extraction_deterministic (fs1 fs2 : node) (path1 path2 : Path) :
  Fs.read fs1 path1 = Fs.read fs2 path2 ->
  parse_imports_python fs1 path1 = parse_imports_python fs2 path2
  ∧ parse_imports_js fs1 path1 = parse_imports_js fs2 path2.
Proof.
  intros Hread.
  unfold parse_imports_python, parse_python_body, parse_imports_js, parse_js_body.
  by rewrite Hread.
Qed.

End Determinism.

Lemma import_extraction_witness :
  parse_imports_python (rt := Reference.runtime)
    Reference.scenario (Reference.tmp_root ++ ["main.py"])
  = parse_imports_python (rt := Reference.runtime)
      Reference.mixed_project (Reference.tmp_root ++ ["main.py"])
  ∧ parse_imports_js (rt := Reference.runtime)
      Reference.scenario (Reference.tmp_root ++ ["main.py"])
    = parse_imports_js (rt := Reference.runtime)
        Reference.mixed_project (Reference.tmp_root ++ ["main.py"]).
Proof.
  apply (import_extraction_deterministic (rt := Reference.runtime)).
  vm_compute. reflexivity.
Defined.

(** ** The insight request *)

Section InsightFacts.

Context `{rt : Runtime}.

Lemma run_passes_profile (env : Environ) (fs : node) (url : string) (repo_path : Path) :
  llm_never_cancelled env -> insert_one env = Completed tt ->
  ∃ analysis, run_passes env fs url repo_path = Response analysis
              ∧ ∃ insight, ai_insights analysis = Some insight.
Proof.
  intros Hsend Hdb. unfold run_passes.
  destruct (analyze_file_structure fs repo_path) as [files deps].
  unfold get_ai_insights, try_except.
  destruct (EMERGENT_LLM_KEY env) as [key|]; [destruct (Py.truthy_str key)|];
    try (destruct (llm_send _ _ _ _ _ _ _) as [reply|e|] eqn:Esend;
         [| |by apply Hsend in Esend]);
    rewrite Hdb; eauto.
Qed.

(** A cancellation delivered at the text-generation call leaves
    [get_ai_insights]: [except Exception] does not catch it. *)
Lemma cancelled_call_propagates (env : Environ) (drawn : nat) (info : repo_info) :
  llm_call_cancelled env drawn info -> get_ai_insights env drawn info = Cancelled.
Proof.
  intros (key & Hkey & Hne & Hsend). unfold get_ai_insights, try_except.
  rewrite Hkey. destruct key as [|c key]; [done|]. simpl. by rewrite Hsend.
Qed.

(** C8, as the code has it.  [get_ai_insights] returns a string whenever
    its text-generation call is not cancelled.  When the API key is missing
    it is the fixed explanation; when the call raises an instance of
    [Exception] it is the explanation followed by the error text; both
    start with [AI insights unavailable: ].  When no text-generation call
    is cancelled, the passes of a request end in a profile carrying that
    string whenever the profile can be stored. *)
Theorem get_ai_insights_catches_exceptions
    (env : Environ) (drawn : nat) (info : repo_info) :
  ¬ llm_call_cancelled env drawn info ->
  ∃ text,
    get_ai_insights env drawn info = Completed text
    ∧ (api_key_missing env ->
         text = "AI insights unavailable: API key not configured")
    ∧ (forall e, llm_call_fails env drawn info e ->
         text = "AI insights unavailable: " +:+ exception_str e)
    ∧ (api_key_missing env ∨ (∃ e, llm_call_fails env drawn info e) ->
         Str.startswith "AI insights unavailable: " text = true)
    ∧ (forall fs url repo_path,
         llm_never_cancelled env -> insert_one env = Completed tt ->
         ∃ analysis, run_passes env fs url repo_path = Response analysis
                     ∧ ∃ insight, ai_insights analysis = Some insight).
Proof.
  intros Hlive.
  pose proof (run_passes_profile env) as Hpipeline.
  revert Hlive.
  unfold get_ai_insights, try_except, api_key_missing, llm_call_fails, llm_call_cancelled.
  destruct (EMERGENT_LLM_KEY env) as [key|] eqn:Ekey.
  - destruct key as [|c key]; simpl.
    + intros _. eexists. split; [done|]. split; [done|].
      split; [|split; [done|exact Hpipeline]].
      intros e (k & [= <-] & Hk & _). done.
    + destruct (llm_send env (String c key) (uuid4 drawn) system_message "openai"
                  "gpt-4o-mini" (build_prompt info)) as [reply|e|] eqn:Esend; intros Hlive.
      * eexists. split; [done|]. split; [by intros [?|?]|]. split.
        { intros e (k & [= <-] & _ & He). congruence. }
        split; [|exact Hpipeline].
        intros [[?|?]|(e & k & [= <-] & _ & He)]; congruence.
      * eexists. split; [done|]. split; [by intros [?|?]|]. split.
        { intros e' (k & [= <-] & _ & He). congruence. }
        split; [done|exact Hpipeline].
      * exfalso. apply Hlive. exists (String c key). by rewrite Esend.
  - intros _. eexists. split; [done|]. split; [done|].
    split; [|split; [done|exact Hpipeline]].
    intros e (k & [=] & _).
Qed.

End InsightFacts.

Lemma get_ai_insights_witness :
  ∃ text,
    get_ai_insights (rt := Reference.runtime)
      (Reference.keyed_env (Failed (Exception "connection refused"))) 0
      Reference.scenario_info = Completed text
    ∧ Str.startswith "AI insights unavailable: " text = true.
Proof.
  destruct (get_ai_insights_catches_exceptions (rt := Reference.runtime)
              (Reference.keyed_env (Failed (Exception "connection refused"))) 0
              Reference.scenario_info) as (text & Heq & _ & _ & Hstart & _).
  - intros (key & _ & _ & Hsend). simpl in Hsend. discriminate.
  - exists text. split; [exact Heq|]. apply Hstart. right.
    exists (Exception "connection refused"), "sk-test".
    split; [reflexivity|]. split; [discriminate|reflexivity].
Defined.

(** C8, as the specification words it, fails: a text-generation call that
    is cancelled leaves [get_ai_insights] as a cancellation, and the
    request ends without a profile. *)
Lemma cancelled_insight_request_propagates :
  get_ai_insights (rt := Reference.runtime) (Reference.keyed_env Cancelled) 0
    Reference.scenario_info = Cancelled
  ∧ ¬ insight_request_never_raises (rt := Reference.runtime)
        (Reference.keyed_env Cancelled) 0 Reference.scenario_info
  ∧ (analyze_repository (rt := Reference.runtime) (Reference.keyed_env Cancelled)
       Reference.empty_tmp "https://github.com/octocat/Hello-World").1
    = RequestCancelled.
Proof.
  split; [reflexivity|]. split; [|vm_compute; reflexivity].
  intros [text Htext]. vm_compute in Htext. discriminate.
Qed.

(** ** The repository name *)

Example derive_repo_name_plain :
  derive_repo_name "https://github.com/octocat/Hello-World" = "Hello-World".
Proof. reflexivity. Qed.

Example derive_repo_name_git_suffix :
  derive_repo_name "https://github.com/octocat/Hello-World.git/" = "Hello-World".
Proof. reflexivity. Qed.

(** ** The route: retrieval errors and cleanup *)

Section RouteFacts.

Context `{rt : Runtime}.

Lemma find_entry_set_entry (x : string) (n : node) (es : list (string * node)) :
  Fs.find_entry x (Fs.set_entry x n es) = Some n.
Proof.
  induction es as [|[y c] es IH]; simpl.
  - by rewrite String.eqb_refl.
  - destruct (String.eqb y x) eqn:E; simpl.
    + by rewrite String.eqb_refl.
    + by rewrite E.
Qed.

Lemma find_entry_remove_entry (x : string) (es : list (string * node)) :
  Fs.find_entry x (Fs.remove_entry x es) = None.
Proof.
  induction es as [|[y c] es IH]; simpl; [done|].
  destruct (String.eqb y x) eqn:E; simpl; [done|]. by rewrite E.
Qed.

Lemma resolve_put (p : Path) (n fs : node) : Fs.resolve (Fs.put p n fs) p = Some n.
Proof.
  revert fs. induction p as [|x p IH]; intros fs; simpl; [done|].
  rewrite find_entry_set_entry. apply IH.
Qed.

Lemma resolve_remove (p : Path) (fs : node) :
  p ≠ [] -> Fs.resolve (Fs.remove p fs) p = None.
Proof.
  revert fs. induction p as [|x p IH]; intros fs Hne; [done|].
  destruct p as [|y p].
  - simpl. by rewrite find_entry_remove_entry.
  - change (Fs.remove (x :: y :: p) fs)
      with (match fs with
            | Dir es =>
                match Fs.find_entry x es with
                | Some child => Dir (Fs.set_entry x (Fs.remove (y :: p) child) es)
                | None => fs
                end
            | Regular _ _ _ => fs
            end).
    destruct fs as [text leading sz|es]; [done|].
    destruct (Fs.find_entry x es) as [child|] eqn:E.
    + change (Fs.resolve (Dir (Fs.set_entry x (Fs.remove (y :: p) child) es)) (x :: y :: p))
        with (match Fs.find_entry x (Fs.set_entry x (Fs.remove (y :: p) child) es) with
              | Some c => Fs.resolve c (y :: p)
              | None => None
              end).
      rewrite find_entry_set_entry. by apply IH.
    + simpl. by rewrite E.
Qed.

Lemma cleanup_removes (env : Environ) (fs : node) (t : Path) :
  t ≠ [] -> rmtree_failure env = None ->
  Fs.exists_ (cleanup env fs (Some t)) t = false.
Proof.
  intros Ht Hrm. unfold cleanup. rewrite Hrm.
  destruct (Fs.exists_ fs t) eqn:E; [|done].
  unfold Fs.exists_. by rewrite resolve_remove.
Qed.

Lemma cleanup_residue (env : Environ) (fs : node) (t : Path) residue :
  Fs.exists_ fs t = true -> rmtree_failure env = Some residue ->
  Fs.exists_ (cleanup env fs (Some t)) t = true.
Proof.
  intros Hex Hrm. unfold cleanup. rewrite Hrm, Hex.
  unfold Fs.exists_. by rewrite resolve_put.
Qed.

(** C7, as the code has it. When the clone fails the request ends in a
    client error (status 400) that carries the error text.  On every exit
    path after the temporary directory was created its removal is
    attempted: when the removal succeeds the directory is gone when the
    request returns; when the removal itself fails the failure is swallowed
    and the directory stays. *)
Theorem clone_failure_is_client_error
    (env : Environ) (fs : node) (url : string) (dir : Path) (fresh : string) :
  mkdtemp env = Returned (dir, fresh) ->
  (forall e contents,
      clone_from env url = (Raised e, contents) ->
      (analyze_repository env fs url).1
      = HTTPException 400 ("Failed to clone repository: " +:+ exception_str e))
  ∧ (rmtree_failure env = None ->
       Fs.exists_ (analyze_repository env fs url).2 (dir ++ [fresh]) = false)
  ∧ (forall residue,
       rmtree_failure env = Some residue ->
       Fs.exists_ (analyze_repository env fs url).2 (dir ++ [fresh]) = true).
Proof.
  intros Htmp. unfold analyze_repository, analyze_body. rewrite Htmp.
  destruct (clone_from env url) as [cloned contents].
  split; [|split].
  - intros e contents' [= -> ->]. done.
  - intros Hrm. destruct cloned; simpl; apply cleanup_removes; try done;
      by destruct dir.
  - intros residue Hrm.
    destruct cloned; simpl; apply (cleanup_residue _ _ _ residue); try done;
      unfold Fs.exists_; by rewrite resolve_put.
Qed.

End RouteFacts.

Lemma clone_failure_witness :
  (analyze_repository (rt := Reference.runtime) (Reference.failing_env None)
     Reference.empty_tmp Reference.unreachable_url).1
  = HTTPException 400 "Failed to clone repository: repository not found"
  ∧ Fs.exists_
      (analyze_repository (rt := Reference.runtime) (Reference.failing_env None)
         Reference.empty_tmp Reference.unreachable_url).2
      ["tmp"; "tmpk3v9x2ab"]
    = false.
Proof.
  destruct (clone_failure_is_client_error (rt := Reference.runtime)
              (Reference.failing_env None) Reference.empty_tmp
              Reference.unreachable_url ["tmp"] "tmpk3v9x2ab" eq_refl)
    as (Hstatus & Hgone & _).
  split.
  - exact (Hstatus (Exception "repository not found") _ eq_refl).
  - exact (Hgone eq_refl).
Defined.

(** C7, as the specification words it, fails: the clone fails, the
    request ends in the client error, the removal of the temporary
    directory fails too, and the directory is still there. *)
Lemma residual_directory_after_failed_cleanup :
  (analyze_repository (rt := Reference.runtime)
     (Reference.failing_env (Some Reference.stuck_residue))
     Reference.empty_tmp Reference.unreachable_url).1
  = HTTPException 400 "Failed to clone repository: repository not found"
  ∧ Fs.exists_
      (analyze_repository (rt := Reference.runtime)
         (Reference.failing_env (Some Reference.stuck_residue))
         Reference.empty_tmp Reference.unreachable_url).2
      ["tmp"; "tmpk3v9x2ab"]
    = true
  ∧ ¬ no_residual_directory (rt := Reference.runtime)
        (Reference.failing_env (Some Reference.stuck_residue))
        Reference.empty_tmp Reference.unreachable_url.
Proof.
  split; [vm_compute; reflexivity|]. split; [vm_compute; reflexivity|].
  intros Hclaim. specialize (Hclaim ["tmp"] "tmpk3v9x2ab" eq_refl).
  vm_compute in Hclaim. discriminate.
Qed.

(** ** The end-to-end scenario *)

Section Scenario.

Context `{rt : Runtime}.

Lemma rglob_below (fs : node) (repo_path p : Path) :
  p ∈ Fs.rglob fs repo_path -> ∃ rel, p = repo_path ++ rel.
Proof.
  unfold Fs.rglob. destruct (Fs.resolve fs repo_path) as [n|]; [|by intros ?%elem_of_nil].
  rewrite rglob_node_rel. intros (rel & -> & _)%list_elem_of_fmap. by exists rel.
Qed.

(** The exclusion tests read the parts of the absolute path, those of
    [repo_path] included: below a root with a dot-prefixed or an ignored
    part every file is skipped. *)
Lemma walker_skips_below_ignored_root (fs : node) (repo_path : Path) :
  existsb (Str.startswith ".") (parts repo_path) = true
  ∨ existsb (fun skip => bool_decide (skip ∈ parts repo_path)) skip_dirs = true ->
  analyze_file_structure fs repo_path = ([], []).
Proof.
  intros Hroot. unfold analyze_file_structure.
  assert (Hstep : forall p st, p ∈ Fs.rglob fs repo_path ->
                               walk_step fs repo_path st p = st).
  { intros p [files deps] (rel & ->)%rglob_below. unfold walk_step.
    destruct (Fs.is_file fs (repo_path ++ rel)); [|done].
    destruct Hroot as [Hdot|Hskip].
    - assert (existsb (Str.startswith ".") (parts (repo_path ++ rel)) = true) as ->; [|done].
      unfold parts in *. rewrite app_comm_cons, existsb_app, Hdot. done.
    - destruct (existsb (Str.startswith ".") _); [done|].
      assert (existsb (fun skip => bool_decide (skip ∈ parts (repo_path ++ rel))) skip_dirs
              = true) as ->; [|done].
      apply existsb_exists in Hskip as (skip & Hin & Hskip).
      apply existsb_exists. exists skip. split; [done|].
      apply bool_decide_eq_true in Hskip. apply bool_decide_eq_true.
      unfold parts in *. rewrite app_comm_cons. apply elem_of_app. by left. }
  generalize (@nil FileNode.t, @nil (string * list string)).
  induction (Fs.rglob fs repo_path) as [|p ps IH]; intros st; [done|].
  change (foldl (walk_step fs repo_path) st (p :: ps))
    with (foldl (walk_step fs repo_path) (walk_step fs repo_path st p) ps).
  rewrite Hstep by left. apply IH. intros q st' Hq. apply Hstep. by right.
Qed.

End Scenario.

Section ScenarioAtCleanRoot.

Context `{rt : Runtime}.

Variables (fs : node) (repo_path : Path).

Hypothesis Hcheckout : Fs.resolve fs repo_path = Some (Dir Reference.scenario_entries).
Hypothesis Hvisible : existsb (Str.startswith ".") (parts repo_path) = false.
Hypothesis Hkept :
  existsb (fun skip => bool_decide (skip ∈ parts repo_path)) skip_dirs = false.
Hypothesis Hparse : ast_parse Reference.main_py_text = Some Reference.main_py_tree.
Hypothesis Hlower :
  str_lower ("fastapi==0.95.0" +:+ Str.nl) = "fastapi==0.95.0" +:+ Str.nl.

Lemma resolve_below (q : Path) :
  Fs.resolve fs (repo_path ++ q) = Fs.resolve (Dir Reference.scenario_entries) q.
Proof using Hcheckout. by rewrite resolve_app, Hcheckout. Qed.

Lemma exists_below (q : Path) :
  Fs.exists_ fs (repo_path ++ q) = Fs.exists_ (Dir Reference.scenario_entries) q.
Proof using Hcheckout. unfold Fs.exists_. by rewrite resolve_below. Qed.

Lemma hidden_check_below (name : string) :
  Str.startswith "." name = false ->
  existsb (Str.startswith ".") (parts (repo_path ++ [name])) = false.
Proof using Hvisible.
  intros Hname. unfold parts in *. rewrite app_comm_cons, existsb_app, Hvisible.
  cbn [existsb orb]. by rewrite Hname.
Qed.

Lemma skip_check_below (name : string) :
  name ∉ skip_dirs ->
  existsb (fun skip => bool_decide (skip ∈ parts (repo_path ++ [name]))) skip_dirs = false.
Proof using Hkept.
  intros Hname. apply not_true_is_false.
  intros (skip & Hin & Hskip)%existsb_exists.
  apply bool_decide_eq_true in Hskip. unfold parts in Hskip.
  rewrite app_comm_cons in Hskip.
  apply elem_of_app in Hskip as [Hskip| ->%list_elem_of_singleton].
  - apply not_true_iff_false in Hkept. apply Hkept.
    apply existsb_exists. exists skip. split; [done|]. by apply bool_decide_eq_true.
  - apply Hname. by apply list_elem_of_In.
Qed.

Lemma suffix_below (name : string) : Fs.suffix (repo_path ++ [name]) = Fs.suffix [name].
Proof. unfold Fs.suffix, Fs.name. by rewrite last_last. Qed.

(** At a root none of whose parts is dot-prefixed or ignored, with a
    parser that reads [main.py] as its two import statements and a
    [lower] that leaves the text of [requirements.txt] as it is, the scenario
    gives the framework, the entry points and the dependency map of the
    specification. *)
Lemma scenario_at_clean_root :
  detect_framework fs repo_path = "FastAPI"
  ∧ find_entry_points fs repo_path = ["main.py"]
  ∧ (analyze_file_structure fs repo_path).2 = [("main.py", ["os"; "foo"])].
Proof using All.
  split; [|split].
  - unfold detect_framework, detected_frameworks, sample_src, scan_requirements,
      Fs.exists_, Fs.read, append_if.
    rewrite !resolve_below.
    pose proof Hlower as Hl. vm_compute in Hl. vm_compute. rewrite Hl.
    vm_compute. reflexivity.
  - unfold find_entry_points. rewrite root_entries_loop_spec, !exists_below.
    unfold root_catalog.
    rewrite (list_filter_iff _
               (fun e => Fs.exists_ (Dir Reference.scenario_entries) [e] = true))
      by (intros e; by rewrite exists_below).
    vm_compute. reflexivity.
  - unfold analyze_file_structure, Fs.rglob. rewrite Hcheckout.
    cbn [Fs.rglob_node Reference.scenario_entries map flat_map fst snd app foldl].
    unfold walk_step, Fs.is_file, Fs.stat_size, Fs.name.
    rewrite !resolve_below, !last_last, !suffix_below, !relative_to_app.
    rewrite !hidden_check_below by reflexivity.
    rewrite !skip_check_below
      by (intros Hin; repeat (apply elem_of_cons in Hin as [Hin|Hin]; [done|]);
          by apply elem_of_nil in Hin).
    assert (Himports : parse_imports_python fs (repo_path ++ ["main.py"]) = ["os"; "foo"]).
    { rewrite (parse_imports_python_parsed _ _ Reference.main_py_text Reference.main_py_tree);
        [by vm_compute| |done].
      unfold Fs.read. by rewrite resolve_below. }
    assert (extract_imports fs (repo_path ++ ["main.py"]) (Fs.suffix ["main.py"])
            = ["os"; "foo"]) as ->.
    { rewrite <- Himports. by vm_compute. }
    assert (extract_imports fs (repo_path ++ ["requirements.txt"])
              (Fs.suffix ["requirements.txt"]) = []) as -> by (by vm_compute).
    reflexivity.
Qed.

End ScenarioAtCleanRoot.

(** Checked out below [/tmp/tmpk3v9x2ab], the scenario gives what the
    specification says. *)
Example scenario_at_tmp_root :
  detect_framework (rt := Reference.runtime) Reference.scenario Reference.tmp_root
  = "FastAPI"
  ∧ find_entry_points (rt := Reference.runtime) Reference.scenario Reference.tmp_root
    = ["main.py"]
  ∧ (analyze_file_structure (rt := Reference.runtime)
       Reference.scenario Reference.tmp_root).2
    = [("main.py", ["os"; "foo"])].
Proof. vm_compute. done. Qed.

(** C1, where the code departs from it. The same checkout below
    [/srv/build/ws]: the framework and the entry points are as the
    specification says, but the walker skips every file because the
    root's own part [build] is in the ignored set, so the dependency map is
    empty and has no entry for [main.py]. *)
Theorem scenario_below_build_directory :
  detect_framework (rt := Reference.runtime)
    Reference.scenario_under_build Reference.build_root
  = "FastAPI"
  ∧ find_entry_points (rt := Reference.runtime)
      Reference.scenario_under_build Reference.build_root
    = ["main.py"]
  ∧ analyze_file_structure (rt := Reference.runtime)
      Reference.scenario_under_build Reference.build_root
    = ([], [])
  ∧ Dict.get "main.py"
      (analyze_file_structure (rt := Reference.runtime)
         Reference.scenario_under_build Reference.build_root).2
    = None.
Proof.
  split; [vm_compute; reflexivity|]. split; [vm_compute; reflexivity|].
  assert (Hskip := walker_skips_below_ignored_root (rt := Reference.runtime)
                     Reference.scenario_under_build Reference.build_root).
  rewrite Hskip by (right; vm_compute; reflexivity). done.
Qed.

(** * Further properties: proofs *)

(** ** The tree walker: what is recorded *)

Section WalkerCharacterisation.

Context `{rt : Runtime}.

Lemma walk_step_kept fs repo_path files deps p :
  kept fs p = true ->
  walk_step fs repo_path (files, deps) p
  = (files ++ [file_record fs repo_path (length files) p],
     if Py.truthy (extract_imports fs p (Fs.suffix p))
     then Dict.set (Fs.render (Fs.relative_to repo_path p))
            (extract_imports fs p (Fs.suffix p)) deps
     else deps).
Proof.
  unfold kept, walk_step.
  intros [[-> ->%negb_true_iff]%andb_true_iff ->%negb_true_iff]%andb_true_iff.
  reflexivity.
Qed.

Lemma walk_step_dropped fs repo_path st p :
  kept fs p = false -> walk_step fs repo_path st p = st.
Proof.
  unfold kept, walk_step. destruct st as [files deps].
  destruct (Fs.is_file fs p); [|done].
  destruct (existsb (Str.startswith ".") (parts p)); [done|].
  destruct (existsb _ skip_dirs); [done|]. done.
Qed.

(** The file list after the loop has gone through [ps] from [files]. *)
Lemma walk_loop_files fs repo_path (ps : list Path) files deps :
  (foldl (walk_step fs repo_path) (files, deps) ps).1
  = files ++ imap (fun i => file_record fs repo_path (length files + i))
               (filter (fun p => kept fs p = true) ps).
Proof.
  revert files deps. induction ps as [|p ps IH]; intros files deps.
  - simpl. by rewrite app_nil_r.
  - change (foldl (walk_step fs repo_path) (files, deps) (p :: ps))
      with (foldl (walk_step fs repo_path) (walk_step fs repo_path (files, deps) p) ps).
    rewrite filter_cons. destruct (kept fs p) eqn:Ek.
    + rewrite walk_step_kept by done. rewrite IH. rewrite decide_True by done.
      rewrite imap_cons, <- app_assoc. simpl. rewrite Nat.add_0_r. do 2 f_equal.
      apply imap_ext. intros i q _. simpl. rewrite length_app. simpl.
      f_equal. lia.
    + rewrite walk_step_dropped by done. rewrite decide_False by done. apply IH.
Qed.

Lemma rglob_below_nonempty (fs : node) (repo_path p : Path) :
  p ∈ Fs.rglob fs repo_path -> ∃ rel, rel ≠ [] ∧ p = repo_path ++ rel.
Proof.
  unfold Fs.rglob. destruct (Fs.resolve fs repo_path) as [n|]; [|by intros ?%elem_of_nil].
  rewrite rglob_node_rel. intros (rel & -> & Hrel)%list_elem_of_fmap.
  exists rel. split; [by eapply rel_paths_nonempty|done].
Qed.

Lemma kept_visible fs (repo_path rel : Path) :
  kept fs (repo_path ++ rel) = true -> Forall visible_part rel.
Proof.
  unfold kept, parts.
  intros [[_ Hdot%negb_true_iff]%andb_true_iff Hskip%negb_true_iff]%andb_true_iff.
  apply Forall_forall. intros part Hpart. split.
  - destruct (Str.startswith "." part) eqn:E; [|done].
    assert (existsb (Str.startswith ".") ("/" :: repo_path ++ rel) = true) as Ht; [|congruence].
    apply existsb_exists. exists part. split; [|done].
    apply list_elem_of_In. right. apply elem_of_app. by right.
  - intros Hin.
    assert (existsb (fun skip => bool_decide (skip ∈ "/" :: repo_path ++ rel)) skip_dirs
            = true) as Ht; [|congruence].
    apply existsb_exists. exists part. split; [by apply list_elem_of_In|].
    apply bool_decide_eq_true. right. apply elem_of_app. by right.
Qed.

(** X1. The file list holds one record per path of the traversal that is
    a regular file and passes both exclusion tests, in traversal order; the
    [i]-th record carries the [i]-th identifier drawn, the file's name, its
    path relative to the root, its extension (or [file]), its imports and
    its size (0 when [stat] fails). *)
Theorem file_structure_lists_kept_files (fs : node) (repo_path : Path) :
  (analyze_file_structure fs repo_path).1
  = imap (file_record fs repo_path)
      (filter (fun p => kept fs p = true) (Fs.rglob fs repo_path)).
Proof.
  unfold analyze_file_structure. rewrite walk_loop_files. simpl.
  apply imap_ext. intros i p _. done.
Qed.

(** X2. Exclusion policy: every record is that of a regular file below
    the root, and no part of its relative path is dot-prefixed or one of
    [node_modules], [venv], [__pycache__], [dist], [build]. *)
Theorem file_structure_excludes_hidden_and_ignored (fs : node) (repo_path : Path) :
  Forall (fun fn =>
            ∃ rel, rel ≠ []
                   ∧ FileNode.path fn = Fs.render rel
                   ∧ FileNode.name fn = List.last rel ""
                   ∧ Fs.is_file fs (repo_path ++ rel) = true
                   ∧ Forall visible_part rel)
         (analyze_file_structure fs repo_path).1.
Proof.
  apply Forall_forall. intros fn Hfn.
  unfold analyze_file_structure in Hfn. rewrite walk_loop_files in Hfn. simpl in Hfn.
  apply elem_of_lookup_imap in Hfn as (i & p & -> & Hp).
  apply list_elem_of_lookup_2, list_elem_of_filter in Hp as [Hkept Hp].
  apply rglob_below_nonempty in Hp as (rel & Hrel & ->).
  exists rel. split; [done|]. simpl. rewrite relative_to_app. split; [done|].
  split.
  { unfold Fs.name. destruct rel as [|x rel] using rev_ind; [done|].
    by rewrite app_assoc, !last_last. }
  split; [|by eapply kept_visible].
  unfold kept in Hkept. by apply andb_true_iff in Hkept as [[? _]%andb_true_iff _].
Qed.

End WalkerCharacterisation.

(** ** The tree walker: paths and the order of the dependency map *)

Section WalkerOrder.

Context `{rt : Runtime}.

Lemma dict_keys_set_fresh {V} (k : string) (v : V) (d : Dict.t V) :
  k ∉ Dict.keys d -> Dict.keys (Dict.set k v d) = Dict.keys d ++ [k].
Proof.
  unfold Dict.keys. induction d as [|[k0 v0] d IH]; simpl; [done|].
  intros Hk. apply not_elem_of_cons in Hk as [Hne Hk].
  destruct (String.eqb k0 k) eqn:E.
  - apply String.eqb_eq in E. congruence.
  - simpl. by rewrite IH.
Qed.

Lemma with_imports_snoc (files : list FileNode.t) (fn : FileNode.t) :
  with_imports (files ++ [fn])
  = with_imports files ++ (if Py.truthy (FileNode.imports fn) then [fn] else []).
Proof.
  unfold with_imports. rewrite filter_app, filter_cons, filter_nil.
  destruct (Py.truthy (FileNode.imports fn)); by case_decide.
Qed.

Lemma with_imports_NoDup (files : list FileNode.t) :
  NoDup (map FileNode.path files) -> NoDup (map FileNode.path (with_imports files)).
Proof.
  unfold with_imports. induction files as [|fn files IH]; [done|].
  simpl. intros [Hfn Hnd]%NoDup_cons.
  rewrite filter_cons. case_decide; [|by apply IH].
  simpl. apply NoDup_cons. split; [|by apply IH].
  intros (fn' & Hpath & Hin%list_elem_of_filter)%list_elem_of_fmap.
  apply Hfn. apply list_elem_of_fmap. exists fn'. by destruct Hin.
Qed.

Lemma walk_loop_keys fs repo_path (ps done_ps : list Path) st :
  NoDup (map (fun q => Fs.render (Fs.relative_to repo_path q)) (done_ps ++ ps)) ->
  walk_invariant repo_path done_ps st ->
  Dict.keys st.2 = map FileNode.path (with_imports st.1) ->
  Dict.keys (foldl (walk_step fs repo_path) st ps).2
  = map FileNode.path (with_imports (foldl (walk_step fs repo_path) st ps).1).
Proof.
  revert done_ps st. induction ps as [|p ps IH]; intros done_ps st Hnd Hinv Hkeys; [done|].
  replace (done_ps ++ p :: ps) with ((done_ps ++ [p]) ++ ps) in Hnd
    by (by rewrite <- app_assoc).
  change (foldl (walk_step fs repo_path) st (p :: ps))
    with (foldl (walk_step fs repo_path) (walk_step fs repo_path st p) ps).
  assert (Hnd' : NoDup (map (fun q => Fs.render (Fs.relative_to repo_path q))
                          (done_ps ++ [p]))).
  { rewrite map_app in Hnd. by apply NoDup_app in Hnd as (? & _ & _). }
  apply (IH (done_ps ++ [p])); [done|by apply walk_invariant_step|].
  destruct st as [files deps]. destruct (kept fs p) eqn:Ek.
  - rewrite walk_step_kept by done. simpl in Hkeys |- *.
    rewrite with_imports_snoc. simpl.
    destruct (Py.truthy (extract_imports fs p (Fs.suffix p))); simpl.
    + rewrite map_app, <- Hkeys. simpl. apply dict_keys_set_fresh.
      intros Hin. apply (inv_keys _ _ _ Hinv) in Hin as (fn & Hfn & Hpath & _).
      simpl in Hfn.
      destruct (inv_paths _ _ _ Hinv fn Hfn) as (q & Hq & Hfnq).
      rewrite map_app in Hnd'. apply NoDup_app in Hnd' as (_ & Hdisj & _).
      apply (Hdisj (Fs.render (Fs.relative_to repo_path p))).
      * apply list_elem_of_fmap. exists q. split; [congruence|done].
      * left.
    + by rewrite app_nil_r.
  - by rewrite walk_step_dropped.
Qed.

(** X3. In a well-formed file system the paths of the file records are
    pairwise distinct, and the dependency map lists exactly the files with
    imports, in the order of the file list (so its first keys are the
    first such files). *)
Theorem file_paths_distinct_and_keys_in_file_order (fs : node) (repo_path : Path) :
  well_formed fs = true ->
  NoDup (map FileNode.path (analyze_file_structure fs repo_path).1)
  ∧ Dict.keys (analyze_file_structure fs repo_path).2
    = map FileNode.path (with_imports (analyze_file_structure fs repo_path).1)
  ∧ NoDup (Dict.keys (analyze_file_structure fs repo_path).2).
Proof.
  intros Hwf.
  pose proof (analyze_file_structure_invariant fs repo_path Hwf) as Hinv.
  assert (Hkeys : Dict.keys (analyze_file_structure fs repo_path).2
                  = map FileNode.path (with_imports (analyze_file_structure fs repo_path).1)).
  { unfold analyze_file_structure.
    apply (walk_loop_keys fs repo_path (Fs.rglob fs repo_path) []);
      [by apply rglob_rendered_NoDup|apply walk_invariant_init|done]. }
  split; [exact (inv_unique _ _ _ Hinv)|]. split; [exact Hkeys|].
  rewrite Hkeys. apply with_imports_NoDup. exact (inv_unique _ _ _ Hinv).
Qed.

End WalkerOrder.

Lemma file_paths_distinct_witness :
  Dict.keys (analyze_file_structure (rt := Reference.runtime)
               Reference.mixed_project Reference.tmp_root).2
  = ["main.py"; "src/index.js"].
Proof.
  destruct (file_paths_distinct_and_keys_in_file_order (rt := Reference.runtime)
              Reference.mixed_project Reference.tmp_root) as (_ & Hkeys & _);
    [vm_compute; reflexivity|].
  rewrite Hkeys. vm_compute. reflexivity.
Defined.

(** ** Framework labels *)

Section Labels.

Context `{rt : Runtime}.


Lemma sample_loop_cases fs (files : list Path) (frameworks : list string) :
  sample_loop fs files frameworks = frameworks
  ∨ sample_loop fs files frameworks = frameworks ++ ["React"].
Proof.
  induction files as [|f files IH]; simpl; [by left|].
  destruct (Fs.read_prefix 100 fs f); [|done].
  destruct (_ || _); [by right|done].
Qed.

Lemma sample_src_cases fs repo_path :
  sample_src fs repo_path [] = [] ∨ sample_src fs repo_path [] = ["React"].
Proof.
  unfold sample_src. simpl. destruct (Fs.exists_ fs (repo_path ++ ["src"])); [|by left].
  apply (sample_loop_cases fs _ []).
Qed.

Lemma deps_labels_sublist (deps : gmap string json) :
  deps_labels deps `sublist_of` ["Next.js"; "React"; "Vue"; "Angular"; "Svelte"].
Proof.
  unfold deps_labels.
  change ["Next.js"; "React"; "Vue"; "Angular"; "Svelte"]
    with (["Next.js"; "React"] ++ ["Vue"] ++ ["Angular"] ++ ["Svelte"]).
  repeat apply sublist_app.
  - destruct (Py.has "next" deps); [by apply sublist_skip, sublist_nil_l|].
    destruct (_ || _); [by apply sublist_cons|apply sublist_nil_l].
  - destruct (Py.has "vue" deps); [done|apply sublist_nil_l].
  - destruct (_ || _); [done|apply sublist_nil_l].
  - destruct (Py.has "svelte" deps); [done|apply sublist_nil_l].
Qed.

Lemma sampled_sublist fs repo_path :
  sample_src fs repo_path (package_json_signal fs repo_path)
  `sublist_of` ["Next.js"; "React"; "Vue"; "Angular"; "Svelte"].
Proof.
  destruct (package_json_signal fs repo_path) as [|x l] eqn:E.
  - destruct (sample_src_cases fs repo_path) as [-> | ->]; [apply sublist_nil_l|].
    by apply sublist_cons, sublist_skip, sublist_nil_l.
  - rewrite sample_src_skipped by done. rewrite <- E. unfold package_json_signal.
    destruct (package_json_deps _ _); [apply deps_labels_sublist|apply sublist_nil_l].
Qed.

Lemma detected_frameworks_sublist fs repo_path :
  detected_frameworks fs repo_path `sublist_of` known_labels.
Proof.
  rewrite detected_frameworks_passes.
  change known_labels
    with (["Next.js"; "React"; "Vue"; "Angular"; "Svelte"]
          ++ (["Django"] ++ ["Flask"] ++ ["FastAPI"])
          ++ (["Go"] ++ ["Java/Maven"] ++ ["Java/Gradle"])).
  apply sublist_app; [apply sampled_sublist|]. apply sublist_app.
  - unfold requirements_signal, requirements_labels.
    destruct (Fs.read _ _); [|apply sublist_nil_l].
    repeat apply sublist_app;
      match goal with |- (if ?b then _ else _) `sublist_of` _ =>
                        destruct b; [done|apply sublist_nil_l] end.
  - unfold marker_signal.
    repeat apply sublist_app;
      match goal with |- (if ?b then _ else _) `sublist_of` _ =>
                        destruct b; [done|apply sublist_nil_l] end.
Qed.

Lemma join_known_label (x : string) (l : list string) :
  x ∈ known_labels ->
  Str.join ", " (x :: l) ≠ "Unknown" ∧ Str.join ", " (x :: l) ≠ "".
Proof.
  unfold known_labels. intros Hx. unfold Str.join.
  repeat (apply elem_of_cons in Hx as [->|Hx];
          [destruct l; simpl; split; discriminate|]).
  by apply elem_of_nil in Hx.
Qed.

(** X5. The labels come out in a fixed order, each at most once: the list
    of frameworks is a sub-sequence of Next.js, React, Vue, Angular,
    Svelte, Django, Flask, FastAPI, Go, Java/Maven, Java/Gradle.  The label
    is [Unknown] exactly when that list is empty, and it is never the empty
    string. *)
Theorem framework_labels_ordered_and_never_empty (fs : node) (repo_path : Path) :
  detected_frameworks fs repo_path `sublist_of` known_labels
  ∧ NoDup (detected_frameworks fs repo_path)
  ∧ (detect_framework fs repo_path = "Unknown" <-> detected_frameworks fs repo_path = [])
  ∧ detect_framework fs repo_path ≠ "".
Proof.
  pose proof (detected_frameworks_sublist fs repo_path) as Hsub.
  split; [done|]. split.
  { eapply sublist_NoDup; [|exact Hsub]. by apply (bool_decide_unpack _). }
  unfold detect_framework.
  destruct (detected_frameworks fs repo_path) as [|x l] eqn:E; simpl; [done|].
  assert (Hx : x ∈ known_labels).
  { eapply sublist_subseteq; [exact Hsub|]. left. }
  destruct (join_known_label x l Hx) as [Hunknown Hempty].
  split; [|done]. split; [done|discriminate].
Qed.


End Labels.


(** The sampling pass counts characters, not bytes, and reads no further
    than it has to. *)
Example sampling_counts_characters :
  detect_framework (rt := Reference.runtime)
    ReferenceSampling.accented_project Reference.tmp_root = "React".
Proof. vm_compute. reflexivity. Qed.

Example sampling_reads_the_leading_characters_only :
  detect_framework (rt := Reference.runtime)
    ReferenceSampling.half_decodable_project Reference.tmp_root = "React".
Proof. vm_compute. reflexivity. Qed.

(** ** Manifests that give no signal, and empty checkouts *)

Section Manifests.

Context `{rt : Runtime}.

Lemma filter_none {A} (P : A -> Prop) `{forall x, Decision (P x)} (l : list A) :
  (forall x, x ∈ l -> ¬ P x) -> filter P l = [].
Proof.
  induction l as [|x l IH]; intros Hall; [done|].
  rewrite filter_cons. rewrite decide_False by (apply Hall; left).
  apply IH. intros y Hy. apply Hall. by right.
Qed.

(** The entry points, pass by pass. *)
Lemma find_entry_points_passes (fs : node) (repo_path : Path) :
  find_entry_points fs repo_path
  = root_catalog fs repo_path ++ manifest_scripts fs repo_path
    ++ nested_catalog fs repo_path.
Proof.
  unfold find_entry_points. rewrite root_entries_loop_spec. simpl.
  assert (Hscripts :
    (if Fs.exists_ fs (repo_path ++ ["package.json"])
     then try_pass (scan_scripts fs (repo_path ++ ["package.json"])) (root_catalog fs repo_path)
     else root_catalog fs repo_path)
    = root_catalog fs repo_path ++ manifest_scripts fs repo_path).
  { destruct (Fs.exists_ fs (repo_path ++ ["package.json"])) eqn:E.
    - apply scan_scripts_run.
    - unfold manifest_scripts, scripts_object, json_load.
      rewrite (not_exists_read _ _ E). simpl. by rewrite app_nil_r. }
  rewrite Hscripts.
  assert (Hbare : forall e, e ∈ common_entries ->
             e ∈ root_catalog fs repo_path ++ manifest_scripts fs repo_path
             <-> Fs.exists_ fs (repo_path ++ [e]) = true).
  { intros e He. rewrite elem_of_app. unfold root_catalog.
    rewrite list_elem_of_filter. split.
    - intros [[? _]|Hs]; [done|].
      apply manifest_scripts_prefixed in Hs.
      apply common_entries_bare in He as [He _]. congruence.
    - intros Hex. by left. }
  destruct (Fs.exists_ fs (repo_path ++ ["src"])) eqn:Esrc.
  - unfold src_entries_loop.
    rewrite (src_entries_loop_gen fs repo_path);
      [|intros e He; by apply common_entries_bare|exact Hbare].
    rewrite <- app_assoc. do 2 f_equal. unfold nested_catalog. f_equal.
    apply list_filter_iff. intros e. by rewrite <- app_assoc.
  - rewrite <- (app_nil_r (_ ++ _)), <- app_assoc. do 2 f_equal.
    unfold nested_catalog. rewrite filter_none; [done|].
    intros e _ [Hex _].
    change (repo_path ++ ["src"; e]) with (repo_path ++ (["src"] ++ [e])) in Hex.
    rewrite app_assoc in Hex. apply exists_parent in Hex. congruence.
Qed.

Lemma no_object_no_signal (fs : node) (repo_path : Path) :
  manifest_object fs repo_path = None ->
  package_json_signal fs repo_path = [] ∧ manifest_scripts fs repo_path = [].
Proof.
  unfold manifest_object, package_json_signal, package_json_deps, manifest_scripts,
    scripts_object, Py.get.
  destruct (json_load fs (repo_path ++ ["package.json"])) as [data|]; simpl; [|done].
  by intros ->.
Qed.

(** X7. A [package.json] that is missing, unreadable, not JSON, or JSON
    that is no object is no signal and no error: the frameworks are what
    sampling, [requirements.txt] and the marker files yield, and the entry
    points are the catalog names at the root followed by those under
    [src/], with no script entry. *)
Theorem malformed_manifest_is_no_signal (fs : node) (repo_path : Path) :
  manifest_object fs repo_path = None ->
  detected_frameworks fs repo_path
  = sample_src fs repo_path [] ++ requirements_signal fs repo_path
    ++ marker_signal fs repo_path
  ∧ find_entry_points fs repo_path
    = root_catalog fs repo_path ++ nested_catalog fs repo_path.
Proof.
  intros Hnone. destruct (no_object_no_signal fs repo_path Hnone) as [Hpkg Hscripts].
  split.
  - by rewrite detected_frameworks_passes, Hpkg.
  - by rewrite find_entry_points_passes, Hscripts.
Qed.

Lemma nothing_below_empty (fs : node) (repo_path q : Path) :
  Fs.resolve fs repo_path = Some (Dir []) -> q ≠ [] ->
  Fs.resolve fs (repo_path ++ q) = None.
Proof.
  intros Hroot Hq. rewrite resolve_app, Hroot. simpl. by destruct q.
Qed.

(** X8. An empty checkout gives the label [Unknown], no entry point, no
    file record and an empty dependency map. *)
Theorem empty_checkout_profile (fs : node) (repo_path : Path) :
  Fs.resolve fs repo_path = Some (Dir []) ->
  detect_framework fs repo_path = "Unknown"
  ∧ find_entry_points fs repo_path = []
  ∧ analyze_file_structure fs repo_path = ([], []).
Proof.
  intros Hroot.
  assert (Hex : forall q, q ≠ [] -> Fs.exists_ fs (repo_path ++ q) = false).
  { intros q Hq. unfold Fs.exists_. by rewrite nothing_below_empty. }
  assert (Hread : forall q, q ≠ [] -> Fs.read fs (repo_path ++ q) = None).
  { intros q Hq. unfold Fs.read. by rewrite nothing_below_empty. }
  split; [|split].
  - unfold detect_framework. rewrite detected_frameworks_passes.
    unfold package_json_signal, package_json_deps, json_load, requirements_signal,
      marker_signal, sample_src.
    rewrite !Hread, !Hex by done. reflexivity.
  - rewrite find_entry_points_passes.
    unfold root_catalog, manifest_scripts, scripts_object, json_load, nested_catalog.
    rewrite Hread by done. simpl.
    rewrite !filter_none; [done| |].
    + intros e _ [He _]. by rewrite Hex in He.
    + intros e _ He. by rewrite Hex in He.
  - unfold analyze_file_structure, Fs.rglob. by rewrite Hroot.
Qed.

End Manifests.

Lemma malformed_manifest_witness :
  detect_framework (rt := Reference.runtime)
    ReferenceManifests.broken_manifest_project Reference.tmp_root = "Flask"
  ∧ find_entry_points (rt := Reference.runtime)
      ReferenceManifests.broken_manifest_project Reference.tmp_root
    = ["app.py"; "src/index.js"].
Proof.
  destruct (malformed_manifest_is_no_signal (rt := Reference.runtime)
              ReferenceManifests.broken_manifest_project Reference.tmp_root)
    as [Hlabels Hentries]; [vm_compute; reflexivity|].
  split.
  - unfold detect_framework. rewrite Hlabels. vm_compute. reflexivity.
  - rewrite Hentries. vm_compute. reflexivity.
Defined.

Lemma empty_checkout_witness :
  detect_framework (rt := Reference.runtime)
    ReferenceManifests.empty_project Reference.tmp_root = "Unknown".
Proof.
  apply (empty_checkout_profile (rt := Reference.runtime)
           ReferenceManifests.empty_project Reference.tmp_root).
  reflexivity.
Defined.

(** ** Entry points: no duplicates, bounded length *)

Section EntryPointBounds.

Context `{rt : Runtime}.

Lemma filter_exclusive_length {A} (P Q : A -> Prop)
    `{forall x, Decision (P x)} `{forall x, Decision (Q x)} (l : list A) :
  (forall x, P x -> Q x -> False) ->
  length (filter P l) + length (filter Q l) <= length l.
Proof.
  intros Hexcl. induction l as [|x l IH]; [done|].
  rewrite !filter_cons. destruct (decide (P x)), (decide (Q x)); simpl; try lia.
  exfalso. eauto.
Qed.

Lemma manifest_scripts_NoDup fs repo_path :
  NoDup (manifest_scripts fs repo_path) ∧ length (manifest_scripts fs repo_path) <= 2.
Proof.
  unfold manifest_scripts. destruct (scripts_object fs repo_path) as [d|];
    [|split; [constructor|simpl; lia]].
  destruct (d !! "start"), (d !! "dev"); simpl; (split; [|lia]);
    repeat constructor; try by intros ?%elem_of_nil.
  intros [E|?%elem_of_nil]%elem_of_cons; [|done]. simpl in E. discriminate.
Qed.

Lemma nested_catalog_prefixed fs repo_path x :
  x ∈ nested_catalog fs repo_path ->
  Str.startswith "src/" x = true ∧ Str.startswith "npm " x = false.
Proof.
  unfold nested_catalog. intros (e & -> & _)%list_elem_of_fmap. by split.
Qed.

(** X9. No entry point is listed twice, and there are at most sixteen:
    each of the fourteen catalog names gives at most one entry (at the
    root or under [src/]) and the manifest gives at most two scripts. *)
Theorem entry_points_distinct_and_bounded (fs : node) (repo_path : Path) :
  NoDup (find_entry_points fs repo_path)
  ∧ length (find_entry_points fs repo_path) <= 16.
Proof.
  rewrite find_entry_points_passes.
  destruct (manifest_scripts_NoDup fs repo_path) as [Hscripts Hlen].
  assert (Hcat : NoDup common_entries) by (by apply (bool_decide_unpack _)).
  split.
  - apply NoDup_app. split; [by apply NoDup_filter|]. split.
    + intros x [Hx Hin]%list_elem_of_filter.
      apply common_entries_bare in Hin as [Hnpm Hsrc].
      intros [Hs|Hn]%elem_of_app.
      * apply manifest_scripts_prefixed in Hs. congruence.
      * apply nested_catalog_prefixed in Hn as [Hn _]. congruence.
    + apply NoDup_app. split; [done|]. split.
      * intros x Hs Hn. apply manifest_scripts_prefixed in Hs.
        apply nested_catalog_prefixed in Hn as [_ Hn]. congruence.
      * unfold nested_catalog. apply NoDup_fmap; [|by apply NoDup_filter].
        intros a b Heq. cbn in Heq. by simplify_eq.
  - rewrite !length_app. unfold root_catalog, nested_catalog. rewrite length_map.
    pose proof (filter_exclusive_length
                  (fun e => Fs.exists_ fs (repo_path ++ [e]) = true)
                  (fun e => Fs.exists_ fs (repo_path ++ ["src"; e]) = true
                            ∧ Fs.exists_ fs (repo_path ++ [e]) = false)
                  common_entries) as Hsum.
    assert (length common_entries = 14) as Hc by reflexivity.
    rewrite Hc in Hsum. 
    assert (Hexcl : forall x : string,
               Fs.exists_ fs (repo_path ++ [x]) = true ->
               Fs.exists_ fs (repo_path ++ ["src"; x]) = true
               ∧ Fs.exists_ fs (repo_path ++ [x]) = false -> False)
      by (intros x ? [_ ?]; congruence).
    specialize (Hsum Hexcl). lia.
Qed.

End EntryPointBounds.

(** ** Python imports: module-level statements first *)

Section ImportOrder.

Context `{rt : Runtime}.

Lemma forest_size_length (todo : list ast) : length todo <= forest_size todo.
Proof.
  unfold forest_size. induction todo as [|n todo IH]; simpl; [done|].
  pose proof (ast_size_children n). lia.
Qed.

(** The queue loop yields the queued nodes first, in queue order, and
    their children after them. *)
Lemma walk_loop_level (a b : list ast) (fuel : nat) :
  length a <= fuel ->
  walk_loop fuel (a ++ b)
  = a ++ walk_loop (fuel - length a) (b ++ flat_map iter_child_nodes a).
Proof.
  revert fuel b. induction a as [|x a IH]; intros fuel b Hfuel; simpl.
  - by rewrite Nat.sub_0_r, app_nil_r.
  - destruct fuel as [|fuel]; [simpl in Hfuel; lia|]. simpl in Hfuel |- *.
    rewrite <- app_assoc, IH by lia. by rewrite <- app_assoc.
Qed.

Lemma walk_module (stmts : list ast) :
  walk (Other stmts)
  = Other stmts :: stmts
    ++ walk_loop (forest_size stmts - length stmts) (flat_map iter_child_nodes stmts).
Proof.
  unfold walk. change (ast_size (Other stmts)) with (S (forest_size stmts)).
  pose proof (walk_loop_level stmts [] (forest_size stmts) (forest_size_length stmts))
    as Hlevel.
  rewrite app_nil_r in Hlevel. simpl in Hlevel |- *. by rewrite Hlevel.
Qed.

(** X10. For a file that parses to a module, the names of the
    module-level import statements come first, in source order; names
    imported by statements nested deeper (inside functions, classes,
    conditionals) follow them. *)
Theorem module_level_imports_come_first
    (fs : node) (file_path : Path) (text : string) (stmts : list ast) :
  Fs.read fs file_path = Some text ->
  ast_parse text = Some (Other stmts) ->
  ∃ nested,
    parse_imports_python fs file_path = flat_map recorded_names stmts ++ nested
    ∧ Forall (fun x => ∃ s c n, s ∈ stmts ∧ c ∈ iter_child_nodes s
                                ∧ node_of c n ∧ imports_name n x) nested.
Proof.
  intros Hread Hparse.
  rewrite (parse_imports_python_parsed _ _ _ _ Hread Hparse), walk_module.
  simpl. rewrite flat_map_app. eexists. split; [done|].
  apply Forall_forall. intros x Hx.
  apply list_elem_of_In, in_flat_map in Hx as (n & Hn & Hx).
  apply list_elem_of_In, walk_loop_sound in Hn as (c & Hc & Hcn).
  apply list_elem_of_In, in_flat_map in Hc as (s & Hs & Hc).
  exists s, c, n. split; [by apply list_elem_of_In|]. split; [by apply list_elem_of_In|].
  split; [done|]. by apply recorded_names_spec, list_elem_of_In.
Qed.

End ImportOrder.

Lemma module_level_imports_witness :
  ∃ nested,
    parse_imports_python (rt := Reference.runtime)
      Reference.scenario (Reference.tmp_root ++ ["main.py"])
    = ["os"; "foo"] ++ nested.
Proof.
  destruct (module_level_imports_come_first (rt := Reference.runtime)
              Reference.scenario (Reference.tmp_root ++ ["main.py"])
              Reference.main_py_text
              [ Import [Alias "os" None];
                ImportFrom (Some "foo") [Alias "bar" None] 0 ] eq_refl eq_refl)
    as (nested & Heq & _).
  exists nested. exact Heq.
Defined.

(** ** The repository name *)

Section RepoName.

Lemma str_length_app (s t : string) :
  String.length (s +:+ t) = String.length s + String.length t.
Proof. induction s as [|a s IH]; simpl; [done|]. by rewrite IH. Qed.

Lemma substring_all (s : string) : String.substring 0 (String.length s) s = s.
Proof. induction s as [|a s IH]; simpl; [done|]. by rewrite IH. Qed.

Lemma slash_free_cons_intro (a : ascii) (s : string) :
  a ≠ "/"%char -> slash_free s -> slash_free (String a s).
Proof.
  unfold slash_free. intros Ha Hs.
  change (Str.contains "/" (String a s))
    with ((Ascii.eqb "/" a && true) || Str.contains "/" s).
  destruct (Ascii.eqb_spec "/" a) as [<-|_]; [done|]. done.
Qed.

Lemma slash_free_rfind (s : string) : slash_free s <-> Str.rfind "/" s = None.
Proof.
  unfold slash_free. induction s as [|a s IH]; [done|].
  change (Str.contains "/" (String a s))
    with ((Ascii.eqb "/" a && true) || Str.contains "/" s).
  change (Str.rfind "/" (String a s))
    with (match Str.rfind "/" s with
          | Some i => Some (S i)
          | None => if Ascii.eqb a "/" then Some 0 else None
          end).
  rewrite (Ascii.eqb_sym "/" a).
  destruct (Ascii.eqb a "/"), (Str.rfind "/" s); simpl; try done.
  split; [|done]. intros H. apply IH in H. done.
Qed.

Lemma rfind_cons (c a : ascii) (s : string) :
  Str.rfind c (String a s)
  = match Str.rfind c s with
    | Some i => Some (S i)
    | None => if Ascii.eqb a c then Some 0 else None
    end.
Proof. reflexivity. Qed.

Lemma rfind_last (s t : string) :
  Str.rfind "/" t = None -> Str.rfind "/" (s +:+ "/" +:+ t) = Some (String.length s).
Proof.
  intros Ht. induction s as [|a s IH].
  - change ("" +:+ "/" +:+ t) with (String "/" t). by rewrite rfind_cons, Ht.
  - change (String a s +:+ "/" +:+ t) with (String a (s +:+ "/" +:+ t)).
    by rewrite rfind_cons, IH.
Qed.

Lemma rfind_split (s : string) (i : nat) :
  Str.rfind "/" s = Some i ->
  ∃ s1 t, s = s1 +:+ "/" +:+ t ∧ Str.rfind "/" t = None ∧ String.length s1 = i.
Proof.
  revert i. induction s as [|a s IH]; intros i; [done|].
  rewrite rfind_cons.
  destruct (Str.rfind "/" s) as [j|] eqn:E.
  - intros [= <-]. destruct (IH j eq_refl) as (s1 & t & -> & Ht & <-).
    exists (String a s1), t. done.
  - destruct (Ascii.eqb_spec a "/") as [->|_]; [|done].
    intros [= <-]. exists "", s. done.
Qed.

Lemma substring_after (s t : string) (c : ascii) (m : nat) :
  String.substring (S (String.length s)) m (s +:+ String c t) = String.substring 0 m t.
Proof. induction s as [|a s IH]; simpl; [by destruct t|]. apply IH. Qed.

Lemma last_segment_app (s t : string) :
  slash_free t -> Str.last_segment "/" (s +:+ "/" +:+ t) = t.
Proof.
  intros Ht%slash_free_rfind. unfold Str.last_segment. rewrite rfind_last by done.
  rewrite str_length_app.
  change ("/" +:+ t) with (String "/" t). rewrite substring_after.
  replace (String.length s + String.length (String "/" t) - S (String.length s))
    with (String.length t) by (simpl; lia).
  apply substring_all.
Qed.

Lemma last_segment_slash_free (s : string) : slash_free (Str.last_segment "/" s).
Proof.
  unfold Str.last_segment. destruct (Str.rfind "/" s) as [i|] eqn:E.
  - destruct (rfind_split s i E) as (s1 & t & -> & Ht & <-).
    pose proof (last_segment_app s1 t (proj2 (slash_free_rfind t) Ht)) as Hseg.
    unfold Str.last_segment in Hseg. rewrite E in Hseg. rewrite Hseg.
    by apply slash_free_rfind.
  - by apply slash_free_rfind.
Qed.

Lemma rstrip_slash_free (s : string) : slash_free s -> Str.rstrip "/" s = s.
Proof.
  induction s as [|a s IH]; [done|].
  intros [Ha Hs]%slash_free_cons. simpl. rewrite IH by done.
  destruct s; [|done]. destruct (Ascii.eqb_spec a "/"); done.
Qed.

Lemma rstrip_app (s t : string) :
  Str.rstrip "/" t ≠ "" -> Str.rstrip "/" (s +:+ t) = s +:+ Str.rstrip "/" t.
Proof.
  intros Ht. induction s as [|a s IH]; simpl; [done|].
  rewrite IH. destruct (s +:+ Str.rstrip "/" t) eqn:E; [|by rewrite <- E].
  destruct s; simpl in E; [by apply Ht in E|discriminate].
Qed.

Lemma rstrip_trailing (s : string) : Str.rstrip "/" (s +:+ "/") = Str.rstrip "/" s.
Proof. induction s as [|a s IH]; simpl; [done|]. by rewrite IH. Qed.

Lemma rstrip_name (s t : string) :
  slash_free t -> t ≠ "" -> Str.rstrip "/" (s +:+ "/" +:+ t) = s +:+ "/" +:+ t.
Proof.
  intros Ht Hne.
  assert (Str.rstrip "/" ("/" +:+ t) = "/" +:+ t) as Hr.
  { simpl. rewrite rstrip_slash_free by done. by destruct t. }
  rewrite rstrip_app; rewrite Hr; done.
Qed.

Lemma substring_slash_free (s : string) (n m : nat) :
  slash_free s -> slash_free (String.substring n m s).
Proof.
  revert n m. induction s as [|a s IH]; intros n m Hs.
  - by destruct n, m.
  - apply slash_free_cons in Hs as [Ha Hs].
    destruct n as [|n]; simpl.
    + destruct m as [|m]; [done|]. apply slash_free_cons_intro; [done|by apply IH].
    + by apply IH.
Qed.

Lemma remove_all_fuel_cons (fuel : nat) (old : string) (a : ascii) (s : string) :
  Str.remove_all_fuel (S fuel) old (String a s)
  = if Str.startswith old (String a s)
    then Str.remove_all_fuel fuel old
           (String.substring (String.length old)
              (String.length (String a s) - String.length old) (String a s))
    else String a (Str.remove_all_fuel fuel old s).
Proof. reflexivity. Qed.

Lemma remove_all_fuel_slash_free (fuel : nat) (s : string) :
  slash_free s -> slash_free (Str.remove_all_fuel fuel ".git" s).
Proof.
  revert s. induction fuel as [|fuel IH]; intros s Hs; [done|].
  destruct s as [|a s]; [done|]. rewrite remove_all_fuel_cons.
  destruct (Str.startswith ".git" (String a s)).
  - apply IH. by apply substring_slash_free.
  - pose proof Hs as [Ha Hs']%slash_free_cons.
    apply slash_free_cons_intro; [done|by apply IH].
Qed.

Lemma remove_all_fuel_absent (fuel : nat) (s : string) :
  Str.contains ".git" s = false -> Str.remove_all_fuel fuel ".git" s = s.
Proof.
  revert s. induction fuel as [|fuel IH]; intros s Hs; [done|].
  destruct s as [|a s]; [done|].
  change (Str.contains ".git" (String a s))
    with (Str.startswith ".git" (String a s) || Str.contains ".git" s) in Hs.
  apply orb_false_iff in Hs as [Hstart Hrest].
  rewrite remove_all_fuel_cons, Hstart. by rewrite IH.
Qed.

Lemma no_straddle (a : ascii) (s : string) :
  Str.startswith ".git" (String a s) = false ->
  Str.startswith ".git" (String a s +:+ ".git") = false.
Proof.
  destruct s as [|b [|c [|d s]]]; simpl;
    destruct (Ascii.eqb a "."); simpl; try done;
    destruct (Ascii.eqb b "g"); simpl; try done;
    destruct (Ascii.eqb c "i"); simpl; try done.
Qed.

Lemma remove_all_fuel_suffix (fuel : nat) (s : string) :
  Str.contains ".git" s = false -> String.length s < fuel ->
  Str.remove_all_fuel fuel ".git" (s +:+ ".git") = s.
Proof.
  revert fuel. induction s as [|a s IH]; intros fuel Hs Hfuel.
  - destruct fuel as [|[|fuel]]; [simpl in Hfuel; lia|done|done].
  - destruct fuel as [|fuel]; [lia|].
    change (Str.contains ".git" (String a s))
      with (Str.startswith ".git" (String a s) || Str.contains ".git" s) in Hs.
    apply orb_false_iff in Hs as [Hstart Hrest].
    change (String a s +:+ ".git") with (String a (s +:+ ".git")).
    rewrite remove_all_fuel_cons.
    change (String a (s +:+ ".git")) with (String a s +:+ ".git").
    rewrite (no_straddle a s Hstart). rewrite IH; [done..|]. simpl in Hfuel. lia.
Qed.

Lemma app_slash_free (s t : string) : slash_free s -> slash_free t -> slash_free (s +:+ t).
Proof.
  intros Hs Ht. induction s as [|a s IH]; [done|].
  apply slash_free_cons in Hs as [Ha Hs].
  change (String a s +:+ t) with (String a (s +:+ t)).
  apply slash_free_cons_intro; [done|by apply IH].
Qed.

(** X11. The repository name is the last path segment of the URL: for a
    URL that ends in [/name], where [name] is not empty and holds neither
    [/] nor [.git], the name is [name], also when the URL carries a
    trailing [.git], a trailing [/], or both. *)
Theorem repo_name_is_last_segment (base name : string) :
  slash_free name -> name ≠ "" -> Str.contains ".git" name = false ->
  derive_repo_name (base +:+ "/" +:+ name) = name
  ∧ derive_repo_name (base +:+ "/" +:+ name +:+ ".git") = name
  ∧ derive_repo_name ((base +:+ "/" +:+ name) +:+ "/") = name
  ∧ derive_repo_name ((base +:+ "/" +:+ name +:+ ".git") +:+ "/") = name.
Proof.
  intros Hfree Hne Hgit.
  assert (Hplain : derive_repo_name (base +:+ "/" +:+ name) = name).
  { unfold derive_repo_name. rewrite rstrip_name, last_segment_app by done.
    by apply remove_all_fuel_absent. }
  assert (Hsuffix : derive_repo_name (base +:+ "/" +:+ name +:+ ".git") = name).
  { unfold derive_repo_name.
    assert (slash_free (name +:+ ".git")) as Hfree' by (by apply app_slash_free).
    assert (name +:+ ".git" ≠ "") as Hne' by (by destruct name).
    rewrite rstrip_name, last_segment_app by done.
    unfold Str.remove_all. apply remove_all_fuel_suffix; [done|].
    rewrite str_length_app. simpl. lia. }
  split; [done|]. split; [done|].
  unfold derive_repo_name in *. by rewrite !rstrip_trailing.
Qed.

(** X12. Whatever the URL, the repository name holds no [/]. *)
Theorem repo_name_has_no_slash (url : string) :
  slash_free (derive_repo_name url).
Proof.
  unfold derive_repo_name, Str.remove_all.
  apply remove_all_fuel_slash_free, last_segment_slash_free.
Qed.

End RepoName.

Lemma repo_name_witness :
  derive_repo_name "https://github.com/octocat/Hello-World.git" = "Hello-World".
Proof.
  destruct (repo_name_is_last_segment "https://github.com/octocat" "Hello-World")
    as (_ & Hsuffix & _); [reflexivity|discriminate|reflexivity|].
  exact Hsuffix.
Defined.

Section RepoNameInner.

Lemma no_straddle_inner (a : ascii) (s t : string) :
  Str.startswith ".git" (String a s) = false ->
  Str.startswith ".git" (String a s +:+ ".git" +:+ t) = false.
Proof.
  destruct s as [|b [|c [|d s]]]; simpl;
    destruct (Ascii.eqb a "."); simpl; try done;
    destruct (Ascii.eqb b "g"); simpl; try done;
    destruct (Ascii.eqb c "i"); simpl; try done.
Qed.

Lemma remove_all_fuel_inner (fuel : nat) (s t : string) :
  Str.contains ".git" s = false -> Str.contains ".git" t = false ->
  String.length s < fuel ->
  Str.remove_all_fuel fuel ".git" (s +:+ ".git" +:+ t) = s +:+ t.
Proof.
  revert fuel. induction s as [|a s IH]; intros fuel Hs Ht Hfuel.
  - destruct fuel as [|fuel]; [simpl in Hfuel; lia|].
    change ("" +:+ ".git" +:+ t) with (String "." (String "g" (String "i" (String "t" t)))).
    rewrite remove_all_fuel_cons.
    change (Str.startswith ".git" (String "." (String "g" (String "i" (String "t" t)))))
      with true.
    cbv iota.
    change (String.length ".git") with 4.
    change (String.length (String "." (String "g" (String "i" (String "t" t)))) - 4)
      with (String.length t - 0).
    rewrite Nat.sub_0_r.
    change (String.substring 4 (String.length t)
              (String "." (String "g" (String "i" (String "t" t)))))
      with (String.substring 0 (String.length t) t).
    rewrite substring_all. by apply remove_all_fuel_absent.
  - destruct fuel as [|fuel]; [simpl in Hfuel; lia|].
    change (Str.contains ".git" (String a s))
      with (Str.startswith ".git" (String a s) || Str.contains ".git" s) in Hs.
    apply orb_false_iff in Hs as [Hstart Hrest].
    change (String a s +:+ ".git" +:+ t) with (String a (s +:+ ".git" +:+ t)).
    rewrite remove_all_fuel_cons.
    change (String a (s +:+ ".git" +:+ t)) with (String a s +:+ ".git" +:+ t).
    rewrite (no_straddle_inner a s t Hstart). rewrite IH; [done..|]. simpl in Hfuel. lia.
Qed.

(** X13. Every occurrence of [.git] is removed from the last segment, not
    only a trailing one: for a URL that ends in [/left.gitright], where
    neither part holds [/] or [.git], the name is [leftright]. *)
Theorem repo_name_drops_inner_git (base left right : string) :
  slash_free left -> slash_free right ->
  Str.contains ".git" left = false -> Str.contains ".git" right = false ->
  derive_repo_name (base +:+ "/" +:+ left +:+ ".git" +:+ right) = left +:+ right.
Proof.
  intros Hl Hr Hgl Hgr. unfold derive_repo_name.
  assert (slash_free (left +:+ ".git" +:+ right)) as Hfree
    by (apply app_slash_free; [done|by apply (app_slash_free ".git")]).
  assert (left +:+ ".git" +:+ right ≠ "") as Hne by (by destruct left).
  rewrite rstrip_name, last_segment_app by done.
  unfold Str.remove_all. apply remove_all_fuel_inner; [done..|].
  rewrite str_length_app. simpl. lia.
Qed.

End RepoNameInner.

Lemma repo_name_inner_witness :
  derive_repo_name "https://github.com/octocat/octocat.github.io" = "octocathub.io".
Proof.
  apply (repo_name_drops_inner_git "https://github.com/octocat" "octocat" "hub.io");
    reflexivity.
Defined.

(** ** The route *)

Section RouteFacts.

Context `{rt : Runtime}.

Lemma run_passes_outcome (env : Environ) (fs : node) (url : string) (repo_path : Path) :
  match run_passes env fs url repo_path with
  | Response a =>
      insert_one env = Completed tt
      ∧ github_url a = url ∧ repo_name a = derive_repo_name url
  | HTTPException _ _ => False
  | Unhandled e => insert_one env = Failed e
  | RequestCancelled => ¬ llm_never_cancelled env ∨ insert_one env = Cancelled
  end.
Proof.
  unfold run_passes.
  destruct (analyze_file_structure fs repo_path) as [files deps].
  unfold get_ai_insights, try_except.
  destruct (EMERGENT_LLM_KEY env) as [key|]; [destruct (Py.truthy_str key)|];
    try (destruct (llm_send _ _ _ _ _ _ _) as [reply|e|] eqn:Esend;
         [| |by left; intros Hlive; apply Hlive in Esend]);
    destruct (insert_one env) as [[]|e'|]; auto.
Qed.

(** X14. The only client error of the route is the failed clone: when the
    request ends in an HTTP error, its status is 400, the clone raised, and
    the detail carries the clone's error text. *)
Theorem client_error_only_when_clone_fails
    (env : Environ) (fs : node) (url : string) (status : nat) (detail : string) :
  (analyze_repository env fs url).1 = HTTPException status detail ->
  status = 400
  ∧ ∃ e contents,
      clone_from env url = (Raised e, contents)
      ∧ detail = "Failed to clone repository: " +:+ exception_str e.
Proof.
  unfold analyze_repository, analyze_body.
  destruct (mkdtemp env) as [[dir fresh]|e0]; [|done].
  destruct (clone_from env url) as [[[]|e] contents]; simpl.
  - intros Hout.
    pose proof (run_passes_outcome env
                  (Fs.put (dir ++ [fresh]) (Dir contents)
                     (Fs.put (dir ++ [fresh]) (Dir []) fs)) url (dir ++ [fresh])) as H.
    by rewrite Hout in H.
  - intros [= <- <-]. eauto.
Qed.


Lemma set_entry_fresh (x : string) (n : node) (es : list (string * node)) :
  Fs.find_entry x es = None -> Fs.set_entry x n es = es ++ [(x, n)].
Proof.
  induction es as [|[y c] es IH]; simpl; [done|].
  destruct (String.eqb y x); [done|]. intros H. by rewrite IH.
Qed.

Lemma set_entry_same (x : string) (c : node) (es : list (string * node)) :
  Fs.find_entry x es = Some c -> Fs.set_entry x c es = es.
Proof.
  induction es as [|[y c'] es IH]; simpl; [done|].
  destruct (String.eqb y x) eqn:E.
  - apply String.eqb_eq in E as ->. by intros [= ->].
  - intros H. by rewrite IH.
Qed.

Lemma set_entry_twice (x : string) (n1 n2 : node) (es : list (string * node)) :
  Fs.set_entry x n2 (Fs.set_entry x n1 es) = Fs.set_entry x n2 es.
Proof.
  induction es as [|[y c] es IH]; simpl.
  - by rewrite String.eqb_refl.
  - destruct (String.eqb y x) eqn:E; simpl.
    + by rewrite String.eqb_refl.
    + by rewrite E, IH.
Qed.

Lemma remove_entry_fresh (x : string) (n : node) (es : list (string * node)) :
  Fs.find_entry x es = None -> Fs.remove_entry x (es ++ [(x, n)]) = es.
Proof.
  induction es as [|[y c] es IH]; simpl.
  - by rewrite String.eqb_refl.
  - destruct (String.eqb y x); [done|]. intros H. by rewrite IH.
Qed.

Lemma put_twice (p : Path) (n1 n2 fs : node) :
  Fs.put p n2 (Fs.put p n1 fs) = Fs.put p n2 fs.
Proof.
  revert fs. induction p as [|x p IH]; intros fs; simpl; [done|].
  by rewrite find_entry_set_entry, set_entry_twice; simpl; rewrite IH.
Qed.

Lemma remove_put_fresh (dir : Path) (fresh : string) (n fs : node)
    (es : list (string * node)) :
  Fs.resolve fs dir = Some (Dir es) -> Fs.find_entry fresh es = None ->
  Fs.remove (dir ++ [fresh]) (Fs.put (dir ++ [fresh]) n fs) = fs.
Proof.
  revert fs. induction dir as [|x dir IH]; intros fs Hdir Hfresh.
  - simpl in Hdir. injection Hdir as ->.
    change (Fs.remove ([] ++ [fresh]) (Fs.put ([] ++ [fresh]) n (Dir es)))
      with (Dir (Fs.remove_entry fresh (Fs.set_entry fresh n es))).
    by rewrite set_entry_fresh, remove_entry_fresh.
  - simpl in Hdir. destruct fs as [|es0]; [done|].
    destruct (Fs.find_entry x es0) as [c|] eqn:Ex; [|done].
    change ((x :: dir) ++ [fresh]) with (x :: (dir ++ [fresh])).
    assert (Hput : Fs.put (x :: dir ++ [fresh]) n (Dir es0)
                   = Dir (Fs.set_entry x (Fs.put (dir ++ [fresh]) n c) es0)).
    { simpl. by rewrite Ex. }
    rewrite Hput.
    destruct (dir ++ [fresh]) as [|y rest] eqn:Erest; [by destruct dir|].
    change (Fs.remove (x :: y :: rest) (Dir (Fs.set_entry x (Fs.put (y :: rest) n c) es0)))
      with (match Fs.find_entry x (Fs.set_entry x (Fs.put (y :: rest) n c) es0) with
            | Some child =>
                Dir (Fs.set_entry x (Fs.remove (y :: rest) child)
                       (Fs.set_entry x (Fs.put (y :: rest) n c) es0))
            | None => Dir (Fs.set_entry x (Fs.put (y :: rest) n c) es0)
            end).
    rewrite find_entry_set_entry, set_entry_twice, (IH c Hdir Hfresh).
    by rewrite set_entry_same.
Qed.

(** X17. A request whose directory removal goes through leaves the file
    system as it found it: when the directory [mkdtemp] creates is new in
    an existing directory and [rmtree] does not fail, the file system after
    the request equals the one before it, whatever the outcome. *)
Theorem file_system_restored_after_request
    (env : Environ) (fs : node) (url : string) :
  rmtree_failure env = None ->
  (forall dir fresh,
      mkdtemp env = Returned (dir, fresh) ->
      ∃ es, Fs.resolve fs dir = Some (Dir es) ∧ Fs.find_entry fresh es = None) ->
  (analyze_repository env fs url).2 = fs.
Proof.
  intros Hrm Hfresh. unfold analyze_repository, analyze_body.
  destruct (mkdtemp env) as [[dir fresh]|e0]; [|done].
  destruct (Hfresh dir fresh eq_refl) as (es & Hdir & Hnew).
  assert (Hclean : cleanup env
                     (Fs.put (dir ++ [fresh]) (Dir (clone_from env url).2)
                        (Fs.put (dir ++ [fresh]) (Dir []) fs))
                     (Some (dir ++ [fresh])) = fs).
  { unfold cleanup, Fs.exists_. rewrite resolve_put, Hrm, put_twice.
    by apply (remove_put_fresh dir fresh _ fs es). }
  destruct (clone_from env url) as [[[]|e] contents]; simpl in *; exact Hclean.
Qed.

End RouteFacts.

Lemma client_error_witness :
  400 = 400
  ∧ ∃ e contents,
      clone_from (Reference.failing_env None) Reference.unreachable_url = (Raised e, contents)
      ∧ "Failed to clone repository: repository not found"
        = "Failed to clone repository: " +:+ exception_str e.
Proof.
  apply (client_error_only_when_clone_fails (rt := Reference.runtime)
           (Reference.failing_env None) Reference.empty_tmp Reference.unreachable_url).
  reflexivity.
Defined.


Lemma file_system_restored_witness :
  (analyze_repository (rt := Reference.runtime) (ReferenceRoute.working_env None)
     ReferenceRoute.busy_tmp "https://github.com/octocat/Hello-World").2
  = ReferenceRoute.busy_tmp.
Proof.
  apply (file_system_restored_after_request (rt := Reference.runtime)); [reflexivity|].
  intros dir fresh [= <- <-]. eexists. split; reflexivity.
Defined.

(** * The API tester *)

Section TesterFacts.

Import Tester.

Variable nonzero : string -> bool.
Variable requests : Requests.

Lemma run_test_eq (self : state) (name method endpoint : string)
    (expected : nat) (data : option json) (timeout : nat) :
  run_test requests self name method endpoint expected data timeout
  = let success :=
      match send requests method (url_of self endpoint) data timeout with
      | Some r => answered r expected
      | None => false
      end in
    ({| base_url := base_url self; api_url := api_url self;
        tests_run := S (tests_run self);
        tests_passed := if success then S (tests_passed self) else tests_passed self;
        analysis_id := analysis_id self |},
     (success,
      if success
      then match send requests method (url_of self endpoint) data timeout with
           | Some r => body_of r
           | None => JObj []
           end
      else JObj [])).
Proof.
  unfold run_test.
  destruct (send requests method (url_of self endpoint) data timeout) as [[f|r]|];
    cbn [answered body_of]; try done.
  unfold incr_tests_passed, incr_tests_run. cbn [base_url api_url tests_run tests_passed analysis_id].
  destruct (Nat.eqb (status_code r) expected); [|done].
  by destruct (json_ r).
Qed.

(** X18. [run_test] counts every call as one run and counts a pass
    exactly when it returns [True], which it does exactly when the call
    was answered with the expected status; when it returns [False] the
    data it hands back is the empty object.  It never raises and leaves
    the other attributes alone. *)
Theorem run_test_accounting (self : state) (name method endpoint : string)
    (expected : nat) (data : option json) (timeout : nat) :
  let '(self', (success, response_data)) :=
    run_test requests self name method endpoint expected data timeout in
  tests_run self' = S (tests_run self)
  ∧ tests_passed self' = tests_passed self + Nat.b2n success
  ∧ (success = true
     ↔ ∃ r, send requests method (url_of self endpoint) data timeout = Some (inr r)
            ∧ status_code r = expected)
  ∧ (success = false -> response_data = JObj [])
  ∧ base_url self' = base_url self ∧ api_url self' = api_url self
  ∧ analysis_id self' = analysis_id self.
Proof.
  rewrite run_test_eq. cbv zeta.
  cbn [base_url api_url tests_run tests_passed analysis_id].
  destruct (send requests method (url_of self endpoint) data timeout) as [[f|r]|];
    cbn [answered Nat.b2n].
  - repeat split; try done; try lia. by intros (r & [=] & _).
  - destruct (Nat.eqb (status_code r) expected) eqn:E; cbn [Nat.b2n].
    + apply Nat.eqb_eq in E. repeat split; try done; try lia. eauto.
    + apply Nat.eqb_neq in E. repeat split; try done; try lia.
      intros (r' & [= <-] & Heq). done.
  - repeat split; try done; try lia. by intros (r & [=] & _).
Qed.

(** The tester after a test that only looks at the status. *)
Lemma guarded_status_only (t : test) (self : state) (r : request_failure + response)
    (expected : nat) (name method endpoint : string) (data : option json) (timeout : nat) :
  (forall self,
      ∃ verdict, t self
      = ((run_test requests self name method endpoint expected data timeout).1, Some verdict)) ->
  send requests method (url_of self endpoint) data timeout = Some r ->
  api_url (guarded self t) = api_url self
  ∧ tests_run (guarded self t) = S (tests_run self)
  ∧ tests_passed (guarded self t) = tests_passed self + Nat.b2n (answered r expected).
Proof.
  intros Ht Hsend. unfold guarded. destruct (Ht self) as [verdict ->].
  rewrite run_test_eq, Hsend. cbv zeta. cbn [fst api_url tests_run tests_passed].
  destruct (answered r expected); cbn [Nat.b2n]; repeat split; lia.
Qed.

Lemma validate_verdict (self self' : state) (response : json) :
  (validate self response).2 = (validate self' response).2.
Proof.
  unfold validate.
  destruct (missing_fields response required_fields) as [missing|]; [|done].
  destruct (Py.truthy missing); [done|].
  destruct (Py.get "id" JNull response); [|done].
  destruct (Py.subscript response "repo_name") as [name|]; [|done].
  destruct (differs name "Hello-World"); [done|].
  destruct (Py.subscript response "github_url") as [url|]; [|done].
  destruct (differs url test_repo); [done|].
  by destruct (summary response).
Qed.

Lemma validate_counters (self : state) (response : json) :
  api_url (validate self response).1 = api_url self
  ∧ tests_run (validate self response).1 = tests_run self
  ∧ tests_passed (validate self response).1 = tests_passed self.
Proof.
  unfold validate.
  destruct (missing_fields response required_fields) as [missing|]; [|done].
  destruct (Py.truthy missing); [done|].
  destruct (Py.get "id" JNull response); [|done].
  destruct (Py.subscript response "repo_name") as [name|]; [|done].
  destruct (differs name "Hello-World"); [done|].
  destruct (Py.subscript response "github_url") as [url|]; [|done].
  destruct (differs url test_repo); [done|].
  by destruct (summary response).
Qed.

Lemma root_step (self : state) :
  api_url self = default_base_url +:+ "/api" ->
  api_url (guarded self (test_root_endpoint requests)) = api_url self
  ∧ tests_run (guarded self (test_root_endpoint requests)) = S (tests_run self)
  ∧ tests_passed (guarded self (test_root_endpoint requests))
    = tests_passed self + Nat.b2n (answered (root_call requests) 200).
Proof.
  intros Hapi.
  apply (guarded_status_only _ self _ 200 "Root API Endpoint" "GET" "" None 60).
  - intros s. unfold test_root_endpoint.
    destruct (run_test _ _ _ _ _ _ _ _) as [s' [success response]]. eauto.
  - unfold send, url_of, root_call. cbn [Py.truthy_str]. rewrite Hapi. reflexivity.
Qed.

Lemma invalid_url_step (self : state) :
  api_url self = default_base_url +:+ "/api" ->
  api_url (guarded self (test_analyze_invalid_url requests)) = api_url self
  ∧ tests_run (guarded self (test_analyze_invalid_url requests)) = S (tests_run self)
  ∧ tests_passed (guarded self (test_analyze_invalid_url requests))
    = tests_passed self + Nat.b2n (answered (invalid_url_call requests) 400).
Proof.
  intros Hapi.
  apply (guarded_status_only _ self _ 400 "Analyze Invalid URL" "POST" "analyze"
           (Some (JObj [("github_url", JStr "invalid-url")])) 60).
  - intros s. unfold test_analyze_invalid_url.
    destruct (run_test _ _ _ _ _ _ _ _) as [s' [success response]]. eauto.
  - unfold send, url_of, invalid_url_call. cbn [Py.truthy_str]. rewrite Hapi. reflexivity.
Qed.

Lemma nonexistent_repo_step (self : state) :
  api_url self = default_base_url +:+ "/api" ->
  api_url (guarded self (test_analyze_nonexistent_repo requests)) = api_url self
  ∧ tests_run (guarded self (test_analyze_nonexistent_repo requests)) = S (tests_run self)
  ∧ tests_passed (guarded self (test_analyze_nonexistent_repo requests))
    = tests_passed self + Nat.b2n (answered (nonexistent_repo_call requests) 400).
Proof.
  intros Hapi.
  apply (guarded_status_only _ self _ 400 "Analyze Non-existent Repo" "POST" "analyze"
           (Some (JObj [("github_url",
                         JStr "https://github.com/nonexistent/nonexistent-repo-12345")])) 60).
  - intros s. unfold test_analyze_nonexistent_repo.
    destruct (run_test _ _ _ _ _ _ _ _) as [s' [success response]]. eauto.
  - unfold send, url_of, nonexistent_repo_call. cbn [Py.truthy_str]. rewrite Hapi.
    reflexivity.
Qed.

Lemma history_step (self : state) :
  api_url self = default_base_url +:+ "/api" ->
  api_url (guarded self (test_history_endpoint requests)) = api_url self
  ∧ tests_run (guarded self (test_history_endpoint requests)) = S (tests_run self)
  ∧ tests_passed (guarded self (test_history_endpoint requests))
    = tests_passed self + Nat.b2n (answered (history_call requests) 200).
Proof.
  intros Hapi.
  apply (guarded_status_only _ self _ 200 "Analysis History" "GET" "history" None 60).
  - intros s. unfold test_history_endpoint.
    destruct (run_test _ _ _ _ _ _ _ _) as [s' [success response]].
    destruct success, (is_list response); cbn [andb]; eauto.
  - unfold send, url_of, history_call. cbn [Py.truthy_str]. rewrite Hapi. reflexivity.
Qed.

Lemma valid_repo_send (self : state) :
  api_url self = default_base_url +:+ "/api" ->
  send requests "POST" (url_of self "analyze") (Some (JObj [("github_url", JStr test_repo)])) 120
  = Some (valid_repo_call requests).
Proof.
  intros Hapi. unfold send, url_of, valid_repo_call. cbn [Py.truthy_str]. rewrite Hapi.
  reflexivity.
Qed.

(** What [test_analyze_valid_repo] returns. *)
Lemma valid_repo_returns (self : state) :
  api_url self = default_base_url +:+ "/api" ->
  (test_analyze_valid_repo nonzero requests self).2
  = if answered (valid_repo_call requests) 200
       && truthy nonzero (body_of (valid_repo_call requests))
    then (validate (init default_base_url) (body_of (valid_repo_call requests))).2
    else Some (answered (valid_repo_call requests) 200).
Proof.
  intros Hapi. unfold test_analyze_valid_repo.
  rewrite run_test_eq, (valid_repo_send self Hapi). cbv zeta.
  destruct (answered (valid_repo_call requests) 200); [|done].
  destruct (truthy nonzero (body_of (valid_repo_call requests))); [|done].
  cbn [andb]. apply validate_verdict.
Qed.

Lemma valid_repo_step (self : state) :
  api_url self = default_base_url +:+ "/api" ->
  api_url (guarded self (test_analyze_valid_repo nonzero requests)) = api_url self
  ∧ tests_run (guarded self (test_analyze_valid_repo nonzero requests))
    = S (tests_run self) + Nat.b2n (content_checks_raise nonzero requests)
  ∧ tests_passed (guarded self (test_analyze_valid_repo nonzero requests))
    = tests_passed self + Nat.b2n (answered (valid_repo_call requests) 200).
Proof.
  intros Hapi. unfold guarded, content_checks_raise.
  pose proof (valid_repo_returns self Hapi) as Hret. revert Hret.
  unfold test_analyze_valid_repo.
  rewrite run_test_eq, (valid_repo_send self Hapi). cbv zeta.
  destruct (answered (valid_repo_call requests) 200);
    [|intros _; cbn; repeat split; lia].
  destruct (truthy nonzero (body_of (valid_repo_call requests)));
    [|intros _; cbn; repeat split; lia].
  cbn [andb].
  match goal with |- context [validate ?s ?r] =>
    pose proof (validate_counters s r) as (Ha & Hr & Hp);
    destruct (validate s r) as [s' verdict] end.
  cbn [fst snd api_url tests_run tests_passed] in *. intros <-.
  destruct verdict as [b|].
  - rewrite bool_decide_eq_false_2 by done. cbn [Nat.b2n]. split; [done|split; lia].
  - rewrite bool_decide_eq_true_2 by done.
    cbn [Nat.b2n incr_tests_run api_url tests_run tests_passed].
    split; [done|split; lia].
Qed.

(** The counters when the loop of [main] is over. *)
Lemma final_counters :
  tests_run (final nonzero requests) = 5 + Nat.b2n (content_checks_raise nonzero requests)
  ∧ tests_passed (final nonzero requests) = answered_count requests.
Proof.
  unfold final, tests. cbn [foldl].
  set (s0 := init default_base_url).
  assert (H0 : api_url s0 = default_base_url +:+ "/api") by reflexivity.
  destruct (root_step s0 H0) as (A1 & R1 & P1).
  set (s1 := guarded s0 (test_root_endpoint requests)) in *.
  rewrite H0 in A1.
  destruct (invalid_url_step s1 A1) as (A2 & R2 & P2).
  set (s2 := guarded s1 (test_analyze_invalid_url requests)) in *.
  rewrite A1 in A2.
  destruct (nonexistent_repo_step s2 A2) as (A3 & R3 & P3).
  set (s3 := guarded s2 (test_analyze_nonexistent_repo requests)) in *.
  rewrite A2 in A3.
  destruct (valid_repo_step s3 A3) as (A4 & R4 & P4).
  set (s4 := guarded s3 (test_analyze_valid_repo nonzero requests)) in *.
  rewrite A3 in A4.
  destruct (history_step s4 A4) as (A5 & R5 & P5).
  unfold answered_count.
  assert (tests_run s0 = 0) as Z1 by reflexivity.
  assert (tests_passed s0 = 0) as Z2 by reflexivity.
  split; lia.
Qed.

Lemma all_answered_count :
  all_answered requests = true ↔ answered_count requests = 5.
Proof.
  unfold all_answered, answered_count.
  destruct (answered (root_call requests) 200), (answered (invalid_url_call requests) 400),
    (answered (nonexistent_repo_call requests) 400), (answered (valid_repo_call requests) 200),
    (answered (history_call requests) 200); cbn; split; (done || lia).
Qed.

Lemma answered_count_le : answered_count requests <= 5.
Proof.
  unfold answered_count.
  destruct (answered (root_call requests) 200), (answered (invalid_url_call requests) 400),
    (answered (nonexistent_repo_call requests) 400), (answered (valid_repo_call requests) 200),
    (answered (history_call requests) 200); cbn; lia.
Qed.

(** X19. The exit code of [main] is 0 exactly when each of the five calls
    was answered with the status its test expects and the content checks
    on the valid-repository answer did not raise; it is 1 otherwise. *)
Theorem exit_code_zero_iff :
  (main nonzero requests = 0
   ↔ all_answered requests = true ∧ content_checks_raise nonzero requests = false)
  ∧ (main nonzero requests = 0 ∨ main nonzero requests = 1).
Proof.
  unfold main. destruct final_counters as [-> ->].
  pose proof answered_count_le as Hle.
  rewrite all_answered_count.
  destruct (content_checks_raise nonzero requests); cbn [Nat.b2n].
  - destruct (Nat.eqb_spec (answered_count requests) (5 + 1)); [lia|].
    split; [|by right]. split; [done|]. by intros [_ ?].
  - destruct (Nat.eqb_spec (answered_count requests) (5 + 0)).
    + split; [|by left]. split; [|done]. intros _. split; [lia|done].
    + split; [|by right]. split; [done|]. intros [? _]. lia.
Qed.

(** X20. The content checks do not reach the verdict: when every call is
    answered with the expected status and the checks on the
    valid-repository answer fail without raising, the test returns [False]
    and [main] still exits with 0. *)
Theorem verdict_ignores_failed_content_checks :
  all_answered requests = true ->
  truthy nonzero (body_of (valid_repo_call requests)) = true ->
  (validate (init default_base_url) (body_of (valid_repo_call requests))).2 = Some false ->
  main nonzero requests = 0
  ∧ forall self, api_url self = default_base_url +:+ "/api" ->
      (test_analyze_valid_repo nonzero requests self).2 = Some false.
Proof.
  intros Hall Htruthy Hfalse.
  assert (Hvalid : answered (valid_repo_call requests) 200 = true).
  { unfold all_answered in Hall. by repeat (apply andb_prop in Hall as [Hall ?]). }
  split.
  - unfold main. destruct final_counters as [-> ->].
    apply all_answered_count in Hall as ->.
    unfold content_checks_raise. rewrite Hvalid, Htruthy, Hfalse.
    by rewrite bool_decide_eq_false_2.
  - intros self Hapi. by rewrite valid_repo_returns, Hvalid, Htruthy.
Qed.

(** X21. An exception that leaves a test is counted as one more run: when
    the content checks raise, six runs are counted, at most five passes,
    and [main] exits with 1 although the valid-repository call was
    answered with the expected status. *)
Theorem exception_counts_as_extra_run :
  content_checks_raise nonzero requests = true ->
  tests_run (final nonzero requests) = 6
  ∧ tests_passed (final nonzero requests) <= 5
  ∧ answered (valid_repo_call requests) 200 = true
  ∧ main nonzero requests = 1.
Proof.
  intros Hraise. unfold main. destruct final_counters as [-> ->]. rewrite Hraise.
  pose proof answered_count_le as Hle. cbn [Nat.b2n].
  split; [done|]. split; [done|]. split.
  - unfold content_checks_raise in Hraise.
    by repeat (apply andb_prop in Hraise as [Hraise ?]).
  - by destruct (Nat.eqb_spec (answered_count requests) (5 + 1)); [lia|].
Qed.

Lemma missing_fields_none (response : json) (fields : list string) :
  missing_fields response fields = Some [] ->
  forall field, field ∈ fields -> Py.contains field response = Some true.
Proof.
  induction fields as [|f fields IH]; intros Hm field Hin; [by apply elem_of_nil in Hin|].
  cbn [missing_fields] in Hm.
  destruct (Py.contains f response) as [present|] eqn:Ef; [|done].
  destruct (missing_fields response fields) as [rest|] eqn:Er; [|done].
  cbn in Hm. destruct present; [|done]. injection Hm as ->.
  apply elem_of_cons in Hin as [->|Hin]; [done|by apply IH].
Qed.

(** X22. The content checks accept profiles only: when they return [True]
    the answer is an object that holds every required field, whose
    [repo_name] is [Hello-World] and whose [github_url] is the test
    repository; the [id] it holds is stored in [analysis_id]. *)
Theorem validate_accepts_profiles_only (self : state) (response : json) :
  (validate self response).2 = Some true ->
  ∃ d, Py.as_dict response = Some d
       ∧ (forall field, field ∈ required_fields -> is_Some (d !! field))
       ∧ d !! "repo_name" = Some (JStr "Hello-World")
       ∧ d !! "github_url" = Some (JStr test_repo)
       ∧ Some (analysis_id (validate self response).1) = d !! "id".
Proof.
  unfold validate.
  destruct (missing_fields response required_fields) as [missing|] eqn:Em; [|done].
  destruct missing as [|m missing]; [|done]. cbn [Py.truthy].
  unfold Py.get, Py.subscript.
  destruct (Py.as_dict response) as [d|] eqn:Ed; [|done]. cbn.
  assert (Hfields : forall field, field ∈ required_fields -> is_Some (d !! field)).
  { intros field Hin. pose proof (missing_fields_none _ _ Em field Hin) as Hc.
    destruct response; try done. unfold Py.contains in Hc. rewrite Ed in Hc.
    cbn in Hc. injection Hc as Hc. by apply bool_decide_eq_true in Hc. }
  destruct (d !! "repo_name") as [name|] eqn:En; [|done]. cbn.
  destruct (differs name "Hello-World") eqn:Dn; [done|].
  destruct (d !! "github_url") as [url|] eqn:Eu; [|done]. cbn.
  destruct (differs url test_repo) eqn:Du; [done|].
  destruct (summary response); [|done]. intros _.
  exists d. split; [done|]. split; [done|].
  assert (Hdiff : forall v s, differs v s = false -> v = JStr s).
  { intros v expected; destruct v; cbn; try done.
    intros H%negb_false_iff%String.eqb_eq. by subst. }
  apply Hdiff in Dn as ->. apply Hdiff in Du as ->.
  split; [done|]. split; [done|]. cbn [fst analysis_id set_analysis_id].
  destruct (Hfields "id") as [v Hv]; [unfold required_fields; set_solver|].
  by rewrite Hv.
Qed.

End TesterFacts.

Lemma verdict_ignores_witness :
  Tester.main ReferenceTester.nonzero (ReferenceTester.server ReferenceTester.not_a_profile) = 0
  ∧ forall self,
      Tester.api_url self = Tester.default_base_url +:+ "/api" ->
      (Tester.test_analyze_valid_repo ReferenceTester.nonzero
         (ReferenceTester.server ReferenceTester.not_a_profile) self).2 = Some false.
Proof.
  apply (verdict_ignores_failed_content_checks ReferenceTester.nonzero
           (ReferenceTester.server ReferenceTester.not_a_profile));
    vm_compute; reflexivity.
Defined.

Lemma exception_counts_witness :
  Tester.tests_run
    (Tester.final ReferenceTester.nonzero (ReferenceTester.server ReferenceTester.odd_profile)) = 6
  ∧ Tester.tests_passed
      (Tester.final ReferenceTester.nonzero (ReferenceTester.server ReferenceTester.odd_profile))
    <= 5
  ∧ Tester.answered
      (Tester.valid_repo_call (ReferenceTester.server ReferenceTester.odd_profile)) 200 = true
  ∧ Tester.main ReferenceTester.nonzero (ReferenceTester.server ReferenceTester.odd_profile) = 1.
Proof.
  apply (exception_counts_as_extra_run ReferenceTester.nonzero
           (ReferenceTester.server ReferenceTester.odd_profile)).
  vm_compute. reflexivity.
Defined.

Lemma validate_accepts_witness :
  ∃ d, Py.as_dict ReferenceTester.profile = Some d
       ∧ (forall field, field ∈ Tester.required_fields -> is_Some (d !! field))
       ∧ d !! "repo_name" = Some (JStr "Hello-World")
       ∧ d !! "github_url" = Some (JStr Tester.test_repo)
       ∧ Some (Tester.analysis_id
                 (Tester.validate (Tester.init Tester.default_base_url)
                    ReferenceTester.profile).1) = d !! "id".
Proof.
  apply (validate_accepts_profiles_only (Tester.init Tester.default_base_url)
           ReferenceTester.profile).
  vm_compute. reflexivity.
Defined.

Example healthy_run_exits_with_zero :
  Tester.main ReferenceTester.nonzero (ReferenceTester.server ReferenceTester.profile) = 0.
Proof. vm_compute. reflexivity. Qed.

(** ** Import extraction by extension *)

Section ImportDispatch.

Context `{rt : Runtime}.

Lemma extract_imports_other (fs : node) (file_path : Path) (ext : string) :
  ext ≠ ".py" -> ext ∉ js_extensions -> extract_imports fs file_path ext = [].
Proof.
  intros Hpy Hjs. unfold extract_imports.
  destruct (bool_decide (ext ∈ code_extensions)); [|done].
  destruct (String.eqb_spec ext ".py"); [done|].
  by rewrite bool_decide_eq_false_2.
Qed.

Lemma same_path_same_record (files : list FileNode.t) (a b : FileNode.t) :
  NoDup (map FileNode.path files) -> a ∈ files -> b ∈ files ->
  FileNode.path a = FileNode.path b -> a = b.
Proof.
  induction files as [|fn files IH]; intros Hnd Ha Hb Heq; [by apply elem_of_nil in Ha|].
  cbn [map] in Hnd. apply NoDup_cons in Hnd as [Hfresh Hnd].
  apply elem_of_cons in Ha as [->|Ha]; apply elem_of_cons in Hb as [->|Hb]; try done.
  - exfalso. apply Hfresh. rewrite Heq. by apply (list_elem_of_fmap_2 FileNode.path).
  - exfalso. apply Hfresh. rewrite <- Heq. by apply (list_elem_of_fmap_2 FileNode.path).
  - by apply IH.
Qed.

(** X24. Imports are extracted by extension only, and the comparison is
    exact: a file record whose type is none of [.py], [.js], [.jsx],
    [.ts], [.tsx] has an empty import list, and no key of the dependency
    map is the path of such a record. *)
Theorem imports_only_for_python_and_js_files (fs : node) (repo_path : Path) :
  Forall (fun fn =>
            FileNode.type fn ≠ ".py" -> FileNode.type fn ∉ js_extensions ->
            FileNode.imports fn = []
            ∧ (well_formed fs = true ->
               FileNode.path fn ∉ Dict.keys (analyze_file_structure fs repo_path).2))
         (analyze_file_structure fs repo_path).1.
Proof.
  apply Forall_forall. intros fn Hfn Hpy Hjs.
  assert (Himports : FileNode.imports fn = []).
  { unfold analyze_file_structure in Hfn. rewrite walk_loop_files in Hfn. simpl in Hfn.
    apply elem_of_lookup_imap in Hfn as (i & p & -> & Hp).
    unfold file_record in *. cbn [FileNode.imports FileNode.type] in *.
    destruct (Py.truthy_str (Fs.suffix p)) eqn:E.
    - by apply extract_imports_other.
    - destruct (Fs.suffix p); [|done]. by apply extract_imports_other. }
  split; [done|]. intros Hwf Hkey.
  pose proof (analyze_file_structure_invariant fs repo_path Hwf) as Hinv.
  apply (inv_keys _ _ _ Hinv) in Hkey as (fn' & Hfn' & Hpath & Hne).
  rewrite (same_path_same_record _ fn' fn (inv_unique _ _ _ Hinv)) in Hne; done.
Qed.

End ImportDispatch.
